(** * Market-intelligence pipeline: a shallow embedding and its properties

    The development follows the Python sources:

    - [01_basic_setup/news_collector.py]   ([NewsCollector.get_market_news])
    - [01_basic_setup/news_summarizer.py]  ([NewsSummarizer.summarize_news],
                                            [summarize_multiple_articles])
    - [04_hot_stocks/hot_stock_collector.py] ([identify_hot_stocks],
                                              [link_news_to_stock])
    - [01_basic_setup/email_sender.py]     ([create_market_report_email],
                                            [send_email])
    - [04_hot_stocks/main.py]              ([create_hot_stock_report_email],
                                            [main])
    - [01_basic_setup/news_summarizer.py]  ([generate_daily_summary])
    - [04_hot_stocks/hot_stock_collector.py] ([get_active_companies])
    - [04_hot_stocks/config.py], [01_basic_setup/config.py] ([load_config])
    - [01_basic_setup/main.py]             ([main])

    Python values are modelled as the code handles them: a [str] is a
    sequence of Unicode code points, a JSON payload is a tree of [None],
    strings, lists and dicts, a dict keeps its insertion order, an exception
    is a value of an error monad, and the outside world (the news provider,
    the text-generation backend, the clock) is an oracle indexed by the
    number of calls made so far together with a log of what was asked. *)

From Stdlib Require Import String Ascii.
From Stdlib Require Import List ZArith NArith Bool Arith Lia.
From Stdlib Require Import Floats.SpecFloat.
Import ListNotations.

Set Default Proof Using "Type".
Set Warnings "-register-all".

(* ================================================================== *)
(** * Part I: the model *)
(* ================================================================== *)

(** ** Python values *)

Module Py.

(** A Python [str]: a sequence of code points. *)
Definition pystr := list N.

(** Literals are written as UTF-8 text and decoded to code points. *)
Fixpoint utf8_decode (bs : list N) (acc : N) (need : nat) : pystr :=
  match bs with
  | [] => []
  | b :: rest =>
      match need with
      | O =>
          if (b <? 128)%N then b :: utf8_decode rest 0%N 0
          else if (b <? 224)%N then utf8_decode rest (b - 192)%N 1
          else if (b <? 240)%N then utf8_decode rest (b - 224)%N 2
          else utf8_decode rest (b - 240)%N 3
      | S O => (acc * 64 + (b - 128))%N :: utf8_decode rest 0%N 0
      | S n => utf8_decode rest (acc * 64 + (b - 128))%N n
      end
  end.

Definition u (s : string) : pystr :=
  utf8_decode (map N_of_ascii (list_ascii_of_string s)) 0%N 0.

Arguments u : simpl never.

(** [s == t] on strings. *)
Fixpoint pystr_eqb (s t : pystr) : bool :=
  match s, t with
  | [], [] => true
  | a :: s', b :: t' => (a =? b)%N && pystr_eqb s' t'
  | _, _ => false
  end.

(** [s.startswith(p)] and [p in s] on strings. *)
Fixpoint starts_with (p s : pystr) : bool :=
  match p, s with
  | [], _ => true
  | _ :: _, [] => false
  | a :: p', b :: s' => (a =? b)%N && starts_with p' s'
  end.

Fixpoint substring (p s : pystr) : bool :=
  starts_with p s ||
  match s with
  | [] => false
  | _ :: s' => substring p s'
  end.

(** [s.split('.')[0]]: the text before the first occurrence of [sep]
    (the whole string when [sep] does not occur). *)
Fixpoint split_head (sep : N) (s : pystr) : pystr :=
  match s with
  | [] => []
  | c :: s' => if (c =? sep)%N then [] else c :: split_head sep s'
  end.

(** [str.isspace] on one code point, and [s.strip()]. *)
Definition is_space (c : N) : bool :=
  ((9 <=? c) && (c <=? 13) || (28 <=? c) && (c <=? 32) || (c =? 133) ||
   (c =? 160) || (c =? 5760) || (8192 <=? c) && (c <=? 8202) ||
   (c =? 8232) || (c =? 8233) || (c =? 8239) || (c =? 8287) ||
   (c =? 12288))%N.

Fixpoint lstrip (s : pystr) : pystr :=
  match s with
  | [] => []
  | c :: s' => if is_space c then lstrip s' else s
  end.

Definition strip (s : pystr) : pystr := rev (lstrip (rev (lstrip s))).

(** [l[:n]] for a Python integer [n]: a negative bound counts from the
    end. *)
Definition slice_to {A : Type} (n : Z) (l : list A) : list A :=
  if (0 <=? n)%Z then firstn (Z.to_nat n) l
  else firstn (length l - Z.to_nat (- n)) l.

(** [str(n)] for a natural number. *)
Definition digit (n : nat) : N := (48 + N.of_nat n)%N.

Fixpoint str_of_nat_fuel (fuel n : nat) (acc : pystr) : pystr :=
  match fuel with
  | O => acc
  | S fuel' =>
      let acc' := digit (n mod 10) :: acc in
      if n <? 10 then acc' else str_of_nat_fuel fuel' (n / 10) acc'
  end.

Definition str_of_nat (n : nat) : pystr := str_of_nat_fuel (S n) n [].

(** The values a decoded JSON payload and the article dicts are made of.
    A dict is kept as an association list in insertion order, with
    distinct keys; numbers and booleans play no role in the code modelled
    here and are left out. *)
Inductive pyval : Type :=
| VNone
| VStr (s : pystr)
| VList (l : list pyval)
| VDict (d : list (pystr * pyval)).

Definition dict := list (pystr * pyval).

Fixpoint dict_get (k : pystr) (d : dict) : option pyval :=
  match d with
  | [] => None
  | (k', v) :: d' => if pystr_eqb k k' then Some v else dict_get k d'
  end.

(** [d.get(k, default)]. *)
Definition get_or (d : dict) (k : pystr) (default : pyval) : pyval :=
  match dict_get k d with
  | Some v => v
  | None => default
  end.

(** [d[k] = v]: replaces the value in place when the key exists, appends
    the key otherwise. *)
Fixpoint dict_set (k : pystr) (v : pyval) (d : dict) : dict :=
  match d with
  | [] => [(k, v)]
  | (k', v') :: d' =>
      if pystr_eqb k k' then (k, v) :: d' else (k', v') :: dict_set k v d'
  end.

(** Python's [==] on these values. *)
Fixpoint py_eq (a b : pyval) {struct a} : bool :=
  match a, b with
  | VNone, VNone => true
  | VStr s, VStr t => pystr_eqb s t
  | VList l, VList m =>
      (fix all2 (l : list pyval) (m : list pyval) {struct l} : bool :=
         match l, m with
         | [], [] => true
         | x :: l', y :: m' => py_eq x y && all2 l' m'
         | _, _ => false
         end) l m
  | VDict d, VDict e =>
      (length d =? length e) &&
      forallb (fun kv : pystr * pyval =>
                 match kv with
                 | (k, v) =>
                     match dict_get k e with
                     | Some w => py_eq v w
                     | None => false
                     end
                 end) d
  | _, _ => false
  end.

(** Truth value of an object ([if x:], [not x]). *)
Definition truthy (v : pyval) : bool :=
  match v with
  | VNone => false
  | VStr [] => false
  | VList [] => false
  | VDict [] => false
  | _ => true
  end.

(** Exceptions, as far as the handlers of the code tell them apart. *)
Inductive exn : Type :=
| RequestException   (* requests.exceptions.RequestException *)
| RateLimitError     (* openai.error.RateLimitError *)
| APIError           (* openai.error.APIError *)
| AttributeError
| TypeError
| ValueError.

Inductive result (A : Type) : Type :=
| Ok (a : A)
| Raise (e : exn).
Arguments Ok {A} a.
Arguments Raise {A} e.

Definition bind {A B : Type} (c : result A) (k : A -> result B) : result B :=
  match c with
  | Ok a => k a
  | Raise e => Raise e
  end.

(** [x.get(k, default)] on an arbitrary object: only a dict has [get]. *)
Definition py_get (x : pyval) (k : pystr) (default : pyval) : result pyval :=
  match x with
  | VDict d => Ok (get_or d k default)
  | _ => Raise AttributeError
  end.

(** [for item in x]. *)
Definition py_iter (x : pyval) : result (list pyval) :=
  match x with
  | VNone => Raise TypeError
  | VStr s => Ok (map (fun c => VStr [c]) s)
  | VList l => Ok l
  | VDict d => Ok (map (fun kv => VStr (fst kv)) d)
  end.

(** [needle in x] for a string [needle]. *)
Definition py_in (needle : pystr) (x : pyval) : result bool :=
  match x with
  | VNone => Raise TypeError
  | VStr s => Ok (substring needle s)
  | VList l => Ok (existsb (py_eq (VStr needle)) l)
  | VDict d => Ok (match dict_get needle d with Some _ => true | None => false end)
  end.

(** [x[:n]] for a non-negative literal [n]. *)
Definition py_slice_to (n : nat) (x : pyval) : result pyval :=
  match x with
  | VStr s => Ok (VStr (firstn n s))
  | VList l => Ok (VList (firstn n l))
  | _ => Raise TypeError
  end.

(** What the interpreter supplies and the repository does not define: the
    [repr] of a container (used when an f-string formats a list or a
    dict), and where a used-up call stack shows in a method that calls
    itself from one of its handlers: inside its [try] body ([true]), where
    the handlers of that [try] see the [RecursionError], or at the call
    made from the handler ([false]), where they do not. *)
Class Builtins : Type := {
  repr_container : pyval -> pystr;
  recursion_error_in_try : bool
}.

(** [f"{x}"]. *)
Definition py_format `{Builtins} (x : pyval) : pystr :=
  match x with
  | VStr s => s
  | VNone => u "None"
  | _ => repr_container x
  end.

End Py.

Export Py.

Notation "x <- c ;; k" := (bind c (fun x => k))
  (at level 61, c at next level, right associativity).

(** ** The deduplicating collector ([news_collector.py]) *)

Module NewsCollector.

(** The parameters of one [requests.get] on [/everything]. *)
Record query : Type := {
  q : pystr;
  from_date : pystr;
  sort_by : pystr;
  language : pystr;
  api_key : pystr;
  page_size : Z
}.

(** The provider: what the [n]-th request of a run returns once
    [raise_for_status] and [response.json()] have run: the decoded payload,
    or the exception one of them raised. *)
Definition provider := nat -> query -> result pyval.

Definition default_keywords : list pystr :=
  map u ["market"; "economy"; "finance"; "stocks"; "trading";
         "investment"; "economic"; "financial"; "business"]%string.

Definition mk_query (key yesterday : pystr) (max_articles : Z)
  (keyword : pystr) : query :=
  {| q := keyword;
     from_date := yesterday;
     sort_by := u "relevancy";
     language := u "en";
     api_key := key;
     page_size := Z.min max_articles 20 |}.

(** [a.get('url') == article.get('url')] *)
Definition same_url (a article : pyval) : result bool :=
  ua <- py_get a (u "url") VNone ;;
  uart <- py_get article (u "url") VNone ;;
  Ok (py_eq ua uart).

(** [any(a.get('url') == article.get('url') for a in all_articles)] *)
Fixpoint any_same_url (article : pyval) (all_articles : list pyval)
  : result bool :=
  match all_articles with
  | [] => Ok false
  | a :: rest =>
      b <- same_url a article ;;
      if b then Ok true else any_same_url article rest
  end.

(** The loop [for article in articles]: [all_articles] is appended to in
    place, so what was accepted before an exception stays accepted. *)
Fixpoint merge_articles (articles all_articles : list pyval)
  : list pyval * result unit :=
  match articles with
  | [] => (all_articles, Ok tt)
  | article :: rest =>
      match any_same_url article all_articles with
      | Raise e => (all_articles, Raise e)
      | Ok true => merge_articles rest all_articles
      | Ok false => merge_articles rest (all_articles ++ [article])
      end
  end.

(** The body of the inner [try], after the request has been sent. *)
Definition search_keyword (response : result pyval) (all_articles : list pyval)
  : list pyval * result unit :=
  match response with
  | Raise e => (all_articles, Raise e)
  | Ok data =>
      match py_get data (u "status") VNone with
      | Raise e => (all_articles, Raise e)
      | Ok status =>
          if py_eq status (VStr (u "ok")) then
            match (articles <- py_get data (u "articles") (VList []) ;;
                   py_iter articles) with
            | Raise e => (all_articles, Raise e)
            | Ok items => merge_articles items all_articles
            end
          else (all_articles, Ok tt)
      end
  end.

(** Both inner handlers ([RequestException], then [Exception]) only log. *)
Definition handle_keyword (r : list pyval * result unit) : list pyval :=
  match r with
  | (all_articles, Ok _) => all_articles
  | (all_articles, Raise RequestException) => all_articles
  | (all_articles, Raise _) => all_articles
  end.

(** [for keyword in keywords[:3]], threading the log of issued requests. *)
Fixpoint search_all (fetch : provider) (mkq : pystr -> query)
  (keywords : list pystr) (issued : list query) (all_articles : list pyval)
  : list query * list pyval :=
  match keywords with
  | [] => (issued, all_articles)
  | keyword :: rest =>
      let params := mkq keyword in
      let response := fetch (length issued) params in
      search_all fetch mkq rest (issued ++ [params])
        (handle_keyword (search_keyword response all_articles))
  end.

(** The dict literal built for each accepted article. *)
Definition format_article (article : pyval) : result dict :=
  title <- py_get article (u "title") (VStr []) ;;
  description <- py_get article (u "description") (VStr []) ;;
  content <- py_get article (u "content") (VStr []) ;;
  url <- py_get article (u "url") (VStr []) ;;
  source <- py_get article (u "source") (VDict []) ;;
  name <- py_get source (u "name") (VStr []) ;;
  published_at <- py_get article (u "publishedAt") (VStr []) ;;
  author <- py_get article (u "author") (VStr []) ;;
  Ok [(u "title", title);
      (u "description", description);
      (u "content", content);
      (u "url", url);
      (u "source", name);
      (u "published_at", published_at);
      (u "author", author)].

Fixpoint format_all (all_articles : list pyval) : result (list dict) :=
  match all_articles with
  | [] => Ok []
  | article :: rest =>
      formatted_article <- format_article article ;;
      formatted_rest <- format_all rest ;;
      Ok (formatted_article :: formatted_rest)
  end.

Definition try_except {A : Type} (body : result A) (handler : exn -> result A)
  : result A :=
  match body with
  | Ok a => Ok a
  | Raise e => handler e
  end.

(** [get_market_news]: the requests issued, and what the caller gets.
    [yesterday] is the date string the clock yields. *)
Definition get_market_news (key yesterday : pystr) (fetch : provider)
  (keywords : option (list pystr)) (max_articles : Z)
  : list query * result (list dict) :=
  let keywords :=
    match keywords with
    | None => default_keywords
    | Some ks => ks
    end in
  let '(issued, all_articles) :=
    search_all fetch (mk_query key yesterday max_articles)
      (firstn 3 keywords) [] [] in
  let all_articles := slice_to max_articles all_articles in
  (issued, try_except (format_all all_articles) (fun _ => Ok [])).

End NewsCollector.

(** ** The narrator ([news_summarizer.py]) *)

Module NewsSummarizer.

(** One [openai.ChatCompletion.create] call. The temperature [0.3] is kept
    in tenths. *)
Record request : Type := {
  model : pystr;
  system_message : pystr;
  user_message : pystr;
  max_tokens : nat;
  temperature_tenths : nat
}.

(** What the run does to the outside world, oldest event first. *)
Inductive event : Type :=
| Request (r : request)
| Sleep (seconds : nat).

Definition is_request (e : event) : bool :=
  match e with
  | Request _ => true
  | Sleep _ => false
  end.

Definition requests_made (log : list event) : nat :=
  length (filter is_request log).

(** The text-generation backend: what the [n]-th call of a run yields, the
    text of [response.choices[0].message.content] or the exception raised
    ([RateLimitError] for a throttle). *)
Definition backend := nat -> request -> result pystr.

(** How a call ends: it returns a value, or a [RecursionError] leaves it
    (the call stack the interpreter allows is used up in a place where the
    method handles nothing); the log is kept either way. [fuel] is the
    number of nested calls of [summarize_news] the stack still allows. *)
Inductive run (A : Type) : Type :=
| Done (a : A) (log : list event)
| RecursionError (log : list event).
Arguments Done {A} a log.
Arguments RecursionError {A} log.

Definition system_prompt : pystr :=
  u "あなたは金融・経済の専門家です。マーケットニュースを簡潔に要約し、市場への影響を明確に示してください。".

Definition prompt_head : pystr :=
  u "
以下のマーケットニュース記事を、マーケットに与える影響に焦点を当てて要約してください。

タイトル: ".

Definition prompt_mid : pystr :=
  u "

記事内容:
".

Definition prompt_tail : pystr :=
  u "  # 長すぎる場合は切り詰め

要約の要件:
1. マーケットへの影響を明確に示す
2. 重要な数値や指標があれば含める
3. 簡潔で分かりやすい日本語で
4. 3-5文程度の長さ

要約:
".

Section WithBuiltins.
Context `{Builtins}.

(** The statements of the [try] body that run before the request: the
    prompt f-string (with [article_text[:3000]]) and the log line (with
    [title[:50]]). *)
Definition build_prompt (article_text title : pyval) : result pystr :=
  body <- py_slice_to 3000 article_text ;;
  _ <- py_slice_to 50 title ;;
  Ok (prompt_head ++ py_format title ++ prompt_mid ++ py_format body
        ++ prompt_tail).

Definition mk_request (model_name prompt : pystr) : request :=
  {| model := model_name;
     system_message := system_prompt;
     user_message := prompt;
     max_tokens := 300;
     temperature_tenths := 3 |}.

(** The value both failure handlers return. *)
Definition error_summary (title : pyval) : pystr :=
  u "要約エラー: " ++ py_format title.

(** [summarize_news]. The [RateLimitError] handler sleeps and calls the
    method again; each call uses one unit of [fuel]. With the stack used
    up, the [RecursionError] is raised in the [try] body, where
    [except Exception] returns the placeholder for it, or at the call in
    the [RateLimitError] handler, which it leaves together with every call
    below. *)
Fixpoint summarize_news (fuel : nat) (api : backend) (model_name : pystr)
  (article_text title : pyval) (log : list event) : run pystr :=
  match fuel with
  | O =>
      if recursion_error_in_try then Done (error_summary title) log
      else RecursionError log
  | S fuel' =>
      match build_prompt article_text title with
      | Raise _ => Done (error_summary title) log
      | Ok prompt =>
          let req := mk_request model_name prompt in
          match api (requests_made log) req with
          | Ok content => Done (strip content) (log ++ [Request req])
          | Raise RateLimitError =>
              summarize_news fuel' api model_name article_text title
                (log ++ [Request req; Sleep 60])
          | Raise APIError =>
              Done (error_summary title) (log ++ [Request req])
          | Raise _ =>
              Done (error_summary title) (log ++ [Request req])
          end
      end
  end.

(** The text an article is summarized from: [content], or [description]
    when [content] is falsy. *)
Definition article_body (article : dict) : pyval :=
  let content := get_or article (u "content") (VStr []) in
  if truthy content then content
  else get_or article (u "description") (VStr []).

(** The loop of [summarize_multiple_articles] from index [i] on; [n] is
    [len(articles)]. On a dict the one statement of its [try] body that
    can raise is the call of [summarize_news], with a [RecursionError];
    the [except Exception] branch then gives the item the placeholder
    summary, without a pause, and the loop goes on. *)
Fixpoint summarize_from (fuel : nat) (api : backend) (model_name : pystr)
  (n i : nat) (articles summarized_articles : list dict) (log : list event)
  : run (list dict) :=
  match articles with
  | [] => Done summarized_articles log
  | article :: rest =>
      let content := article_body article in
      if negb (truthy content) then
        summarize_from fuel api model_name n (S i) rest summarized_articles log
      else
        match summarize_news fuel api model_name content
                (get_or article (u "title") (VStr [])) log with
        | RecursionError log' =>
            let article_with_summary :=
              dict_set (u "summary")
                (VStr (error_summary
                         (get_or article (u "title") (VStr (u "Unknown")))))
                article in
            summarize_from fuel api model_name n (S i) rest
              (summarized_articles ++ [article_with_summary]) log'
        | Done summary log' =>
            let article_with_summary :=
              dict_set (u "summary") (VStr summary) article in
            let log'' := if i <? n - 1 then log' ++ [Sleep 1] else log' in
            summarize_from fuel api model_name n (S i) rest
              (summarized_articles ++ [article_with_summary]) log''
        end
  end.

Definition summarize_multiple_articles (fuel : nat) (api : backend)
  (model_name : pystr) (articles : list dict) (log : list event)
  : run (list dict) :=
  summarize_from fuel api model_name (length articles) 0 articles [] log.

End WithBuiltins.

End NewsSummarizer.

(** ** The anomaly detector and the cross-linker ([hot_stock_collector.py]) *)

Module HotStock.

(** IEEE 754 binary64, the arithmetic of [numpy.float64]: every operation
    is total, a division by zero gives an infinity or a NaN. *)
Definition f64 := spec_float.
Definition prec : Z := 53.
Definition emax : Z := 1024.

Definition f64_of_Z (z : Z) : f64 := binary_normalize prec emax z 0 false.
Definition f64_div : f64 -> f64 -> f64 := SFdiv prec emax.
Definition f64_sub : f64 -> f64 -> f64 := SFsub prec emax.
Definition f64_mul : f64 -> f64 -> f64 := SFmul prec emax.
Definition f64_add : f64 -> f64 -> f64 := SFadd prec emax.
(** [a > b] and [a >= b] *)
Definition f64_gt (a b : f64) : bool := SFltb b a.
Definition f64_ge (a b : f64) : bool := SFleb b a.
Definition f64_zero : f64 := S754_zero false.

(** What pandas and the interpreter supply: [Series.mean] and the format
    specification [.1f]. *)
Class Numerics : Type := {
  series_mean : list f64 -> f64;
  format_1f : f64 -> pystr
}.

(** The plain mean, summing from the left. *)
Definition naive_mean (xs : list f64) : f64 :=
  f64_div (fold_left f64_add xs f64_zero) (f64_of_Z (Z.of_nat (length xs))).

(** One row of a price history; only the columns the detector reads. *)
Record bar : Type := {
  Close : f64;
  Volume : f64
}.

Definition dataframe := list bar.

(** [s.iloc[-1]] and [s.iloc[-2]] of a series of at least two values. *)
Definition iloc_last (s : list f64) : f64 := last s f64_zero.
Definition iloc_prev (s : list f64) : f64 := last (removelast s) f64_zero.

(** What [link_news_to_stock] keeps of a linked article. *)
Record related : Type := {
  rel_title : pyval;
  rel_summary : pyval;
  rel_url : pyval
}.

(** The dict [identify_hot_stocks] builds; [main] adds [related_news]. *)
Record hot_stock : Type := {
  symbol : pystr;
  volume_ratio : f64;
  price_change : f64;
  reasons : list pystr;
  related_news : option (list related)
}.

Section WithNumerics.
Context `{Numerics}.

Definition volume_ratio_of (df : dataframe) : f64 :=
  let avg_volume := series_mean (removelast (map Volume df)) in
  let last_volume := iloc_last (map Volume df) in
  if f64_gt avg_volume f64_zero then f64_div last_volume avg_volume
  else f64_zero.

Definition price_change_of (df : dataframe) : f64 :=
  let closes := map Close df in
  f64_div (f64_sub (iloc_last closes) (iloc_prev closes)) (iloc_prev closes).

Definition volume_fired (volume_threshold : f64) (df : dataframe) : bool :=
  f64_ge (volume_ratio_of df) volume_threshold.

Definition price_fired (price_change_threshold : f64) (df : dataframe) : bool :=
  f64_ge (SFabs (price_change_of df)) price_change_threshold.

Definition volume_reason (ratio : f64) : pystr :=
  u "出来高が過去平均の" ++ format_1f ratio ++ u "倍".

Definition price_reason (change : f64) : pystr :=
  u "株価が前日比" ++ format_1f (f64_mul change (f64_of_Z 100)) ++ u "%変動".

Definition reasons_of (volume_threshold price_change_threshold : f64)
  (df : dataframe) : list pystr :=
  (if volume_fired volume_threshold df
   then [volume_reason (volume_ratio_of df)] else [])
  ++
  (if price_fired price_change_threshold df
   then [price_reason (price_change_of df)] else []).

(** [identify_hot_stocks]; [stock_data] is the dict in iteration order. The
    columns are there by the type of [dataframe] and float arithmetic does
    not raise, so the [except] branch has no counterpart. *)
Fixpoint identify_hot_stocks (stock_data : list (pystr * dataframe))
  (volume_threshold price_change_threshold : f64) : list hot_stock :=
  match stock_data with
  | [] => []
  | (sym, df) :: rest =>
      let tail :=
        identify_hot_stocks rest volume_threshold price_change_threshold in
      if length df <? 2 then tail
      else
        let rs := reasons_of volume_threshold price_change_threshold df in
        match rs with
        | [] => tail
        | _ :: _ =>
            {| symbol := sym;
               volume_ratio := volume_ratio_of df;
               price_change := price_change_of df;
               reasons := rs;
               related_news := None |} :: tail
        end
  end.

End WithNumerics.

(** [link_news_to_stock]: nothing is caught here, so a title that supports
    no [in] test raises to the caller. *)
Definition title_matches (stock_symbol : pystr) (title : pyval) : result bool :=
  by_code <- py_in (split_head 46 stock_symbol) title ;;
  if by_code then Ok true else py_in stock_symbol title.

Fixpoint link_news_to_stock (stock_symbol : pystr) (news_articles : list dict)
  : result (list related) :=
  match news_articles with
  | [] => Ok []
  | article :: rest =>
      let title := get_or article (u "title") (VStr []) in
      hit <- title_matches stock_symbol title ;;
      linked <- link_news_to_stock stock_symbol rest ;;
      if hit then
        Ok ({| rel_title := title;
               rel_summary := get_or article (u "summary") (VStr []);
               rel_url := get_or article (u "url") (VStr []) |} :: linked)
      else Ok linked
  end.

End HotStock.

(** ** The report composer ([email_sender.py], [04_hot_stocks/main.py]) *)

Module Email.

Import HotStock.

Definition nl : pystr := [10%N].

Definition report_title : pystr :=
  u "
市場情報自動収集・分析システム - 日次レポート
".

Definition report_before_summary : pystr :=
  u "

━━━━━━━━━━━━━━━━━━━━━━━━━━━━━━━━━━━━━━━━━━━━━━━━━━━━━━━━━━━━━━━━━━━━━━━━━━━━━━━━

【本日の市場動向サマリー】
".

Definition report_after_summary : pystr :=
  u "

━━━━━━━━━━━━━━━━━━━━━━━━━━━━━━━━━━━━━━━━━━━━━━━━━━━━━━━━━━━━━━━━━━━━━━━━━━━━━━━━

【主要ニュース詳細】

".

Definition report_footer : pystr :=
  u "
━━━━━━━━━━━━━━━━━━━━━━━━━━━━━━━━━━━━━━━━━━━━━━━━━━━━━━━━━━━━━━━━━━━━━━━━━━━━━━━━

※ このレポートは自動生成されています。
※ 投資判断は必ずご自身で行ってください。
※ 本システムは投資助言を行うものではありません。

━━━━━━━━━━━━━━━━━━━━━━━━━━━━━━━━━━━━━━━━━━━━━━━━━━━━━━━━━━━━━━━━━━━━━━━━━━━━━━━━
".

Definition item_number_sep : pystr :=
  u ". ".

Definition item_source_label : pystr :=
  u "
    出典: ".

Definition item_date_label : pystr :=
  u "
    公開日: ".

Definition item_summary_label : pystr :=
  u "
    
    要約:
    ".

Definition item_url_label : pystr :=
  u "
    
    詳細: ".

Definition item_end : pystr :=
  u "
    
".

Definition hot_title : pystr :=
  u "
動きのあった会社・注目銘柄自動抽出レポート
".

Definition hot_after_date : pystr :=
  u "

━━━━━━━━━━━━━━━━━━━━━━━━━━━━━━━━━━━━━━━━━━━━━━━━━━━━━━━━━━━━━━━━━━━━━━━━━━━━━━━━

".

Definition hot_footer : pystr :=
  u "
━━━━━━━━━━━━━━━━━━━━━━━━━━━━━━━━━━━━━━━━━━━━━━━━━━━━━━━━━━━━━━━━━━━━━━━━━━━━━━━━

※ 本レポートは自動生成です。投資判断は必ずご自身で行ってください。

━━━━━━━━━━━━━━━━━━━━━━━━━━━━━━━━━━━━━━━━━━━━━━━━━━━━━━━━━━━━━━━━━━━━━━━━━━━━━━━━
".

Section WithBuiltins.
Context `{Builtins}.

(** The header f-string of [create_market_report_email]; [today] is the
    formatted date the clock yields. *)
Definition report_header (today daily_summary : pystr) : pystr :=
  report_title ++ today ++ report_before_summary ++ daily_summary
    ++ report_after_summary.

(** The f-string appended for the [i]-th article. *)
Definition article_block (i : nat) (article : dict) : pystr :=
  nl ++ str_of_nat i ++ item_number_sep
    ++ py_format (get_or article (u "title") (VStr (u "Unknown")))
    ++ item_source_label
    ++ py_format (get_or article (u "source") (VStr (u "Unknown")))
    ++ item_date_label
    ++ py_format (get_or article (u "published_at") (VStr (u "Unknown")))
    ++ item_summary_label
    ++ py_format (get_or article (u "summary") (VStr (u "No summary")))
    ++ item_url_label
    ++ py_format (get_or article (u "url") (VStr (u "No URL")))
    ++ item_end.

(** [for i, article in enumerate(..., 1)] *)
Fixpoint article_blocks (i : nat) (articles : list dict) : pystr :=
  match articles with
  | [] => []
  | article :: rest => article_block i article ++ article_blocks (S i) rest
  end.

Definition create_market_report_email (today daily_summary : pystr)
  (summarized_articles : list dict) : pystr :=
  report_header today daily_summary
    ++ article_blocks 1 (firstn 5 summarized_articles)
    ++ report_footer.

(** [create_hot_stock_report_email] *)
Definition reason_line (reason : pystr) : pystr :=
  u "  - " ++ reason ++ nl.

Definition news_lines (news : related) : pystr :=
  u "    ・" ++ py_format (rel_title news) ++ nl
    ++ u "      " ++ py_format (rel_summary news) ++ nl
    ++ u "      " ++ py_format (rel_url news) ++ nl.

Definition related_block (stock : hot_stock) : pystr :=
  match related_news stock with
  | Some (n :: ns) => u "  関連ニュース:" ++ nl ++ flat_map news_lines (n :: ns)
  | _ => []
  end.

Definition stock_block (stock : hot_stock) : pystr :=
  u "■ " ++ symbol stock ++ nl
    ++ flat_map reason_line (reasons stock)
    ++ related_block stock
    ++ nl.

Definition create_hot_stock_report_email (today : pystr)
  (hot_stocks : list hot_stock) : pystr :=
  hot_title ++ today ++ hot_after_date
    ++ flat_map stock_block hot_stocks
    ++ hot_footer.

End WithBuiltins.

End Email.

(** ** The daily summary ([news_summarizer.py], [generate_daily_summary]) *)

Module DailySummary.

Import NewsSummarizer.

Definition newline : pystr := [10%N].

Definition nothing_today : pystr :=
  u "本日は重要なマーケットニュースはありませんでした。".

Definition daily_fallback : pystr :=
  u "日次サマリーの生成中にエラーが発生しました。".

Definition daily_system_prompt : pystr :=
  u "あなたは金融・経済の専門アナリストです。市場動向を簡潔にまとめ、投資家に有用な洞察を提供してください。".

Definition daily_prompt_head : pystr :=
  u "
以下のマーケットニュースの要約を基に、本日の市場動向を簡潔にまとめてください。

本日の主要ニュース:
".

Definition daily_prompt_tail : pystr :=
  u "

要件:
1. 市場全体の動向を把握
2. 最も重要な影響要因を特定
3. 投資家への示唆を含める
4. 3-4段落程度の長さ
5. 分かりやすい日本語で

本日の市場動向サマリー:
".

Section WithBuiltins.
Context `{Builtins}.

(** The two f-strings appended to [articles_text] for the [i]-th item. *)
Definition daily_item (i : nat) (article : dict) : pystr :=
  (str_of_nat i ++ u ". "
     ++ py_format (get_or article (u "title") (VStr (u "Unknown")))
     ++ newline)
  ++ (u "   要約: "
        ++ py_format (get_or article (u "summary") (VStr (u "No summary")))
        ++ newline ++ newline).

(** [for i, article in enumerate(summarized_articles[:5], 1)] *)
Fixpoint daily_items (i : nat) (articles : list dict) : pystr :=
  match articles with
  | [] => []
  | article :: rest => daily_item i article ++ daily_items (S i) rest
  end.

Definition daily_prompt (summarized_articles : list dict) : pystr :=
  daily_prompt_head ++ daily_items 1 (firstn 5 summarized_articles)
    ++ daily_prompt_tail.

Definition mk_daily_request (model_name prompt : pystr) : request :=
  {| model := model_name;
     system_message := daily_system_prompt;
     user_message := prompt;
     max_tokens := 500;
     temperature_tenths := 3 |}.

(** [generate_daily_summary]: one [try] around everything, one handler
    for every exception, no retry. *)
Definition generate_daily_summary (api : backend) (model_name : pystr)
  (summarized_articles : list dict) (log : list event)
  : pystr * list event :=
  match summarized_articles with
  | [] => (nothing_today, log)
  | _ :: _ =>
      let req := mk_daily_request model_name (daily_prompt summarized_articles) in
      match api (requests_made log) req with
      | Ok content => (strip content, log ++ [Request req])
      | Raise _ => (daily_fallback, log ++ [Request req])
      end
  end.

End WithBuiltins.

End DailySummary.

(** ** Splitting strings ([str.split], [str.join]) *)

Module PySplit.

(** [s.split(sep)] for a one-character separator: never an empty list. *)
Fixpoint split (sep : N) (s : pystr) : list pystr :=
  match s with
  | [] => [[]]
  | c :: s' =>
      if (c =? sep)%N then [] :: split sep s'
      else
        match split sep s' with
        | piece :: pieces => (c :: piece) :: pieces
        | [] => [[c]]
        end
  end.

(** [sep.join(pieces)] *)
Fixpoint join (sep : N) (pieces : list pystr) : pystr :=
  match pieces with
  | [] => []
  | [piece] => piece
  | piece :: rest => piece ++ sep :: join sep rest
  end.

End PySplit.

(** ** Price histories ([hot_stock_collector.py], [get_active_companies]) *)

Module ActiveCompanies.

Import HotStock.

(** The market data service: what [yf.Ticker(symbol).history(period=...)]
    yields on the [n]-th call of a run, the frame (only the columns read
    later) or the exception raised. [days] is the number formatted into the
    period. *)
Definition market := nat -> pystr -> Z -> result dataframe.

(** [results[symbol] = df]: the value is replaced where the key exists, the
    key is appended otherwise. *)
Fixpoint frames_set (sym : pystr) (df : dataframe)
  (results : list (pystr * dataframe)) : list (pystr * dataframe) :=
  match results with
  | [] => [(sym, df)]
  | (s, d) :: rest =>
      if pystr_eqb sym s then (sym, df) :: rest
      else (s, d) :: frames_set sym df rest
  end.

(** The body of the loop for one symbol: an exception and an empty frame
    are logged and leave [results] as they are. *)
Definition keep_frame (response : result dataframe) (sym : pystr)
  (results : list (pystr * dataframe)) : list (pystr * dataframe) :=
  match response with
  | Ok [] => results
  | Ok (row :: rows) => frames_set sym (row :: rows) results
  | Raise _ => results
  end.

(** [for symbol in symbols], threading the symbols asked so far. *)
Fixpoint get_active_from (history : market) (days : Z)
  (symbols asked : list pystr) (results : list (pystr * dataframe))
  : list pystr * list (pystr * dataframe) :=
  match symbols with
  | [] => (asked, results)
  | sym :: rest =>
      get_active_from history days rest (asked ++ [sym])
        (keep_frame (history (length asked) sym days) sym results)
  end.

Definition get_active_companies (history : market) (symbols : list pystr)
  (days : Z) : list pystr * list (pystr * dataframe) :=
  get_active_from history days symbols [] [].

End ActiveCompanies.

(** ** Sending the report ([email_sender.py], [send_email]) *)

Module Mail.

Import PySplit.

(** One attached file: the value of its [Content-Disposition] header and
    the bytes read from the file (base64 is the transfer encoding). *)
Record part : Type := {
  disposition : pystr;
  part_bytes : list N
}.

(** [msg_from] is the sender's user name, [None] when the configuration
    has none. *)
Record message : Type := {
  msg_from : option pystr;
  msg_to : pystr;
  msg_subject : pystr;
  msg_body : pystr;
  msg_parts : list part
}.

(** The file system: the bytes [open(file_path, "rb").read()] yields, or
    [None] when opening or reading raises. *)
Definition files := pystr -> option (list N).

(** One SMTP session ([SMTP(...)], [starttls], [login], [send_message]). *)
Inductive session : Type :=
| Delivered
| SMTPAuthenticationError
| SessionError.

(** The mail server: how the [n]-th session of a run ends, for the
    credentials and the message given. *)
Definition server :=
  nat -> option pystr -> option pystr -> message -> session.

(** [file_path.split("/")[-1]] *)
Definition basename (file_path : pystr) : pystr :=
  last (split 47 file_path) [].

Definition disposition_of (file_path : pystr) : pystr :=
  u "attachment; filename= " ++ basename file_path.

(** [for file_path in attachments], each file in a [try] of its own. *)
Fixpoint attach_files (fs : files) (attachments : list pystr)
  (parts : list part) : list part :=
  match attachments with
  | [] => parts
  | file_path :: rest =>
      attach_files fs rest
        match fs file_path with
        | Some bytes =>
            parts ++ [{| disposition := disposition_of file_path;
                         part_bytes := bytes |}]
        | None => parts
        end
  end.

(** [send_email]: the result, and the sessions opened so far with the
    message each was given. *)
Definition send_email (fs : files) (smtp : server)
  (username app_password : option pystr) (subject body to_address : pystr)
  (attachments : option (list pystr)) (sessions : list message)
  : bool * list message :=
  let parts :=
    match attachments with
    | Some (file_path :: rest) => attach_files fs (file_path :: rest) []
    | _ => []
    end in
  let msg :=
    {| msg_from := username;
       msg_to := to_address;
       msg_subject := subject;
       msg_body := body;
       msg_parts := parts |} in
  match smtp (length sessions) username app_password msg with
  | Delivered => (true, sessions ++ [msg])
  | SMTPAuthenticationError => (false, sessions ++ [msg])
  | SessionError => (false, sessions ++ [msg])
  end.

End Mail.

(** ** The configuration of the hot-stock phase ([04_hot_stocks/config.py]) *)

Module HotStockConfig.

Import HotStock PySplit.

(** [os.environ.get(name)] *)
Definition environ := pystr -> option pystr.

(** [int(text)] and [float(text)] on a string, as the interpreter parses
    them; [None] stands for the [ValueError] they raise. *)
Class Parsers : Type := {
  int_of_str : pystr -> option Z;
  float_of_str : pystr -> option f64
}.

(** The dict [load_config] returns; a value [os.environ.get] found absent
    is [None]. *)
Record config : Type := {
  openai_api_key : option pystr;
  gmail_username : option pystr;
  gmail_app_password : option pystr;
  recipient_email : option pystr;
  sender_email : option pystr;
  log_level : pystr;
  hot_stock_days : Z;
  volume_threshold : f64;
  price_change_threshold : f64;
  target_symbols : list pystr
}.

(** The truth value of a configuration value: neither [None] nor [""]. *)
Definition is_set (v : option pystr) : bool :=
  match v with
  | Some (_ :: _) => true
  | _ => false
  end.

(** [int(os.environ.get(name, default))] and its [float] twin: the default
    is a number already. *)
Definition int_setting `{Parsers} (env : environ) (name : pystr)
  (default : Z) : result Z :=
  match env name with
  | None => Ok default
  | Some text =>
      match int_of_str text with
      | Some z => Ok z
      | None => Raise ValueError
      end
  end.

Definition float_setting `{Parsers} (env : environ) (name : pystr)
  (default : f64) : result f64 :=
  match env name with
  | None => Ok default
  | Some text =>
      match float_of_str text with
      | Some x => Ok x
      | None => Raise ValueError
      end
  end.

Definition default_symbols : pystr := u "7203.T,6758.T,AAPL,MSFT".

(** [load_config]: the dict literal is evaluated first, then the required
    keys are checked. *)
Definition load_config `{Parsers} (env : environ) : result config :=
  days <- int_setting env (u "HOT_STOCK_DAYS") 5 ;;
  vt <- float_setting env (u "VOLUME_THRESHOLD") (f64_of_Z 2) ;;
  pt <- float_setting env (u "PRICE_CHANGE_THRESHOLD")
          (f64_div (f64_of_Z 5) (f64_of_Z 100)) ;;
  let loaded :=
    {| openai_api_key := env (u "OPENAI_API_KEY");
       gmail_username := env (u "GMAIL_USERNAME");
       gmail_app_password := env (u "GMAIL_APP_PASSWORD");
       recipient_email := env (u "RECIPIENT_EMAIL");
       sender_email := env (u "SENDER_EMAIL");
       log_level :=
         match env (u "LOG_LEVEL") with
         | Some level => level
         | None => u "INFO"
         end;
       hot_stock_days := days;
       volume_threshold := vt;
       price_change_threshold := pt;
       target_symbols :=
         split 44
           match env (u "TARGET_SYMBOLS") with
           | Some symbols => symbols
           | None => default_symbols
           end |} in
  let missing_keys :=
    filter (fun entry => negb (is_set (snd entry)))
      [(u "openai_api_key", openai_api_key loaded);
       (u "recipient_email", recipient_email loaded)] in
  match missing_keys with
  | [] => Ok loaded
  | _ :: _ => Raise ValueError
  end.

End HotStockConfig.

(** ** The hot-stock phase ([04_hot_stocks/main.py], [main]) *)

Module HotStockMain.

Import NewsCollector NewsSummarizer HotStock Email.
Import ActiveCompanies Mail HotStockConfig.

(** What a run has done to the outside world. *)
Record world : Type := {
  asked : list pystr;
  queries : list query;
  events : list event;
  sessions : list message;
  printed : list pystr
}.

(** How [main] ends: it returns or an exception leaves it, a
    [RecursionError] (which [summarize_multiple_articles] never lets
    through) apart. *)
Inductive ending : Type :=
| Returned
| Raised (e : exn)
| RaisedRecursionError.

(** The three readings of the clock: the date of the news query, the date
    in the report and the date in the subject. *)
Record clock : Type := {
  yesterday : pystr;
  report_date : pystr;
  subject_date : pystr
}.

Definition set_related (stock : hot_stock) (linked : list related)
  : hot_stock :=
  {| symbol := symbol stock;
     volume_ratio := volume_ratio stock;
     price_change := price_change stock;
     reasons := reasons stock;
     related_news := Some linked |}.

(** [for stock in hot_stocks: stock['related_news'] = link_news_to_stock(...)] *)
Fixpoint attach_related (news_articles : list dict)
  (hot_stocks : list hot_stock) : result (list hot_stock) :=
  match hot_stocks with
  | [] => Ok []
  | stock :: rest =>
      linked <- link_news_to_stock (symbol stock) news_articles ;;
      rest' <- attach_related news_articles rest ;;
      Ok (set_related stock linked :: rest')
  end.

Definition text (v : option pystr) : pystr :=
  match v with
  | Some s => s
  | None => []
  end.

Definition subject_of (today : pystr) : pystr :=
  u "注目銘柄レポート - " ++ today.

Section WithRuntime.
Context `{Builtins} `{Numerics} `{Parsers}.

(** Step 3: the news, collected with the OpenAI key as the collector's
    key and narrated, when phase 1 is importable. *)
Definition collect_news (phase1_available : bool) (loaded : config)
  (now : clock) (fetch : provider) (api : backend) (fuel : nat)
  : list query * run (list dict) :=
  if phase1_available && is_set (openai_api_key loaded) then
    let '(issued, collected) :=
      get_market_news (text (openai_api_key loaded)) (yesterday now) fetch
        None 30 in
    match collected with
    | Ok (article :: rest) =>
        (issued,
         summarize_multiple_articles fuel api (u "gpt-4o-mini")
           (article :: rest) [])
    | _ => (issued, Done [] [])
    end
  else ([], Done [] []).

(** Step 5: the report, mailed or printed. *)
Definition deliver (phase1_available : bool) (loaded : config) (now : clock)
  (fs : files) (smtp : server) (hot_stocks : list hot_stock)
  : list message * list pystr :=
  let body := create_hot_stock_report_email (report_date now) hot_stocks in
  if phase1_available then
    (snd (send_email fs smtp (gmail_username loaded)
            (gmail_app_password loaded) (subject_of (subject_date now)) body
            (text (recipient_email loaded)) None []),
     [])
  else ([], [u "--- 注目銘柄レポート ---"; body]).

(** [main]. [logging] tells whether [setup_logging] succeeds for a level;
    nothing in [main] catches an exception. *)
Definition main (env : environ) (logging : pystr -> result unit)
  (phase1_available : bool) (now : clock) (history : market)
  (fetch : provider) (api : backend) (fs : files) (smtp : server)
  (fuel : nat) : ending * world :=
  let nothing :=
    {| asked := []; queries := []; events := []; sessions := [];
       printed := [] |} in
  match load_config env with
  | Raise e => (Raised e, nothing)
  | Ok loaded =>
      match logging (log_level loaded) with
      | Raise e => (Raised e, nothing)
      | Ok _ =>
          let '(symbols, stock_data) :=
            get_active_companies history (target_symbols loaded)
              (hot_stock_days loaded) in
          let fetched_only :=
            {| asked := symbols; queries := []; events := []; sessions := [];
               printed := [] |} in
          match stock_data with
          | [] => (Returned, fetched_only)
          | _ :: _ =>
              match identify_hot_stocks stock_data (volume_threshold loaded)
                      (price_change_threshold loaded) with
              | [] => (Returned, fetched_only)
              | stock :: stocks =>
                  match collect_news phase1_available loaded now fetch api
                          fuel with
                  | (issued, RecursionError log) =>
                      (RaisedRecursionError,
                       {| asked := symbols; queries := issued; events := log;
                          sessions := []; printed := [] |})
                  | (issued, Done news_articles log) =>
                      match attach_related news_articles (stock :: stocks) with
                      | Raise e =>
                          (Raised e,
                           {| asked := symbols; queries := issued;
                              events := log; sessions := [];
                              printed := [] |})
                      | Ok hot_stocks =>
                          let '(mail, lines) :=
                            deliver phase1_available loaded now fs smtp
                              hot_stocks in
                          (Returned,
                           {| asked := symbols; queries := issued;
                              events := log; sessions := mail;
                              printed := lines |})
                      end
                  end
              end
          end
      end
  end.

End WithRuntime.

End HotStockMain.

(** ** The configuration of phase 1 ([01_basic_setup/config.py]) *)

Module MarketConfig.

Import HotStockConfig.

Record config : Type := {
  news_api_key : option pystr;
  openai_api_key : option pystr;
  gmail_client_id : option pystr;
  gmail_client_secret : option pystr;
  gmail_refresh_token : option pystr;
  gmail_username : option pystr;
  gmail_app_password : option pystr;
  recipient_email : option pystr;
  sender_email : option pystr;
  log_level : pystr;
  max_news_articles : Z
}.

(** [load_config]: the dict literal first, then the required keys. *)
Definition load_config `{Parsers} (env : environ) : result config :=
  limit <- int_setting env (u "MAX_NEWS_ARTICLES") 10 ;;
  let loaded :=
    {| news_api_key := env (u "NEWS_API_KEY");
       openai_api_key := env (u "OPENAI_API_KEY");
       gmail_client_id := env (u "GMAIL_CLIENT_ID");
       gmail_client_secret := env (u "GMAIL_CLIENT_SECRET");
       gmail_refresh_token := env (u "GMAIL_REFRESH_TOKEN");
       gmail_username := env (u "GMAIL_USERNAME");
       gmail_app_password := env (u "GMAIL_APP_PASSWORD");
       recipient_email := env (u "RECIPIENT_EMAIL");
       sender_email := env (u "SENDER_EMAIL");
       log_level :=
         match env (u "LOG_LEVEL") with
         | Some level => level
         | None => u "INFO"
         end;
       max_news_articles := limit |} in
  let missing_keys :=
    filter (fun entry => negb (is_set (snd entry)))
      [(u "news_api_key", news_api_key loaded);
       (u "openai_api_key", openai_api_key loaded);
       (u "recipient_email", recipient_email loaded)] in
  match missing_keys with
  | [] => Ok loaded
  | _ :: _ => Raise ValueError
  end.

End MarketConfig.

(** ** The run of phase 1 ([01_basic_setup/main.py]) *)

Module MarketMain.

Import NewsCollector NewsSummarizer Email DailySummary.
Import Mail HotStockConfig MarketConfig.

(** What a run has done to the outside world. *)
Record world : Type := {
  queries : list query;
  events : list event;
  sessions : list message
}.

(** How [main] ends. The handler of [main] logs through [logger], a local
    name bound only after [setup_logging] has returned: when [load_config]
    or [setup_logging] raises, the handler itself raises
    [UnboundLocalError]; after that point it logs and raises the exception
    again, a [RecursionError] (which [summarize_multiple_articles] never
    lets through) included. *)
Inductive ending : Type :=
| Returned
| Raised (e : exn)
| RaisedUnboundLocalError
| RaisedRecursionError.

(** The three readings of the clock: the date of the news query, the date
    in the report and the date in the subject. *)
Record clock : Type := {
  yesterday : pystr;
  report_date : pystr;
  subject_date : pystr
}.

Definition text (v : option pystr) : pystr :=
  match v with
  | Some s => s
  | None => []
  end.

Definition subject_of (today : pystr) : pystr :=
  u "市場情報レポート - " ++ today.

Section WithRuntime.
Context `{Builtins} `{Parsers}.

Definition main (env : environ) (logging : pystr -> result unit)
  (now : clock) (fetch : provider) (api : backend) (fs : files)
  (smtp : server) (fuel : nat) : ending * world :=
  let nothing := {| queries := []; events := []; sessions := [] |} in
  match load_config env with
  | Raise _ => (RaisedUnboundLocalError, nothing)
  | Ok loaded =>
      match logging (log_level loaded) with
      | Raise _ => (RaisedUnboundLocalError, nothing)
      | Ok _ =>
          let '(issued, collected) :=
            get_market_news (text (news_api_key loaded)) (yesterday now)
              fetch None (max_news_articles loaded) in
          match collected with
          | Raise e =>
              (Raised e,
               {| queries := issued; events := []; sessions := [] |})
          | Ok [] =>
              (Returned,
               {| queries := issued; events := []; sessions := [] |})
          | Ok (article :: rest) =>
              match summarize_multiple_articles fuel api (u "gpt-4o-mini")
                      (article :: rest) [] with
              | RecursionError log =>
                  (RaisedRecursionError,
                   {| queries := issued; events := log; sessions := [] |})
              | Done [] log =>
                  (Returned,
                   {| queries := issued; events := log; sessions := [] |})
              | Done (first :: others) log =>
                  let '(daily_summary, log') :=
                    generate_daily_summary api (u "gpt-4o-mini")
                      (first :: others) log in
                  let email_body :=
                    create_market_report_email (report_date now)
                      daily_summary (first :: others) in
                  let '(_, mail) :=
                    send_email fs smtp (gmail_username loaded)
                      (gmail_app_password loaded)
                      (subject_of (subject_date now)) email_body
                      (text (recipient_email loaded)) None [] in
                  (Returned,
                   {| queries := issued; events := log'; sessions := mail |})
              end
          end
      end
  end.

End WithRuntime.

End MarketMain.

(* ================================================================== *)
(** * Part II: vocabulary of the properties and sample data *)
(* ================================================================== *)

Module Spec.

Import NewsCollector NewsSummarizer HotStock Email.

(** *** Collector *)

(** [subseq l1 l2]: [l1] is [l2] with some elements left out, the others in
    their order. *)
Inductive subseq {A : Type} : list A -> list A -> Prop :=
| subseq_nil : subseq [] []
| subseq_skip (x : A) (l1 l2 : list A) : subseq l1 l2 -> subseq l1 (x :: l2)
| subseq_keep (x : A) (l1 l2 : list A) :
    subseq l1 l2 -> subseq (x :: l1) (x :: l2).

(** The articles one response offers to the merge loop: those of an object
    payload with status ["ok"], in the provider's order. *)
Definition offered (response : result pyval) : list pyval :=
  match response with
  | Ok (VDict d) =>
      if py_eq (get_or d (u "status") VNone) (VStr (u "ok")) then
        match py_iter (get_or d (u "articles") (VList [])) with
        | Ok items => items
        | Raise _ => []
        end
      else []
  | _ => []
  end.

(** The responses to the requests for [keywords], the first of them being
    the [n]-th request of the run. *)
Fixpoint responses (fetch : provider) (mkq : pystr -> query)
  (keywords : list pystr) (n : nat) : list (result pyval) :=
  match keywords with
  | [] => []
  | keyword :: rest =>
      fetch n (mkq keyword) :: responses fetch mkq rest (S n)
  end.

(** Everything offered during a run: query-term order, then provider
    order within a term. *)
Definition stream (fetch : provider) (mkq : pystr -> query)
  (keywords : list pystr) (n : nat) : list pyval :=
  flat_map offered (responses fetch mkq keywords n).

(** The query terms a run issues. *)
Definition issued_terms (keywords : option (list pystr)) : list pystr :=
  firstn 3 (match keywords with None => default_keywords | Some ks => ks end).

(** The identity key of a raw article whose ["url"] is a string. *)
Definition url_text (a : pyval) : option pystr :=
  match a with
  | VDict d =>
      match dict_get (u "url") d with
      | Some (VStr s) => Some s
      | _ => None
      end
  | _ => None
  end.

Definition has_str_url (a : pyval) : Prop := exists k, url_text a = Some k.

Definition key_of (a : pyval) : pystr :=
  match url_text a with
  | Some k => k
  | None => []
  end.

Definition seen_before (k : pystr) (seen : list pystr) : bool :=
  existsb (fun s => pystr_eqb s k) seen.

(** The deduplication rule in the words of the specification: going through
    the offered articles in order, an article is kept only if no article
    kept before it has the same key. *)
Fixpoint first_seen (seen : list pystr) (offers : list pyval) : list pyval :=
  match offers with
  | [] => []
  | x :: rest =>
      if seen_before (key_of x) seen then first_seen seen rest
      else x :: first_seen (seen ++ [key_of x]) rest
  end.

(** What a run is offered, and what it keeps of it: the first-seen
    articles, cut to [max_articles]. *)
Definition run_offers (key yesterday : pystr) (fetch : provider)
  (keywords : option (list pystr)) (max_articles : Z) : list pyval :=
  stream fetch (mk_query key yesterday max_articles) (issued_terms keywords) 0.

Definition run_kept (key yesterday : pystr) (fetch : provider)
  (keywords : option (list pystr)) (max_articles : Z) : list pyval :=
  firstn (Z.to_nat max_articles)
    (first_seen [] (run_offers key yesterday fetch keywords max_articles)).

(** The identity key of a collected item, and two items that differ in it. *)
Definition item_url (item : dict) : pyval := get_or item (u "url") VNone.

Definition items_differ (x y : dict) : Prop :=
  py_eq (item_url x) (item_url y) = false.

(** A kept raw article and the item returned for it. *)
Definition collected (a : pyval) (x : dict) : Prop :=
  format_article a = Ok x /\ item_url x = VStr (key_of a).

(** A raw article the formatting step accepts. *)
Definition formattable (a : pyval) : Prop :=
  exists x, format_article a = Ok x.

(** The item comes from the first article offered with its url. *)
Definition first_offer (offers : list pyval) (x : dict) : Prop :=
  exists pre a post,
    offers = pre ++ a :: post /\
    collected a x /\
    Forall (fun b => pystr_eqb (key_of b) (key_of a) = false) pre.

(** A field that is absent or holds a string, and its text. *)
Definition optional_str (d : dict) (k : pystr) : Prop :=
  dict_get k d = None \/ exists s, dict_get k d = Some (VStr s).

Definition field_text (d : dict) (k : pystr) : pystr :=
  match dict_get k d with
  | Some (VStr s) => s
  | _ => []
  end.




(** *** Narrator *)

(** [k] consecutive throttled attempts at [req], each followed by the
    cool-down. *)
Fixpoint throttled_attempts (k : nat) (req : request) : list event :=
  match k with
  | O => []
  | S k' => Request req :: Sleep 60 :: throttled_attempts k' req
  end.

(** What [summarize_news] returns for a backend answer that is not a
    throttle. *)
Definition settle `{Builtins} (title : pyval) (answer : result pystr) : pystr :=
  match answer with
  | Ok content => strip content
  | Raise _ => error_summary title
  end.

(** An article that has something to summarize. *)
Definition has_body (article : dict) : bool := truthy (article_body article).

(** In the words of the claim: an empty value ([None], the empty string,
    an empty collection), a field that is absent or holds an empty value,
    and an item whose content and description are both empty. *)
Definition empty_value (v : pyval) : bool :=
  match v with
  | VNone | VStr [] | VList [] | VDict [] => true
  | _ => false
  end.

Definition empty_field (article : dict) (k : pystr) : bool :=
  match dict_get k article with
  | None => true
  | Some v => empty_value v
  end.

Definition without_text (article : dict) : bool :=
  empty_field article (u "content") && empty_field article (u "description").

(** The narrative an input article is returned with. *)
Definition narrated (article narrated_article : dict) : Prop :=
  exists summary,
    narrated_article = dict_set (u "summary") (VStr summary) article.

(** *** Detector and cross-linker *)

(** The symbol is in the detector's output. *)
Definition flagged (sym : pystr) (out : list hot_stock) : Prop :=
  exists hs, In hs out /\ symbol hs = sym.

(** The title of a narrated item is a string (or absent). *)
Definition str_title (article : dict) : Prop := optional_str article (u "title").

(** The text of a string title, and the test [link_news_to_stock] makes
    on it. *)
Definition title_text (article : dict) : pystr :=
  field_text article (u "title").

Definition linked (stock_symbol : pystr) (article : dict) : bool :=
  substring (split_head 46 stock_symbol) (title_text article)
  || substring stock_symbol (title_text article).

Definition to_related (article : dict) : related :=
  {| rel_title := get_or article (u "title") (VStr []);
     rel_summary := get_or article (u "summary") (VStr []);
     rel_url := get_or article (u "url") (VStr []) |}.

(** The symbol without its last ['.'] and what follows it (the symbol
    itself when it has no ['.']): the stripping the specification words
    describe. *)
Fixpoint strip_last_suffix (s : pystr) : pystr :=
  match s with
  | [] => []
  | c :: s' =>
      if (c =? 46)%N && negb (existsb (N.eqb 46) s') then []
      else c :: strip_last_suffix s'
  end.

Definition linked_by_last_dot (stock_symbol : pystr) (article : dict) : bool :=
  substring stock_symbol (title_text article)
  || substring (strip_last_suffix stock_symbol) (title_text article).

(** *** Report composer *)


End Spec.

Module Samples.

Import NewsCollector NewsSummarizer HotStock Email Spec.

(** A stand-in for [repr] on containers, enough to run the samples. *)
Definition sample_builtins : Builtins :=
  {| repr_container := fun _ => u "<container>";
     recursion_error_in_try := true |}.

(** The same with a stack that gives out at the call in the handler. *)
Definition handler_overflow : Builtins :=
  {| repr_container := fun _ => u "<container>";
     recursion_error_in_try := false |}.

(** [format(x, '.1f')]: the exact binary value rounded half-to-even to one
    decimal. *)
Definition div_half_even (n d : Z) : Z :=
  let q := (n / d)%Z in
  let r := (n mod d)%Z in
  if (2 * r <? d)%Z then q
  else if (d <? 2 * r)%Z then (q + 1)%Z
  else if Z.even q then q else (q + 1)%Z.

Fixpoint str_of_Z_fuel (fuel : nat) (z : Z) (acc : pystr) : pystr :=
  match fuel with
  | O => acc
  | S fuel' =>
      let acc' := (48 + Z.to_N (z mod 10))%N :: acc in
      if (z <? 10)%Z then acc' else str_of_Z_fuel fuel' (z / 10)%Z acc'
  end.

Definition str_of_Z (z : Z) : pystr :=
  str_of_Z_fuel (S (Z.to_nat (Z.log2 z))) z [].

Definition decimal_1f (x : f64) : pystr :=
  let render (s : bool) (t : Z) :=
    (if s then u "-" else []) ++ str_of_Z (t / 10)%Z ++ u "."
      ++ str_of_Z (t mod 10)%Z in
  match x with
  | S754_zero s => render s 0%Z
  | S754_infinity s => (if s then u "-" else []) ++ u "inf"
  | S754_nan => u "nan"
  | S754_finite s m e =>
      render s
        (if (0 <=? e)%Z then (10 * Z.pos m * 2 ^ e)%Z
         else div_half_even (10 * Z.pos m)%Z (2 ^ (- e))%Z)
  end.

Definition sample_numerics : Numerics :=
  {| series_mean := naive_mean; format_1f := decimal_1f |}.

(** Float literals of the samples: a quotient of two integers is the
    double nearest to the decimal it writes. *)
Definition dec (n d : Z) : f64 := f64_div (f64_of_Z n) (f64_of_Z d).

Definition mk_bar (close volume : f64) : bar :=
  {| Close := close; Volume := volume |}.

(** The series of the end-to-end scenario: volumes 100,100,100,100,500 and
    closes 10,10,10,10,10.6. *)
Definition surge : dataframe :=
  [mk_bar (f64_of_Z 10) (f64_of_Z 100); mk_bar (f64_of_Z 10) (f64_of_Z 100);
   mk_bar (f64_of_Z 10) (f64_of_Z 100); mk_bar (f64_of_Z 10) (f64_of_Z 100);
   mk_bar (dec 106 10) (f64_of_Z 500)].

(** Volume ratio exactly 2.0, and the double nearest to 1.999999; the
    price does not move. *)
Definition at_boundary : dataframe :=
  [mk_bar (f64_of_Z 10) (f64_of_Z 1000000);
   mk_bar (f64_of_Z 10) (f64_of_Z 2000000)].

Definition below_boundary : dataframe :=
  [mk_bar (f64_of_Z 10) (f64_of_Z 1000000);
   mk_bar (f64_of_Z 10) (f64_of_Z 1999999)].

(** No volume before the last day; the price moves by 10% in [dormant_up]
    and not at all in [dormant]. *)
Definition dormant : dataframe :=
  [mk_bar (f64_of_Z 10) f64_zero; mk_bar (f64_of_Z 10) f64_zero;
   mk_bar (f64_of_Z 10) (f64_of_Z 700)].

Definition dormant_up : dataframe :=
  [mk_bar (f64_of_Z 10) f64_zero; mk_bar (f64_of_Z 10) f64_zero;
   mk_bar (f64_of_Z 11) (f64_of_Z 700)].

Definition two : f64 := f64_of_Z 2.
Definition five_percent : f64 := dec 5 100.

(** Raw provider articles and payloads. *)
Definition raw (title url : string) : pyval :=
  VDict [(u "title", VStr (u title)); (u "url", VStr (u url))].

Definition payload (articles : list pyval) : pyval :=
  VDict [(u "status", VStr (u "ok")); (u "articles", VList articles)].

(** Two query terms, three raw items, the second and third sharing a URL. *)
Definition two_terms : provider :=
  fun n _ =>
    match n with
    | 0 => Ok (payload [raw "Rates hold" "https://n.example/a";
                        raw "Toyota (7203) reports" "https://n.example/b"])
    | 1 => Ok (payload [raw "Toyota again" "https://n.example/b"])
    | _ => Raise RequestException
    end.

(** Every request fails in transport. *)
Definition all_down : provider := fun _ _ => Raise RequestException.

(** One article without a ["url"], one whose ["url"] is the empty string. *)
Definition blank_urls : provider :=
  fun n _ =>
    match n with
    | 0 => Ok (payload [VDict [(u "title", VStr (u "x"))];
                        VDict [(u "title", VStr (u "y")); (u "url", VStr [])]])
    | _ => Raise RequestException
    end.

(** Backends. *)
Definition always_throttled : backend := fun _ _ => Raise RateLimitError.

Definition throttled_twice : backend :=
  fun n _ =>
    match n with
    | 0 | 1 => Raise RateLimitError
    | _ => Ok (u " Stocks rose. ")
    end.

Definition throttled_once : backend :=
  fun n _ =>
    match n with
    | 0 => Raise RateLimitError
    | _ => Ok (u "Stocks rose.")
    end.

Definition never_throttled : backend := fun _ _ => Ok (u "Summary.").

(** Collected items. *)
Definition item (title content : string) : dict :=
  [(u "title", VStr (u title)); (u "description", VStr []);
   (u "content", VStr (u content)); (u "url", VStr (u "https://n.example/a"))].

Definition toyota : dict := item "Toyota (7203) reports" "Profit rose.".
Definition empty_item : dict := item "Nothing inside" "".
Definition rates : dict := item "Rates hold" "The bank held rates.".

(** The prompt and the request of the sample calls. *)
Definition sample_prompt : pystr :=
  prompt_head ++ u "Rates hold" ++ prompt_mid ++ u "The bank held rates."
    ++ prompt_tail.

Definition sample_request : request :=
  mk_request (u "gpt-4o-mini") sample_prompt.

(** A raw article with a source object and no author, description or
    content. *)
Definition wire_article : dict :=
  [(u "title", VStr (u "Rates hold"));
   (u "url", VStr (u "https://n.example/a"));
   (u "source", VDict [(u "id", VNone); (u "name", VStr (u "Wire"))]);
   (u "publishedAt", VStr (u "2024-01-01T00:00:00Z"))].

Definition sample_terms : option (list pystr) :=
  Some [u "market"; u "stocks"].

(** The symbols watched in the samples. *)
Definition watchlist : list (pystr * dataframe) :=
  [(u "7203.T", surge); (u "6758.T", at_boundary); (u "AAPL", below_boundary);
   (u "MSFT", dormant); (u "SONY", dormant_up)].

(** A symbol with two dots and an item that names the company only. *)
Definition bt_symbol : pystr := u "BT.A.L".
Definition bt_item : dict := item "BT shares climb" "BT rose.".

End Samples.


(** ** Vocabulary and sample data for the further properties *)

Module Coverage.

Import NewsCollector NewsSummarizer HotStock Email Spec.
Import DailySummary PySplit ActiveCompanies Mail HotStockConfig.

(** The pacing pauses of a log: the one-second sleeps. *)
Definition is_pause (e : event) : bool :=
  match e with
  | Sleep 1 => true
  | _ => false
  end.

Definition pauses (log : list event) : nat := length (filter is_pause log).

(** The prompt of the article can be built (its text can be sliced and
    its title too). *)
Definition promptable `{Builtins} (article : dict) : bool :=
  match build_prompt (article_body article)
          (get_or article (u "title") (VStr [])) with
  | Ok _ => true
  | Raise _ => false
  end.

(** Two narrated items with the same title and the same summary. *)
Definition same_headline (a b : dict) : Prop :=
  dict_get (u "title") a = dict_get (u "title") b /\
  dict_get (u "summary") a = dict_get (u "summary") b.

(** The frame kept for one response, if any. *)
Definition kept_frame (response : result dataframe) : option dataframe :=
  match response with
  | Ok (row :: rows) => Some (row :: rows)
  | _ => None
  end.

(** The frames a run of [get_active_companies] is given, one entry for
    each symbol whose request returned rows, in the order of the requests;
    the first of them is the [n]-th request. *)
Fixpoint fetched (history : market) (days : Z) (symbols : list pystr)
  (n : nat) : list (pystr * dataframe) :=
  match symbols with
  | [] => []
  | sym :: rest =>
      match kept_frame (history n sym days) with
      | Some df => [(sym, df)]
      | None => []
      end ++ fetched history days rest (S n)
  end.


(** The text of a string value. *)
Definition text_of (v : pyval) : pystr :=
  match v with
  | VStr s => s
  | _ => []
  end.

(** What the loop keeps true of [results]: distinct keys, all of them
    symbols asked for, no empty frame. *)
Definition well_kept (asked : list pystr)
  (results : list (pystr * dataframe)) : Prop :=
  NoDup (map fst results) /\
  incl (map fst results) asked /\
  Forall (fun entry => snd entry <> []) results.

(** A numeric variable is unset or parses. *)
Definition int_ok `{Parsers} (env : environ) (name : pystr) : Prop :=
  match env name with
  | Some text => int_of_str text <> None
  | None => True
  end.

Definition float_ok `{Parsers} (env : environ) (name : pystr) : Prop :=
  match env name with
  | Some text => float_of_str text <> None
  | None => True
  end.

(** The text [TARGET_SYMBOLS] stands for. *)
Definition symbols_text (env : environ) : pystr :=
  match env (u "TARGET_SYMBOLS") with
  | Some symbols => symbols
  | None => default_symbols
  end.

(** The stocks a run of the hot-stock phase flags. *)
Definition flagged_stocks `{Numerics} (history : market)
  (loaded : config) : list hot_stock :=
  identify_hot_stocks
    (snd (get_active_companies history (target_symbols loaded)
            (hot_stock_days loaded)))
    (volume_threshold loaded) (price_change_threshold loaded).

(** The items the collector hands to a run that asks for at most
    [max_articles] of them. *)
Definition headlines (key yesterday : pystr) (fetch : provider)
  (max_articles : Z) : list dict :=
  match snd (get_market_news key yesterday fetch None max_articles) with
  | Ok items => items
  | Raise _ => []
  end.


(** The environment lets the configuration of phase 1 load. *)
Definition market_env_ok `{Parsers} (env : environ) : Prop :=
  is_set (env (u "NEWS_API_KEY")) = true /\
  is_set (env (u "OPENAI_API_KEY")) = true /\
  is_set (env (u "RECIPIENT_EMAIL")) = true /\
  int_ok env (u "MAX_NEWS_ARTICLES").

(** A flagged stock with the news linked to it. *)
Definition with_news (news_articles : list dict) (stock : hot_stock)
  : hot_stock :=
  HotStockMain.set_related stock
    (map to_related (filter (linked (symbol stock)) news_articles)).

(** The world of a run that asked for prices and did nothing else. *)
Definition prices_only (symbols : list pystr) : HotStockMain.world :=
  {| HotStockMain.asked := symbols;
     HotStockMain.queries := [];
     HotStockMain.events := [];
     HotStockMain.sessions := [];
     HotStockMain.printed := [] |}.

(** The level [setup_logging] is called with. *)
Definition level_text (env : environ) : pystr :=
  match env (u "LOG_LEVEL") with
  | Some level => level
  | None => u "INFO"
  end.

(** The world of a run that did nothing. *)
Definition untouched : MarketMain.world :=
  {| MarketMain.queries := [];
     MarketMain.events := [];
     MarketMain.sessions := [] |}.

End Coverage.

Module MoreSamples.

Import NewsCollector NewsSummarizer HotStock Email Spec Samples.
Import DailySummary PySplit ActiveCompanies Mail HotStockConfig Coverage.

(** A long article text: 4000 characters. *)
Definition long_text : pystr := repeat 97%N 4000.

(** An item with text and an item without, in this order. *)
Definition last_is_empty : list dict := [toyota; empty_item].

(** Six narrated items, and the first five of them. *)
Definition narrated_toyota : dict :=
  dict_set (u "summary") (VStr (u "Profit rose at Toyota.")) toyota.

Definition narrated_rates : dict :=
  dict_set (u "summary") (VStr (u "Rates were held.")) rates.

Definition five_items : list dict :=
  [narrated_toyota; narrated_rates; narrated_toyota; narrated_rates;
   narrated_toyota].

Definition six_items : list dict := five_items ++ [narrated_rates].

(** A raw article whose source is a string, not an object. *)
Definition flat_source : dict :=
  [(u "title", VStr (u "Yen slips"));
   (u "url", VStr (u "https://n.example/c"));
   (u "source", VStr (u "Wire"))].

(** The first term brings a well-formed article, the second one with a
    flat source. *)
Definition one_flat_source : provider :=
  fun n _ =>
    match n with
    | 0 => Ok (payload [raw "Rates hold" "https://n.example/a"])
    | 1 => Ok (payload [VDict flat_source])
    | _ => Raise RequestException
    end.

(** A market that knows three symbols: rows for the first, no row for the
    second, an error for the third. *)
Definition three_symbols : market :=
  fun n _ _ =>
    match n with
    | 0 => Ok surge
    | 1 => Ok []
    | _ => Raise ValueError
    end.

Definition asked_symbols : list pystr := [u "7203.T"; u "6758.T"; u "AAPL"].

(** A market with rows for every request: the surge first, a single row
    second, the quiet series from there on. *)
Definition open_market : market :=
  fun n _ _ =>
    match n with
    | 0 => Ok surge
    | 1 => Ok [mk_bar (f64_of_Z 10) (f64_of_Z 100)]
    | _ => Ok below_boundary
    end.

(** A narrated item whose title is [None]. *)
Definition untitled : dict :=
  [(u "title", VNone); (u "summary", VStr (u "Summary."))].

(** A flagged stock with one linked item. *)
Definition flagged_toyota : hot_stock :=
  {| symbol := u "7203.T";
     volume_ratio := f64_of_Z 5;
     price_change := dec 6 100;
     reasons := [u "volume"; u "price"];
     related_news := Some [to_related narrated_toyota] |}.

(** A file system with one readable file. *)
Definition one_file : files :=
  fun file_path =>
    if pystr_eqb file_path (u "out/graphs/gdp.png") then Some [137; 80; 78; 71]%N
    else None.

Definition accepting : server := fun _ _ _ _ => Delivered.
Definition refusing : server := fun _ _ _ _ => SMTPAuthenticationError.

(** Parsers that know the numbers of the samples. *)
Definition sample_parsers : Parsers :=
  {| int_of_str := fun text =>
       if pystr_eqb text (u "5") then Some 5%Z
       else if pystr_eqb text (u "3") then Some 3%Z else None;
     float_of_str := fun text =>
       if pystr_eqb text (u "2.0") then Some two
       else if pystr_eqb text (u "0.05") then Some five_percent else None |}.

(** An environment with the two required variables and two symbols, one of
    them after a blank. *)
Definition sample_env : environ :=
  fun name =>
    if pystr_eqb name (u "OPENAI_API_KEY") then Some (u "sk-sample")
    else if pystr_eqb name (u "RECIPIENT_EMAIL") then Some (u "you@example.com")
    else if pystr_eqb name (u "TARGET_SYMBOLS") then Some (u "7203.T, 6758.T")
    else if pystr_eqb name (u "HOT_STOCK_DAYS") then Some (u "5")
    else None.

Definition sample_config : config :=
  {| openai_api_key := Some (u "sk-sample");
     gmail_username := None;
     gmail_app_password := None;
     recipient_email := Some (u "you@example.com");
     sender_email := None;
     log_level := u "INFO";
     hot_stock_days := 5;
     volume_threshold := f64_of_Z 2;
     price_change_threshold := f64_div (f64_of_Z 5) (f64_of_Z 100);
     target_symbols := [u "7203.T"; u " 6758.T"] |}.

Definition sample_clock : HotStockMain.clock :=
  {| HotStockMain.yesterday := u "2024-01-01";
     HotStockMain.report_date := u "2024-01-02";
     HotStockMain.subject_date := u "2024-01-02" |}.

Definition quiet_logging : pystr -> result unit := fun _ => Ok tt.

(** A raw article with text. *)
Definition raw_text (title : pyval) (url : string) : pyval :=
  VDict [(u "title", title); (u "content", VStr (u "Profit rose."));
         (u "url", VStr (u url))].

(** The first term brings two articles with text; the second of them has
    a title in [with_text] and the title [null] in [null_title]. *)
Definition with_text : provider :=
  fun n _ =>
    match n with
    | 0 => Ok (payload [raw_text (VStr (u "Toyota (7203) reports"))
                          "https://n.example/a";
                        raw_text (VStr (u "Rates hold")) "https://n.example/b"])
    | _ => Raise RequestException
    end.

Definition null_title : provider :=
  fun n _ =>
    match n with
    | 0 => Ok (payload [raw_text (VStr (u "Toyota (7203) reports"))
                          "https://n.example/a";
                        raw_text VNone "https://n.example/b"])
    | _ => Raise RequestException
    end.

(** Phase 1: an environment that loads, the configuration it gives, an
    environment without the news key, and a clock. *)
Definition market_env : environ :=
  fun name =>
    if pystr_eqb name (u "NEWS_API_KEY") then Some (u "news-sample")
    else if pystr_eqb name (u "OPENAI_API_KEY") then Some (u "sk-sample")
    else if pystr_eqb name (u "RECIPIENT_EMAIL") then Some (u "you@example.com")
    else if pystr_eqb name (u "GMAIL_USERNAME") then Some (u "me@example.com")
    else if pystr_eqb name (u "MAX_NEWS_ARTICLES") then Some (u "5")
    else None.


Definition no_news_key : environ :=
  fun name =>
    if pystr_eqb name (u "OPENAI_API_KEY") then Some (u "sk-sample")
    else if pystr_eqb name (u "RECIPIENT_EMAIL") then Some (u "you@example.com")
    else None.

Definition market_clock : MarketMain.clock :=
  {| MarketMain.yesterday := u "2024-01-01";
     MarketMain.report_date := u "2024-01-02";
     MarketMain.subject_date := u "2024-01-02" |}.

End MoreSamples.

(* ================================================================== *)
(** * Part III: properties *)
(* ================================================================== *)

Import NewsCollector NewsSummarizer HotStock Email Spec Samples.

(** ** Strings and lists *)

Lemma pystr_eqb_refl (s : pystr) : pystr_eqb s s = true.
Proof.
  induction s as [|c s IH]; simpl; [reflexivity|].
  now rewrite N.eqb_refl.
Qed.

Lemma pystr_eqb_eq (s t : pystr) : pystr_eqb s t = true <-> s = t.
Proof.
  split; [|intros ->; apply pystr_eqb_refl].
  revert t; induction s as [|c s IH]; intros [|d t]; simpl;
    try discriminate; [reflexivity|].
  intros E; apply andb_prop in E as [Ec Es].
  apply N.eqb_eq in Ec. now rewrite Ec, (IH _ Es).
Qed.

Lemma starts_with_app (p s : pystr) : starts_with p (p ++ s) = true.
Proof.
  induction p as [|c p IH]; simpl; [reflexivity|].
  now rewrite N.eqb_refl.
Qed.

Lemma substring_here (p s : pystr) :
  starts_with p s = true -> substring p s = true.
Proof. destruct s; simpl; intros ->; reflexivity. Qed.

Lemma substring_later (p a s : pystr) :
  substring p s = true -> substring p (a ++ s) = true.
Proof.
  intros E; induction a as [|c a IH]; simpl; [exact E|].
  rewrite IH. apply orb_true_r.
Qed.

(** A text contains each of the pieces it is concatenated from. *)
Lemma substring_middle (p a b : pystr) : substring p (a ++ p ++ b) = true.
Proof. apply substring_later, substring_here, starts_with_app. Qed.

Lemma substring_empty (s : pystr) : substring [] s = true.
Proof. destruct s; reflexivity. Qed.

Lemma filter_length_lt {A : Type} (f : A -> bool) (l : list A) :
  length (filter f l) < length l <-> exists a, In a l /\ f a = false.
Proof.
  induction l as [|x l IH]; simpl.
  - split; [lia | intros (a & [] & _)].
  - pose proof (filter_length_le f l) as Hle.
    destruct (f x) eqn:Ex; simpl.
    + split.
      * intros Hlt. apply PeanoNat.lt_S_n in Hlt.
        apply IH in Hlt as (a & Ha & Hf). exists a; auto.
      * intros (a & [<- | Ha] & Hf); [congruence|].
        apply -> PeanoNat.Nat.succ_lt_mono. apply IH. exists a; auto.
    + split; [|lia]. intros _. exists x; auto.
Qed.

(** ** Dictionaries *)

Lemma dict_get_set_same (k : pystr) (v : pyval) (d : dict) :
  dict_get k (dict_set k v d) = Some v.
Proof.
  induction d as [|[k' v'] d IH]; cbn [dict_set dict_get].
  - now rewrite pystr_eqb_refl.
  - destruct (pystr_eqb k k') eqn:E; cbn [dict_get].
    + now rewrite pystr_eqb_refl.
    + now rewrite E.
Qed.

Lemma dict_get_set_other (k k' : pystr) (v : pyval) (d : dict) :
  k' <> k -> dict_get k' (dict_set k v d) = dict_get k' d.
Proof.
  intros Hk. induction d as [|[k0 v0] d IH]; cbn [dict_set dict_get].
  - destruct (pystr_eqb k' k) eqn:E; [|reflexivity].
    apply pystr_eqb_eq in E. contradiction.
  - destruct (pystr_eqb k k0) eqn:E; cbn [dict_get].
    + apply pystr_eqb_eq in E. subst k0.
      destruct (pystr_eqb k' k) eqn:E'; [|reflexivity].
      apply pystr_eqb_eq in E'. contradiction.
    + now rewrite IH.
Qed.

(** ** The narrator *)

Section Narrator.

Context `{Builtins}.
Variables (api : backend) (model_name : pystr).

Lemma requests_made_app (l l' : list event) :
  requests_made (l ++ l') = requests_made l + requests_made l'.
Proof. unfold requests_made. now rewrite filter_app, length_app. Qed.

(** A call that is not throttled returns, whatever the answer. *)
Lemma summarize_news_settles fuel article_text title prompt log :
  build_prompt article_text title = Ok prompt ->
  api (requests_made log) (mk_request model_name prompt)
    <> Raise RateLimitError ->
  summarize_news (S fuel) api model_name article_text title log =
    Done (settle title (api (requests_made log) (mk_request model_name prompt)))
         (log ++ [Request (mk_request model_name prompt)]).
Proof.
  intros Hp Hn. simpl. rewrite Hp.
  destruct (api (requests_made log) (mk_request model_name prompt))
    as [content|[]]; simpl; try reflexivity.
  now contradiction Hn.
Qed.

(** Throttled calls are each answered by a cool-down and one more call. *)
Lemma summarize_news_throttled k :
  forall fuel article_text title prompt log,
    build_prompt article_text title = Ok prompt ->
    (forall j, j < k ->
       api (requests_made log + j) (mk_request model_name prompt)
         = Raise RateLimitError) ->
    summarize_news (k + fuel) api model_name article_text title log =
    summarize_news fuel api model_name article_text title
      (log ++ throttled_attempts k (mk_request model_name prompt)).
Proof.
  induction k as [|k IH]; intros fuel article_text title prompt log Hp Hk.
  - simpl. now rewrite app_nil_r.
  - cbn [Nat.add summarize_news throttled_attempts]. rewrite Hp.
    pose proof (Hk 0 ltac:(lia)) as H0. rewrite Nat.add_0_r in H0.
    rewrite H0.
    rewrite (IH fuel article_text title prompt
               (log ++ [Request (mk_request model_name prompt); Sleep 60]) Hp).
    + now rewrite <- app_assoc.
    + intros j Hj. rewrite requests_made_app. cbn [requests_made filter is_request length].
      replace (requests_made log + 1 + j) with (requests_made log + S j) by lia.
      apply Hk. lia.
Qed.

Lemma summarize_news_stack_used_up article_text title log :
  summarize_news 0 api model_name article_text title log =
    if recursion_error_in_try then Done (error_summary title) log
    else RecursionError log.
Proof. reflexivity. Qed.

(** On a stack deep enough for the throttles met, the call returns. *)
Lemma summarize_news_returns j :
  forall fuel article_text title prompt log,
    build_prompt article_text title = Ok prompt ->
    j < fuel ->
    api (requests_made log + j) (mk_request model_name prompt)
      <> Raise RateLimitError ->
    exists s log',
      summarize_news fuel api model_name article_text title log = Done s log'.
Proof.
  induction j as [|j IH]; intros fuel article_text title prompt log Hp Hf Hn;
    (destruct fuel as [|fuel]; [lia|]).
  - rewrite Nat.add_0_r in Hn. rewrite (summarize_news_settles _ _ _ _ _ Hp Hn).
    eauto.
  - destruct (api (requests_made log) (mk_request model_name prompt))
      as [content|e] eqn:Ea.
    + rewrite (summarize_news_settles _ _ _ prompt); [eauto|exact Hp|congruence].
    + assert (De : {e = RateLimitError} + {e <> RateLimitError})
        by (destruct e; (now left) || (now right)).
      destruct De as [->|Hne].
      * cbn [summarize_news]. rewrite Hp, Ea.
        apply (IH fuel _ _ prompt); [exact Hp|lia|].
        rewrite requests_made_app. cbn [requests_made filter is_request length].
        now replace (requests_made log + 1 + j) with (requests_made log + S j)
          by lia.
      * rewrite (summarize_news_settles _ _ _ prompt); [eauto|exact Hp|congruence].
Qed.

Lemma summarize_news_total k fuel article_text title log :
  (forall n req, exists j, j <= k /\ api (n + j) req <> Raise RateLimitError) ->
  k < fuel ->
  exists s log',
    summarize_news fuel api model_name article_text title log = Done s log'.
Proof.
  intros Hk Hf.
  destruct (build_prompt article_text title) as [prompt|e] eqn:Hp.
  - destruct (Hk (requests_made log) (mk_request model_name prompt))
      as (j & Hj & Hn).
    apply (summarize_news_returns j _ _ _ prompt); [exact Hp|lia|exact Hn].
  - destruct fuel as [|fuel]; [lia|]. simpl. rewrite Hp. eauto.
Qed.

End Narrator.

(** C1 (as amended). Whenever the backend throttles, [summarize_news] sleeps
    60 and calls itself again with the same arguments, and it does so after
    every throttle, not only after the first: if the first [k] attempts are
    throttled and the attempt after them is not, the call returns the
    outcome of that attempt (the stripped text, or the failure placeholder)
    after [k + 1] identical requests and [k] cool-downs, on any stack that
    allows [k + 1] nested calls. *)
Theorem summarize_news_retries_after_every_throttle
  {B : Builtins} (api : backend) (model_name : pystr)
  (article_text title : pyval) (prompt : pystr) (log : list event)
  (k fuel : nat) :
  build_prompt article_text title = Ok prompt ->
  (forall j, j < k ->
     api (requests_made log + j) (mk_request model_name prompt)
       = Raise RateLimitError) ->
  api (requests_made log + k) (mk_request model_name prompt)
    <> Raise RateLimitError ->
  k < fuel ->
  summarize_news fuel api model_name article_text title log =
    Done (settle title
            (api (requests_made log + k) (mk_request model_name prompt)))
         (log ++ throttled_attempts k (mk_request model_name prompt)
              ++ [Request (mk_request model_name prompt)]).
Proof.
  intros Hp Hk Hn Hf.
  assert (Hr : forall n r, requests_made (throttled_attempts n r) = n).
  { induction n as [|n IHn]; intros r; [reflexivity|].
    change (S (requests_made (throttled_attempts n r)) = S n).
    now rewrite IHn. }
  replace fuel with (k + S (fuel - S k)) by lia.
  rewrite (summarize_news_throttled api model_name k _ _ _ prompt log Hp Hk).
  rewrite (summarize_news_settles api model_name _ _ _ prompt); [|exact Hp|].
  - rewrite requests_made_app, Hr. now rewrite <- app_assoc.
  - now rewrite requests_made_app, Hr.
Qed.

Lemma summarize_news_retries_after_every_throttle_witness :
  @build_prompt sample_builtins (VStr (u "The bank held rates."))
    (VStr (u "Rates hold")) = Ok sample_prompt
  /\
  (forall j, j < 2 ->
     throttled_twice (requests_made [] + j)
       (mk_request (u "gpt-4o-mini") sample_prompt) = Raise RateLimitError)
  /\
  throttled_twice (requests_made [] + 2)
    (mk_request (u "gpt-4o-mini") sample_prompt) <> Raise RateLimitError
  /\
  2 < 3
  /\
  @summarize_news sample_builtins 3 throttled_twice (u "gpt-4o-mini")
    (VStr (u "The bank held rates.")) (VStr (u "Rates hold")) [] =
    Done (@settle sample_builtins (VStr (u "Rates hold"))
            (throttled_twice (requests_made [] + 2)
               (mk_request (u "gpt-4o-mini") sample_prompt)))
         ([] ++ throttled_attempts 2
                  (mk_request (u "gpt-4o-mini") sample_prompt)
             ++ [Request (mk_request (u "gpt-4o-mini") sample_prompt)]).
Proof.
  assert (Hp : @build_prompt sample_builtins (VStr (u "The bank held rates."))
                 (VStr (u "Rates hold")) = Ok sample_prompt)
    by (vm_compute; reflexivity).
  assert (Hk : forall j, j < 2 ->
            throttled_twice (requests_made [] + j)
              (mk_request (u "gpt-4o-mini") sample_prompt)
              = Raise RateLimitError).
  { intros [|[|j]] Hj; [vm_compute; reflexivity|vm_compute; reflexivity|lia]. }
  assert (Hn : throttled_twice (requests_made [] + 2)
                 (mk_request (u "gpt-4o-mini") sample_prompt)
               <> Raise RateLimitError) by (vm_compute; discriminate).
  assert (Hf : 2 < 3) by lia.
  exact (conj Hp (conj Hk (conj Hn (conj Hf
           (@summarize_news_retries_after_every_throttle sample_builtins
              throttled_twice (u "gpt-4o-mini")
              (VStr (u "The bank held rates.")) (VStr (u "Rates hold"))
              sample_prompt [] 2 3 Hp Hk Hn Hf))))).
Defined.

(** Against C1 as stated: after a throttled retry the call does not take
    the failure path but retries again: three requests, two cool-downs,
    then the text of the backend. *)
Lemma summarize_news_retries_more_than_once :
  @summarize_news sample_builtins 3 throttled_twice (u "gpt-4o-mini")
    (VStr (u "The bank held rates.")) (VStr (u "Rates hold")) [] =
    Done (u "Stocks rose.")
         [Request sample_request; Sleep 60;
          Request sample_request; Sleep 60;
          Request sample_request].
Proof. vm_compute. reflexivity. Qed.

(** A backend that always throttles, on a stack of five calls: five
    requests and five cool-downs; then the placeholder comes back where the
    [RecursionError] is raised in the [try] body, and the error leaves the
    call where it is raised in the handler. *)
Example summarize_news_always_throttled :
  @summarize_news sample_builtins 5 always_throttled (u "gpt-4o-mini")
    (VStr (u "The bank held rates.")) (VStr (u "Rates hold")) [] =
    Done (u "要約エラー: Rates hold")
      [Request sample_request; Sleep 60; Request sample_request; Sleep 60;
       Request sample_request; Sleep 60; Request sample_request; Sleep 60;
       Request sample_request; Sleep 60]
  /\
  @summarize_news handler_overflow 5 always_throttled (u "gpt-4o-mini")
    (VStr (u "The bank held rates.")) (VStr (u "Rates hold")) [] =
    RecursionError
      [Request sample_request; Sleep 60; Request sample_request; Sleep 60;
       Request sample_request; Sleep 60; Request sample_request; Sleep 60;
       Request sample_request; Sleep 60].
Proof. split; vm_compute; reflexivity. Qed.

(** One throttle, then an answer: the text comes back after exactly one
    cool-down. *)
Example summarize_news_throttled_once :
  @summarize_news sample_builtins 2 throttled_once (u "gpt-4o-mini")
    (VStr (u "The bank held rates.")) (VStr (u "Rates hold")) [] =
    Done (u "Stocks rose.")
         [Request sample_request; Sleep 60; Request sample_request].
Proof. vm_compute. reflexivity. Qed.

(** The batch always returns: every item with text comes back narrated,
    by [summarize_news] or by the [except] branch of the loop. *)
Lemma summarize_from_narrates {B : Builtins} (api : backend)
  (model_name : pystr) (fuel n : nat) :
  forall articles i done log,
  exists out log',
    summarize_from fuel api model_name n i articles done log
      = Done (done ++ out) log' /\
    Forall2 narrated (filter has_body articles) out.
Proof.
  induction articles as [|article rest IH]; intros i done log.
  - exists [], log. simpl. rewrite app_nil_r. split; constructor.
  - cbn [summarize_from filter]. unfold has_body at 1.
    destruct (truthy (article_body article)) eqn:Eb; cbn [negb];
      [|apply IH].
    destruct (summarize_news fuel api model_name (article_body article)
                (get_or article (u "title") (VStr [])) log)
      as [summary log1|log1].
    + destruct (IH (S i)
                  (done ++ [dict_set (u "summary") (VStr summary) article])
                  (if i <? n - 1 then log1 ++ [Sleep 1] else log1))
        as (out & log2 & Eo & Hout).
      exists (dict_set (u "summary") (VStr summary) article :: out), log2.
      split.
      * rewrite Eo. now rewrite <- app_assoc.
      * constructor; [now exists summary|exact Hout].
    + destruct (IH (S i)
                  (done ++
                     [dict_set (u "summary")
                        (VStr (error_summary
                                 (get_or article (u "title")
                                    (VStr (u "Unknown")))))
                        article])
                  log1)
        as (out & log2 & Eo & Hout).
      eexists (_ :: out), log2. split.
      * rewrite Eo. now rewrite <- app_assoc.
      * constructor; [now eexists|exact Hout].
Qed.


(** The test the loop makes is the claim's: an item has something to
    summarize unless its content and its description are both empty. *)
Lemma truthy_get_or (article : dict) (k : pystr) :
  truthy (get_or article k (VStr [])) = negb (empty_field article k).
Proof.
  unfold get_or, empty_field.
  destruct (dict_get k article) as [[|[|c s]|[|x l]|[|kv d]]|]; reflexivity.
Qed.

Lemma has_body_text (article : dict) :
  has_body article = negb (without_text article).
Proof.
  unfold has_body, article_body, without_text. cbv zeta.
  pose proof (truthy_get_or article (u "content")) as Hc.
  pose proof (truthy_get_or article (u "description")) as Hd.
  destruct (truthy (get_or article (u "content") (VStr []))) eqn:Ec.
  - rewrite Ec. destruct (empty_field article (u "content"));
      [discriminate|reflexivity].
  - rewrite Hd. destruct (empty_field article (u "content"));
      [reflexivity|discriminate].
Qed.

Lemma content_is_not_summary : u "content" <> u "summary".
Proof. intros E. vm_compute in E. discriminate. Qed.

Lemma description_is_not_summary : u "description" <> u "summary".
Proof. intros E. vm_compute in E. discriminate. Qed.

Lemma narrated_without_text (article narrated_article : dict) :
  narrated article narrated_article ->
  without_text narrated_article = without_text article.
Proof.
  intros [summary ->]. unfold without_text, empty_field.
  now rewrite (dict_get_set_other _ _ _ _ content_is_not_summary),
    (dict_get_set_other _ _ _ _ description_is_not_summary).
Qed.

(** C9. [summarize_multiple_articles] leaves out every item whose content
    and description are both empty. Whatever the backend answers and
    however deep the stack, the call returns, and what it returns is, in
    order, exactly the input items whose content or description is not
    empty, each with a ["summary"] set; an item with neither gets no
    placeholder and is not in the list, so the list is strictly shorter
    than the input as soon as one such item exists. *)
Theorem summarize_multiple_articles_omits_empty
  {B : Builtins} (api : backend) (model_name : pystr)
  (articles : list dict) (log : list event) (fuel : nat) :
  exists out log',
    summarize_multiple_articles fuel api model_name articles log
      = Done out log' /\
    Forall2 narrated
      (filter (fun article => negb (without_text article)) articles) out /\
    (forall article, without_text article = true -> ~ In article out) /\
    length out <= length articles /\
    (length out < length articles <->
     exists article, In article articles /\ without_text article = true).
Proof.
  destruct (summarize_from_narrates api model_name fuel (length articles)
              articles 0 [] log) as (out & log' & Eo & Hout).
  exists out, log'. unfold summarize_multiple_articles.
  rewrite (filter_ext has_body (fun article => negb (without_text article))
             has_body_text) in Hout.
  pose proof (Forall2_length Hout) as Hlen.
  split; [exact Eo|]. split; [exact Hout|]. split; [|split].
  - intros article Hw Hin.
    assert (Hall : Forall (fun item => without_text item = false) out).
    { assert (Hin' : Forall (fun a => without_text a = false)
                       (filter (fun a => negb (without_text a)) articles)).
      { apply Forall_forall. intros a Ha. apply filter_In in Ha as [_ Ha].
        now apply negb_true_iff in Ha. }
      clear Hlen Eo Hin. revert Hin'.
      induction Hout as [|a b l l' Hab _ IH]; intros Hl; constructor.
      - rewrite (narrated_without_text _ _ Hab). now inversion Hl.
      - apply IH. now inversion Hl. }
    rewrite Forall_forall in Hall. specialize (Hall _ Hin). congruence.
  - rewrite <- Hlen. apply filter_length_le.
  - rewrite <- Hlen. rewrite filter_length_lt. split.
    + intros (a & Ha & Hf). exists a. split; [exact Ha|].
      now apply negb_false_iff in Hf.
    + intros (a & Ha & Hf). exists a. split; [exact Ha|].
      now rewrite Hf.
Qed.

(** On the samples: against a backend that always throttles the item
    without text is left out all the same, and the two others come back
    with the placeholder, from [summarize_news] after a pause or from the
    [except] branch of the loop without one. *)
Example summarize_multiple_articles_always_throttled :
  @summarize_multiple_articles sample_builtins 1 always_throttled
    (u "gpt-4o-mini") [toyota; empty_item; rates] [] =
  Done [dict_set (u "summary") (VStr (u "要約エラー: Toyota (7203) reports"))
          toyota;
        dict_set (u "summary") (VStr (u "要約エラー: Rates hold")) rates]
       [Request (mk_request (u "gpt-4o-mini")
                   (prompt_head ++ u "Toyota (7203) reports" ++ prompt_mid
                      ++ u "Profit rose." ++ prompt_tail));
        Sleep 60; Sleep 1; Request sample_request; Sleep 60]
  /\
  @summarize_multiple_articles handler_overflow 1 always_throttled
    (u "gpt-4o-mini") [toyota; empty_item; rates] [] =
  Done [dict_set (u "summary") (VStr (u "要約エラー: Toyota (7203) reports"))
          toyota;
        dict_set (u "summary") (VStr (u "要約エラー: Rates hold")) rates]
       [Request (mk_request (u "gpt-4o-mini")
                   (prompt_head ++ u "Toyota (7203) reports" ++ prompt_mid
                      ++ u "Profit rose." ++ prompt_tail));
        Sleep 60; Request sample_request; Sleep 60].
Proof. split; vm_compute; reflexivity. Qed.

(** On the sample: the item with no text is dropped, the other two come
    back narrated, with one pause between the two backend calls. *)
Example summarize_multiple_articles_sample :
  @summarize_multiple_articles sample_builtins 1 never_throttled
    (u "gpt-4o-mini") [toyota; empty_item; rates] [] =
  Done [dict_set (u "summary") (VStr (u "Summary.")) toyota;
        dict_set (u "summary") (VStr (u "Summary.")) rates]
       [Request (mk_request (u "gpt-4o-mini")
                   (prompt_head ++ u "Toyota (7203) reports" ++ prompt_mid
                      ++ u "Profit rose." ++ prompt_tail));
        Sleep 1;
        Request sample_request].
Proof. vm_compute. reflexivity. Qed.

(** ** The collector *)

Section Dedup.

Lemma subseq_nil_l {A : Type} (l : list A) : subseq [] l.
Proof. induction l; constructor; assumption. Qed.

Lemma subseq_firstn {A : Type} (n : nat) (l : list A) : subseq (firstn n l) l.
Proof.
  revert n; induction l as [|x l IH]; intros [|n]; simpl;
    try apply subseq_nil_l; constructor; apply IH.
Qed.

Lemma subseq_trans {A : Type} (l1 l2 l3 : list A) :
  subseq l1 l2 -> subseq l2 l3 -> subseq l1 l3.
Proof.
  intros H12 H23; revert l1 H12.
  induction H23 as [|x l2 l3 H23 IH|x l2 l3 H23 IH]; intros l1 H12.
  - exact H12.
  - constructor. now apply IH.
  - inversion H12; subst; constructor; now apply IH.
Qed.

Lemma seen_before_app k s1 s2 :
  seen_before k (s1 ++ s2) = seen_before k s1 || seen_before k s2.
Proof. apply existsb_app. Qed.

Lemma first_seen_subseq offers : forall seen, subseq (first_seen seen offers) offers.
Proof.
  induction offers as [|x rest IH]; intros seen; simpl; [constructor|].
  destruct (seen_before (key_of x) seen); constructor; apply IH.
Qed.

(** What is kept was not seen before. *)
Lemma first_seen_fresh offers :
  forall seen,
    Forall (fun y => seen_before (key_of y) seen = false)
      (first_seen seen offers).
Proof.
  induction offers as [|x rest IH]; intros seen; simpl; [constructor|].
  destruct (seen_before (key_of x) seen) eqn:Ex; [apply IH|].
  constructor; [exact Ex|].
  eapply Forall_impl; [|apply (IH (seen ++ [key_of x]))].
  intros y Hy. cbv beta in Hy. rewrite seen_before_app in Hy.
  now apply orb_false_elim in Hy.
Qed.

(** No two kept articles share a key. *)
Lemma first_seen_distinct offers :
  forall seen,
    ForallOrdPairs (fun a b => pystr_eqb (key_of a) (key_of b) = false)
      (first_seen seen offers).
Proof.
  induction offers as [|x rest IH]; intros seen; simpl; [constructor|].
  destruct (seen_before (key_of x) seen); [apply IH|].
  constructor; [|apply IH].
  eapply Forall_impl; [|apply (first_seen_fresh rest (seen ++ [key_of x]))].
  intros y Hy. cbv beta in Hy. rewrite seen_before_app in Hy.
  apply orb_false_elim in Hy as [_ Hy]. simpl in Hy.
  now rewrite orb_false_r in Hy.
Qed.

(** First-seen wins: the first offer that bears a key is kept. *)
Lemma first_seen_keeps_first pre x post :
  forall seen,
    seen_before (key_of x) seen = false ->
    Forall (fun a => pystr_eqb (key_of a) (key_of x) = false) pre ->
    In x (first_seen seen (pre ++ x :: post)).
Proof.
  induction pre as [|a pre IH]; intros seen Hs Hpre; simpl.
  - rewrite Hs. now left.
  - inversion Hpre as [|? ? Ha Hpre']; subst.
    destruct (seen_before (key_of a) seen).
    + now apply IH.
    + right. apply IH; [|exact Hpre'].
      rewrite seen_before_app, Hs. simpl. now rewrite Ha.
Qed.

Lemma first_seen_app s1 s2 :
  forall seen,
    first_seen seen (s1 ++ s2) =
    first_seen seen s1
      ++ first_seen (seen ++ map key_of (first_seen seen s1)) s2.
Proof.
  induction s1 as [|x s1 IH]; intros seen; simpl.
  - now rewrite app_nil_r.
  - destruct (seen_before (key_of x) seen); [apply IH|].
    simpl. rewrite IH. now rewrite <- app_assoc.
Qed.

Lemma subseq_In {A : Type} (l1 l2 : list A) (x : A) :
  subseq l1 l2 -> In x l1 -> In x l2.
Proof.
  induction 1 as [|y l1 l2 Hs IH|y l1 l2 Hs IH]; simpl; intros Hx.
  - exact Hx.
  - right. now apply IH.
  - destruct Hx as [->|Hx]; [now left|right; now apply IH].
Qed.

Lemma subseq_Forall {A : Type} (P : A -> Prop) (l1 l2 : list A) :
  subseq l1 l2 -> Forall P l2 -> Forall P l1.
Proof.
  intros Hs Hl. apply Forall_forall. intros x Hx.
  apply (proj1 (Forall_forall _ _) Hl). now apply (subseq_In l1 l2).
Qed.

Lemma subseq_ForallOrdPairs {A : Type} (R : A -> A -> Prop) (l1 l2 : list A) :
  subseq l1 l2 -> ForallOrdPairs R l2 -> ForallOrdPairs R l1.
Proof.
  induction 1 as [|y l1 l2 Hs IH|y l1 l2 Hs IH]; intros Hl.
  - constructor.
  - inversion Hl; subst. now apply IH.
  - inversion Hl as [|? ? Hy Hl']; subst. constructor; [|now apply IH].
    now apply (subseq_Forall _ l1 l2).
Qed.

Lemma subseq_length {A : Type} (l1 l2 : list A) :
  subseq l1 l2 -> length l1 <= length l2.
Proof. induction 1; simpl; lia. Qed.

(** The merge loop on articles that all carry a string url. *)
Lemma any_same_url_str x k all_articles :
  url_text x = Some k ->
  Forall has_str_url all_articles ->
  any_same_url x all_articles = Ok (seen_before k (map key_of all_articles)).
Proof.
  intros Hx Hall. induction Hall as [|a l (ka & Ha) Hl IH]; [reflexivity|].
  cbn [any_same_url map seen_before existsb].
  unfold same_url, key_of. rewrite Ha.
  destruct a as [| | |da]; try discriminate.
  destruct x as [| | |dx]; try discriminate.
  cbn [py_get bind url_text] in *. unfold get_or.
  destruct (dict_get (u "url") da) as [[| sa | |]|]; try discriminate.
  destruct (dict_get (u "url") dx) as [[| sx | |]|]; try discriminate.
  injection Ha as ->. injection Hx as ->.
  cbn [py_eq]. destruct (pystr_eqb ka k); [reflexivity|].
  exact IH.
Qed.

Lemma merge_articles_first_seen articles :
  forall all_articles,
    Forall has_str_url articles ->
    Forall has_str_url all_articles ->
    merge_articles articles all_articles =
      (all_articles ++ first_seen (map key_of all_articles) articles, Ok tt).
Proof.
  induction articles as [|x rest IH]; intros all_articles Hr Ha.
  - simpl. now rewrite app_nil_r.
  - inversion Hr as [|? ? (k & Hk) Hr']; subst.
    cbn [merge_articles first_seen].
    rewrite (any_same_url_str x k all_articles Hk Ha).
    replace (key_of x) with k by (unfold key_of; now rewrite Hk).
    destruct (seen_before k (map key_of all_articles)).
    + now apply IH.
    + rewrite IH; [|exact Hr'|].
      * rewrite map_app. cbn [map].
        replace (key_of x) with k by (unfold key_of; now rewrite Hk).
        now rewrite <- app_assoc.
      * apply Forall_app. split; [exact Ha|]. constructor; [now exists k|constructor].
Qed.

Lemma handle_keyword_fst r : handle_keyword r = fst r.
Proof. destruct r as [l [[]|[]]]; reflexivity. Qed.

(** One query term adds the first-seen part of what its response offers;
    a failed response offers nothing. *)
Lemma search_keyword_first_seen response all_articles :
  Forall has_str_url (offered response) ->
  Forall has_str_url all_articles ->
  handle_keyword (search_keyword response all_articles) =
    all_articles ++ first_seen (map key_of all_articles) (offered response).
Proof.
  intros Ho Ha. rewrite handle_keyword_fst.
  unfold search_keyword, offered in *.
  destruct response as [data|e]; [|simpl; now rewrite app_nil_r].
  destruct data as [| | |d]; cbn [py_get];
    try (simpl; now rewrite app_nil_r).
  destruct (py_eq (get_or d (u "status") VNone) (VStr (u "ok")));
    [|simpl; now rewrite app_nil_r].
  cbn [bind].
  destruct (py_iter (get_or d (u "articles") (VList []))) as [items|e];
    [|simpl; now rewrite app_nil_r].
  now rewrite merge_articles_first_seen.
Qed.

Lemma first_seen_has_str_url seen offers :
  Forall has_str_url offers -> Forall has_str_url (first_seen seen offers).
Proof.
  intros Ho. apply Forall_forall. intros y Hy.
  apply (proj1 (Forall_forall _ _) Ho).
  now apply (subseq_In _ _ _ (first_seen_subseq offers seen)).
Qed.

Lemma search_all_first_seen (fetch : provider) (mkq : pystr -> query)
  (keywords : list pystr) :
  forall issued all_articles,
    Forall has_str_url (stream fetch mkq keywords (length issued)) ->
    Forall has_str_url all_articles ->
    search_all fetch mkq keywords issued all_articles =
      (issued ++ map mkq keywords,
       all_articles
         ++ first_seen (map key_of all_articles)
              (stream fetch mkq keywords (length issued))).
Proof.
  induction keywords as [|keyword rest IH]; intros issued all_articles Hs Ha.
  - simpl. now rewrite !app_nil_r.
  - cbn [search_all]. unfold stream in *. cbn [responses flat_map map] in *.
    apply Forall_app in Hs as [Hs1 Hs2].
    rewrite (search_keyword_first_seen _ _ Hs1 Ha).
    assert (El : length (issued ++ [mkq keyword]) = S (length issued))
      by (rewrite length_app; simpl; lia).
    rewrite IH.
    + rewrite El, first_seen_app, map_app, <- !app_assoc. reflexivity.
    + rewrite El. exact Hs2.
    + apply Forall_app. split; [exact Ha|].
      now apply first_seen_has_str_url.
Qed.

(** The requests go out whatever the responses are. *)
Lemma search_all_issued (fetch : provider) (mkq : pystr -> query)
  (keywords : list pystr) :
  forall issued all_articles,
    fst (search_all fetch mkq keywords issued all_articles) =
      issued ++ map mkq keywords.
Proof.
  induction keywords as [|keyword rest IH]; intros issued all_articles.
  - simpl. now rewrite app_nil_r.
  - cbn [search_all]. rewrite IH. now rewrite <- app_assoc.
Qed.

End Dedup.

Section Collector.

Lemma format_all_Forall2 all_articles :
  forall out,
    format_all all_articles = Ok out ->
    Forall2 (fun a x => format_article a = Ok x) all_articles out.
Proof.
  induction all_articles as [|a rest IH]; intros out E; simpl in E.
  - injection E as <-. constructor.
  - destruct (format_article a) as [x|] eqn:Ea; [|discriminate].
    destruct (format_all rest) as [xs|]; [|discriminate].
    cbn in E. injection E as <-. constructor; [exact Ea|now apply IH].
Qed.

Lemma item_url_built (t de c url s p a : pyval) :
  item_url [(u "title", t); (u "description", de); (u "content", c);
            (u "url", url); (u "source", s); (u "published_at", p);
            (u "author", a)] = url.
Proof. vm_compute. reflexivity. Qed.

(** The identity key survives the normalization. *)
Lemma format_article_url a x :
  has_str_url a -> format_article a = Ok x -> item_url x = VStr (key_of a).
Proof.
  intros (k & Hk) E. unfold key_of. rewrite Hk.
  destruct a as [| | |d]; try discriminate.
  unfold format_article in E. cbn [py_get bind] in E.
  destruct (py_get (get_or d (u "source") (VDict [])) (u "name") (VStr []))
    as [name|]; [|discriminate].
  cbn [bind] in E. injection E as <-. rewrite item_url_built.
  cbn [url_text] in Hk. unfold get_or.
  destruct (dict_get (u "url") d) as [[| s | |]|]; try discriminate.
  now injection Hk as ->.
Qed.

Lemma Forall2_Forall {A B : Type} (F : A -> B -> Prop) (P : A -> Prop)
  (Q : B -> Prop) :
  (forall a x, P a -> F a x -> Q x) ->
  forall l out, Forall2 F l out -> Forall P l -> Forall Q out.
Proof.
  intros HPQ l out HF. induction HF as [|a x l out Hax HF IH]; intros HP.
  - constructor.
  - inversion HP; subst. constructor; [now apply (HPQ a)|now apply IH].
Qed.

Lemma Forall2_ForallOrdPairs {A B : Type} (F : A -> B -> Prop)
  (R : A -> A -> Prop) (R' : B -> B -> Prop) :
  (forall a b x y, R a b -> F a x -> F b y -> R' x y) ->
  forall l out, Forall2 F l out -> ForallOrdPairs R l -> ForallOrdPairs R' out.
Proof.
  intros HR l out HF. induction HF as [|a x l out Hax HF IH]; intros HP.
  - constructor.
  - inversion HP as [|? ? Ha HP']; subst. constructor; [|now apply IH].
    apply (Forall2_Forall F (R a) (R' x)) with (l := l); [|exact HF|exact Ha].
    intros b y Hab Hby. now apply (HR a b).
Qed.

Lemma slice_to_nonneg {A : Type} (n : Z) (l : list A) :
  (0 <= n)%Z -> slice_to n l = firstn (Z.to_nat n) l.
Proof. intros Hn. unfold slice_to. now rewrite (proj2 (Z.leb_le 0 n) Hn). Qed.

Lemma get_market_news_kept key yesterday fetch keywords max_articles :
  (0 <= max_articles)%Z ->
  Forall has_str_url (run_offers key yesterday fetch keywords max_articles) ->
  snd (get_market_news key yesterday fetch keywords max_articles) =
    try_except
      (format_all (run_kept key yesterday fetch keywords max_articles))
      (fun _ => Ok []).
Proof.
  intros Hm Ho. unfold get_market_news, run_kept, run_offers in *.
  unfold issued_terms in *.
  rewrite (search_all_first_seen fetch _ _ [] [] Ho (Forall_nil _)).
  cbv beta iota zeta. cbn [snd app map length].
  now rewrite slice_to_nonneg.
Qed.

End Collector.

Section FirstOffer.

(** Every article the rule keeps is the first one offered with its key. *)
Lemma first_seen_first_offer (offers : list pyval) (a : pyval) :
  forall seen,
    In a (first_seen seen offers) ->
    seen_before (key_of a) seen = false /\
    exists pre post,
      offers = pre ++ a :: post /\
      Forall (fun b => pystr_eqb (key_of b) (key_of a) = false) pre.
Proof.
  induction offers as [|x rest IH]; intros seen Hin; [contradiction|].
  cbn [first_seen] in Hin.
  destruct (seen_before (key_of x) seen) eqn:Ex.
  - destruct (IH seen Hin) as (Hs & pre & post & -> & Hpre).
    split; [exact Hs|]. exists (x :: pre), post. split; [reflexivity|].
    constructor; [|exact Hpre].
    destruct (pystr_eqb (key_of x) (key_of a)) eqn:E; [|reflexivity].
    apply pystr_eqb_eq in E. rewrite E in Ex. congruence.
  - destruct Hin as [->|Hin].
    + split; [exact Ex|]. exists [], rest. split; [reflexivity|constructor].
    + destruct (IH (seen ++ [key_of x]) Hin) as (Hs & pre & post & -> & Hpre).
      rewrite seen_before_app in Hs. apply orb_false_elim in Hs as [Hs Hx].
      split; [exact Hs|]. exists (x :: pre), post. split; [reflexivity|].
      constructor; [|exact Hpre].
      cbn [seen_before existsb] in Hx. now rewrite orb_false_r in Hx.
Qed.

Lemma subseq_map {A B : Type} (f : A -> B) (l1 l2 : list A) :
  subseq l1 l2 -> subseq (map f l1) (map f l2).
Proof. induction 1; cbn [map]; constructor; assumption. Qed.

Lemma format_all_formattable (l : list pyval) :
  Forall formattable l -> exists out, format_all l = Ok out.
Proof.
  induction 1 as [|a l [x Hx] _ [out IH]]; [now exists []|].
  exists (x :: out). cbn [format_all]. now rewrite Hx, IH.
Qed.

Lemma Forall2_In_l {A B : Type} (F : A -> B -> Prop) (l : list A)
  (out : list B) (a : A) :
  Forall2 F l out -> In a l -> exists x, In x out /\ F a x.
Proof.
  induction 1 as [|b x l out Hbx _ IH]; intros Hin; [contradiction|].
  destruct Hin as [->|Hin].
  - exists x. split; [now left|exact Hbx].
  - destruct (IH Hin) as (y & Hy & Hay). exists y. split; [now right|exact Hay].
Qed.

Lemma collected_urls (l : list pyval) (out : list dict) :
  Forall2 collected l out ->
  map item_url out = map (fun a => VStr (key_of a)) l.
Proof.
  induction 1 as [|a x l out [_ Hx] _ IH]; [reflexivity|].
  cbn [map]. now rewrite Hx, IH.
Qed.

End FirstOffer.

(** C2 (as amended). With a non-negative [max_articles] and provider
    articles that each carry a string url, the collection returned has no
    two items with the same url, every item in it comes from the first
    article offered with its url, its urls follow query-term order and then
    provider order (a sub-sequence of the urls the first three terms were
    offered, in that order), and it has at most [max_articles] items. The
    collection is the formatted image of the first-seen articles cut to a
    prefix of [max_articles]; when the cut drops nothing, every first offer
    of a url has its item in it. When one of the kept articles cannot be
    formatted the collection is empty. *)
Theorem get_market_news_dedup_order_bound
  (key yesterday : pystr) (fetch : provider) (keywords : option (list pystr))
  (max_articles : Z) :
  (0 <= max_articles)%Z ->
  Forall has_str_url (run_offers key yesterday fetch keywords max_articles) ->
  exists out,
    snd (get_market_news key yesterday fetch keywords max_articles) = Ok out /\
    (Forall formattable (run_kept key yesterday fetch keywords max_articles) ->
     Forall2 collected
       (run_kept key yesterday fetch keywords max_articles) out) /\
    (~ Forall formattable
         (run_kept key yesterday fetch keywords max_articles) ->
     out = []) /\
    ForallOrdPairs items_differ out /\
    Forall (first_offer
              (run_offers key yesterday fetch keywords max_articles)) out /\
    subseq (map item_url out)
      (map (fun a => VStr (key_of a))
         (run_offers key yesterday fetch keywords max_articles)) /\
    (Z.of_nat (length out) <= max_articles)%Z /\
    (Forall formattable (run_kept key yesterday fetch keywords max_articles) ->
     length (first_seen []
               (run_offers key yesterday fetch keywords max_articles))
       <= Z.to_nat max_articles ->
     forall pre a post,
       run_offers key yesterday fetch keywords max_articles
         = pre ++ a :: post ->
       Forall (fun b => pystr_eqb (key_of b) (key_of a) = false) pre ->
       exists x, In x out /\ collected a x).
Proof.
  intros Hm Ho.
  rewrite (get_market_news_kept key yesterday fetch keywords max_articles Hm Ho).
  set (offers := run_offers key yesterday fetch keywords max_articles) in *.
  set (kept := run_kept key yesterday fetch keywords max_articles).
  assert (Hcut : subseq kept (first_seen [] offers))
    by apply subseq_firstn.
  assert (Hsub : subseq kept offers)
    by (eapply subseq_trans; [exact Hcut|apply first_seen_subseq]).
  destruct (format_all kept) as [out|e] eqn:Ef; cbn [try_except].
  - exists out.
    pose proof (format_all_Forall2 _ _ Ef) as HF.
    pose proof (subseq_Forall _ _ _ Hsub Ho) as Hk.
    assert (HF' : Forall2 (fun a x => has_str_url a /\ collected a x)
                    kept out).
    { clear - HF Hk. induction HF as [|a x l out Hax HF IH]; [constructor|].
      inversion Hk; subst. constructor; [|now apply IH].
      split; [assumption|]. split; [exact Hax|]. now apply format_article_url. }
    assert (HC : Forall2 collected kept out).
    { eapply Forall2_impl; [|exact HF']. now intros a x [_ Hc]. }
    split; [reflexivity|]. split; [intros _; exact HC|].
    split.
    { intros Hn. contradiction Hn. clear - HF.
      induction HF as [|a x l out Hax _ IH]; constructor; [|exact IH].
      now exists x. }
    split.
    { refine (Forall2_ForallOrdPairs _
                (fun a b => pystr_eqb (key_of a) (key_of b) = false)
                items_differ _ _ _ HF' _).
      - intros a b x y Hab [_ [_ Hx]] [_ [_ Hy]].
        unfold items_differ. now rewrite Hx, Hy.
      - eapply subseq_ForallOrdPairs; [exact Hcut|apply first_seen_distinct]. }
    split.
    { refine (Forall2_Forall collected
                (fun a => exists pre post,
                     offers = pre ++ a :: post /\
                     Forall (fun b => pystr_eqb (key_of b) (key_of a) = false)
                       pre)
                (first_offer offers) _ _ _ HC _).
      - intros a x (pre & post & E & Hpre) Hc. now exists pre, a, post.
      - apply Forall_forall. intros a Ha.
        apply (subseq_In _ _ _ Hcut) in Ha.
        now destruct (first_seen_first_offer offers a [] Ha) as [_ Hex]. }
    split.
    { rewrite (collected_urls _ _ HC). now apply subseq_map. }
    split.
    { rewrite <- (Forall2_length HF). unfold kept, run_kept.
      pose proof (firstn_le_length (Z.to_nat max_articles)
                    (first_seen [] offers)).
      fold offers. lia. }
    intros _ Hlen pre a post E Hpre.
    apply (Forall2_In_l _ _ _ _ HC).
    unfold kept, run_kept. fold offers. rewrite firstn_all2 by exact Hlen.
    rewrite E. now apply first_seen_keeps_first.
  - exists [].
    assert (Hno : ~ Forall formattable kept).
    { intros Hall. destruct (format_all_formattable _ Hall) as [out E].
      congruence. }
    split; [reflexivity|]. split; [intros Hall; contradiction|].
    split; [reflexivity|]. split; [constructor|]. split; [constructor|].
    split; [apply subseq_nil_l|]. split; [cbn; lia|].
    intros Hall. contradiction.
Qed.

Lemma get_market_news_dedup_order_bound_witness :
  (0 <= 10)%Z /\
  Forall has_str_url
    (run_offers (u "key") (u "2024-01-01") two_terms sample_terms 10%Z) /\
  exists out,
    snd (get_market_news (u "key") (u "2024-01-01") two_terms sample_terms 10%Z) = Ok out /\
    (Forall formattable (run_kept (u "key") (u "2024-01-01") two_terms sample_terms 10%Z) ->
     Forall2 collected
       (run_kept (u "key") (u "2024-01-01") two_terms sample_terms 10%Z) out) /\
    (~ Forall formattable
         (run_kept (u "key") (u "2024-01-01") two_terms sample_terms 10%Z) ->
     out = []) /\
    ForallOrdPairs items_differ out /\
    Forall (first_offer
              (run_offers (u "key") (u "2024-01-01") two_terms sample_terms 10%Z)) out /\
    subseq (map item_url out)
      (map (fun a => VStr (key_of a))
         (run_offers (u "key") (u "2024-01-01") two_terms sample_terms 10%Z)) /\
    (Z.of_nat (length out) <= 10%Z)%Z /\
    (Forall formattable (run_kept (u "key") (u "2024-01-01") two_terms sample_terms 10%Z) ->
     length (first_seen []
               (run_offers (u "key") (u "2024-01-01") two_terms sample_terms 10%Z))
       <= Z.to_nat 10%Z ->
     forall pre a post,
       run_offers (u "key") (u "2024-01-01") two_terms sample_terms 10%Z
         = pre ++ a :: post ->
       Forall (fun b => pystr_eqb (key_of b) (key_of a) = false) pre ->
       exists x, In x out /\ collected a x).
Proof.
  assert (Hm : (0 <= 10)%Z) by (vm_compute; discriminate).
  assert (Ho : Forall has_str_url
                 (run_offers (u "key") (u "2024-01-01") two_terms sample_terms
                    10%Z)).
  { vm_compute. repeat (constructor || eexists). }
  exact (conj Hm (conj Ho
           (get_market_news_dedup_order_bound (u "key") (u "2024-01-01")
              two_terms sample_terms 10%Z Hm Ho))).
Defined.

(** Against C2 as stated, for every sequence of responses and every limit:
    an article without a ["url"] and one whose ["url"] is empty are both
    kept and both come out with the url [""]; and with the limit [-1] the
    slice drops the last article only, so one item is returned, more than
    the limit. *)
Lemma get_market_news_same_url_twice_or_over_limit :
  (exists x y,
      snd (get_market_news (u "key") (u "2024-01-01") blank_urls None 10)
        = Ok [x; y] /\
      item_url x = VStr [] /\ item_url y = VStr [] /\
      py_eq (item_url x) (item_url y) = true) /\
  (exists x,
      snd (get_market_news (u "key") (u "2024-01-01") two_terms sample_terms
             (-1))
        = Ok [x] /\
      (-1 < Z.of_nat (length [x]))%Z).
Proof.
  split.
  - eexists. eexists. vm_compute. repeat split.
  - eexists. vm_compute. repeat split.
Qed.

(** The end-to-end scenario: three raw items from two query terms, the
    second and third sharing a url, give a collection of two. *)
Example get_market_news_two_terms :
  exists x y,
    snd (get_market_news (u "key") (u "2024-01-01") two_terms sample_terms 10)
      = Ok [x; y] /\
    item_url x = VStr (u "https://n.example/a") /\
    item_url y = VStr (u "https://n.example/b") /\
    get_or y (u "title") VNone = VStr (u "Toyota (7203) reports").
Proof. eexists. eexists. vm_compute. repeat split. Qed.

(** Without the url the data model requires: an article with no ["url"]
    (key [None] in the merge loop) and one whose ["url"] is empty are both
    kept, and both items come out with the url [""]. *)
Example get_market_news_blank_urls :
  exists x y,
    snd (get_market_news (u "key") (u "2024-01-01") blank_urls None 10)
      = Ok [x; y] /\
    item_url x = VStr [] /\ item_url y = VStr [].
Proof. eexists. eexists. vm_compute. repeat split. Qed.

Lemma search_all_all_fail (fetch : provider) (mkq : pystr -> query)
  (keywords : list pystr) :
  (forall n qy, exists e, fetch n qy = Raise e) ->
  forall issued all_articles,
    search_all fetch mkq keywords issued all_articles =
      (issued ++ map mkq keywords, all_articles).
Proof.
  intros Hfail. induction keywords as [|keyword rest IH];
    intros issued all_articles.
  - simpl. now rewrite app_nil_r.
  - cbn [search_all map].
    destruct (Hfail (length issued) (mkq keyword)) as [e ->].
    rewrite handle_keyword_fst. cbn [search_keyword fst].
    rewrite IH. now rewrite <- app_assoc.
Qed.

(** C6. [get_market_news] never raises to its caller: it always returns a
    list. One request goes out for each of the first three query terms
    whatever the earlier responses were; a term whose request fails leaves
    the articles accepted so far as they are and the loop goes on with the
    next term; and when every request fails the result is the empty
    list. *)
Theorem get_market_news_never_raises
  (key yesterday : pystr) (fetch : provider) (keywords : option (list pystr))
  (max_articles : Z) :
  (exists out,
      snd (get_market_news key yesterday fetch keywords max_articles) = Ok out)
  /\
  fst (get_market_news key yesterday fetch keywords max_articles) =
    map (mk_query key yesterday max_articles) (issued_terms keywords)
  /\
  (forall mkq keyword rest issued all_articles e,
      fetch (length issued) (mkq keyword) = Raise e ->
      search_all fetch mkq (keyword :: rest) issued all_articles =
      search_all fetch mkq rest (issued ++ [mkq keyword]) all_articles)
  /\
  ((forall n qy, exists e, fetch n qy = Raise e) ->
   snd (get_market_news key yesterday fetch keywords max_articles) = Ok []).
Proof.
  unfold get_market_news, issued_terms.
  set (ks := firstn 3 match keywords with
                      | Some ks => ks
                      | None => default_keywords
                      end).
  set (mkq := mk_query key yesterday max_articles).
  repeat split.
  - destruct (search_all fetch mkq ks [] []) as [issued all_articles].
    cbn [snd].
    destruct (format_all (slice_to max_articles all_articles)) as [out|e];
      cbn [try_except]; eauto.
  - pose proof (search_all_issued fetch mkq ks [] []) as Hi.
    destruct (search_all fetch mkq ks [] []) as [issued all_articles].
    exact Hi.
  - intros mkq' keyword rest issued all_articles e He.
    cbn [search_all]. rewrite He, handle_keyword_fst. reflexivity.
  - intros Hfail. rewrite (search_all_all_fail fetch mkq ks Hfail).
    cbn [snd]. unfold slice_to.
    destruct (0 <=? max_articles)%Z; now rewrite firstn_nil.
Qed.

(** On the sample where every request fails: three requests, an empty
    collection. *)
Example get_market_news_all_down :
  get_market_news (u "key") (u "2024-01-01") all_down None 10 =
    (map (mk_query (u "key") (u "2024-01-01") 10)
       [u "market"; u "economy"; u "finance"],
     Ok []).
Proof. vm_compute. reflexivity. Qed.

Lemma optional_str_get (d : dict) (k : pystr) :
  optional_str d k -> get_or d k (VStr []) = VStr (field_text d k).
Proof.
  unfold optional_str, get_or, field_text.
  intros [-> | (s & ->)]; reflexivity.
Qed.



(** The item built for the sample: the absent description, content and
    author are empty strings. *)
Example format_article_wire :
  format_article (VDict wire_article) =
    Ok [(u "title", VStr (u "Rates hold"));
        (u "description", VStr []);
        (u "content", VStr []);
        (u "url", VStr (u "https://n.example/a"));
        (u "source", VStr (u "Wire"));
        (u "published_at", VStr (u "2024-01-01T00:00:00Z"));
        (u "author", VStr [])].
Proof. vm_compute. reflexivity. Qed.

(** A raw field that is present with [None] is passed on as it is: the
    default of [get] stands in for an absent key only. *)
Example format_article_null_author :
  format_article (VDict [(u "url", VStr (u "https://n.example/a"));
                         (u "author", VNone)]) =
    Ok [(u "title", VStr []); (u "description", VStr []);
        (u "content", VStr []); (u "url", VStr (u "https://n.example/a"));
        (u "source", VStr []); (u "published_at", VStr []);
        (u "author", VNone)].
Proof. vm_compute. reflexivity. Qed.


(** ** The detector *)

Section Floats.



(** Zero does not reach a positive threshold. *)
Lemma f64_zero_below_positive (t : f64) :
  f64_gt t f64_zero = true -> f64_ge f64_zero t = false.
Proof.
  unfold f64_gt, f64_ge, SFltb, SFleb, f64_zero.
  destruct t as [s|[]| |[] m e]; simpl; congruence.
Qed.

Lemma f64_zero_not_positive (s : bool) : f64_gt (S754_zero s) f64_zero = false.
Proof. reflexivity. Qed.

End Floats.

Section Detector.

Context `{Numerics}.

Lemma reasons_of_nil vt pt df :
  reasons_of vt pt df = [] <->
  volume_fired vt df = false /\ price_fired pt df = false.
Proof.
  unfold reasons_of.
  destruct (volume_fired vt df), (price_fired pt df); simpl;
    split; try discriminate; intuition discriminate.
Qed.

(** The entries of the output: one for each symbol with at least two rows
    and at least one reason. *)
Lemma identify_hot_stocks_In stock_data vt pt hs :
  In hs (identify_hot_stocks stock_data vt pt) <->
  exists sym df,
    In (sym, df) stock_data /\ 2 <= length df /\
    reasons_of vt pt df <> [] /\
    hs = {| symbol := sym;
            volume_ratio := volume_ratio_of df;
            price_change := price_change_of df;
            reasons := reasons_of vt pt df;
            related_news := None |}.
Proof.
  induction stock_data as [|[sym df] rest IH]; cbn [identify_hot_stocks].
  - split; [intros []|intros (? & ? & [] & _)].
  - destruct (length df <? 2) eqn:El.
    + apply Nat.ltb_lt in El. rewrite IH. split.
      * intros (s & d & Hin & Hrest). exists s, d. split; [now right|exact Hrest].
      * intros (s & d & [E|Hin] & Hl & Hrest).
        -- injection E as <- <-. lia.
        -- exists s, d. auto.
    + apply Nat.ltb_ge in El.
      destruct (reasons_of vt pt df) as [|r rs] eqn:Er.
      * rewrite IH. split.
        -- intros (s & d & Hin & Hrest). exists s, d. split; [now right|exact Hrest].
        -- intros (s & d & [E|Hin] & Hl & Hr & Hrest).
           ++ injection E as <- <-. now contradiction Hr.
           ++ exists s, d. auto.
      * cbn [In]. rewrite IH. split.
        -- intros [<-|(s & d & Hin & Hrest)].
           ++ exists sym, df. rewrite Er.
              split; [now left|]. split; [exact El|].
              split; [discriminate|reflexivity].
           ++ exists s, d. split; [now right|exact Hrest].
        -- intros (s & d & [E|Hin] & Hl & Hr & ->).
           ++ injection E as <- <-. left. now rewrite Er.
           ++ right. exists s, d. auto.
Qed.

Lemma stock_data_functional (stock_data : list (pystr * dataframe)) sym df df' :
  NoDup (map fst stock_data) ->
  In (sym, df) stock_data -> In (sym, df') stock_data -> df = df'.
Proof.
  induction stock_data as [|[s d] rest IH]; simpl; intros Hnd H1 H2;
    [contradiction|].
  inversion Hnd as [|? ? Hnot Hnd']; subst.
  destruct H1 as [E1|H1], H2 as [E2|H2].
  - congruence.
  - injection E1 as -> ->. contradiction Hnot.
    apply (in_map fst) in H2. exact H2.
  - injection E2 as -> ->. contradiction Hnot.
    apply (in_map fst) in H1. exact H1.
  - now apply IH.
Qed.

Lemma flagged_iff stock_data vt pt sym df :
  NoDup (map fst stock_data) -> In (sym, df) stock_data -> 2 <= length df ->
  (flagged sym (identify_hot_stocks stock_data vt pt) <->
   volume_fired vt df = true \/ price_fired pt df = true).
Proof.
  intros Hnd Hin Hl. unfold flagged. split.
  - intros (hs & Hhs & Hsym).
    apply identify_hot_stocks_In in Hhs as (s & d & Hin' & _ & Hr & ->).
    cbn in Hsym. subst s.
    rewrite (stock_data_functional _ _ _ _ Hnd Hin Hin').
    destruct (volume_fired vt d) eqn:Ev; [now left|].
    destruct (price_fired pt d) eqn:Ep; [now right|].
    contradiction Hr. now apply reasons_of_nil.
  - intros Hfired.
    eexists. split.
    + apply identify_hot_stocks_In. exists sym, df. repeat split; auto.
      intros Hr. apply reasons_of_nil in Hr as [Hv Hp].
      destruct Hfired; congruence.
    + reflexivity.
Qed.

End Detector.


Lemma watchlist_NoDup : NoDup (map fst watchlist).
Proof.
  vm_compute. repeat constructor; simpl; intuition discriminate.
Qed.


(** The boundary and the end-to-end scenario, computed: a ratio of exactly
    2.0 is in with the volume reason, the double nearest to 1.999999 is
    out, the series 100,100,100,100,500 with closes 10,10,10,10,10.6 has
    ratio 5.0 and carries both reasons, and a series without trailing
    volume is in only when its price moves. *)
Example identify_hot_stocks_watchlist :
  map (fun hs => (symbol hs, reasons hs))
    (@identify_hot_stocks sample_numerics watchlist two five_percent) =
  [(u "7203.T", [u "出来高が過去平均の5.0倍"; u "株価が前日比6.0%変動"]);
   (u "6758.T", [u "出来高が過去平均の2.0倍"]);
   (u "SONY", [u "株価が前日比10.0%変動"])]
  /\ @volume_ratio_of sample_numerics surge = f64_of_Z 5
  /\ @volume_ratio_of sample_numerics at_boundary = two
  /\ @volume_ratio_of sample_numerics below_boundary = dec 1999999 1000000
  /\ f64_ge (dec 1999999 1000000) two = false
  /\ @volume_ratio_of sample_numerics dormant = f64_zero.
Proof. vm_compute. repeat split. Qed.

(** C4 (as amended). When the mean of all volumes but the last is zero,
    the volume ratio is defined as 0 without dividing, so nothing is
    raised; the symbol is then in the output iff 0 reaches the volume
    threshold or the price-change check fires, and with a positive volume
    threshold (0 does not reach it) iff the price-change check fires. *)
Theorem zero_trailing_mean_gives_no_volume_signal {N : Numerics}
  (stock_data : list (pystr * dataframe)) (vt pt : f64)
  (sym : pystr) (df : dataframe) (s : bool) :
  NoDup (map fst stock_data) ->
  In (sym, df) stock_data ->
  2 <= length df ->
  series_mean (removelast (map Volume df)) = S754_zero s ->
  volume_ratio_of df = f64_zero /\
  (flagged sym (identify_hot_stocks stock_data vt pt) <->
   f64_ge f64_zero vt = true \/
   f64_ge (SFabs (price_change_of df)) pt = true) /\
  (f64_gt vt f64_zero = true ->
   f64_ge (volume_ratio_of df) vt = false /\
   (flagged sym (identify_hot_stocks stock_data vt pt) <->
    f64_ge (SFabs (price_change_of df)) pt = true)).
Proof.
  intros Hnd Hin Hl Hmean.
  assert (Hr : volume_ratio_of df = f64_zero).
  { unfold volume_ratio_of. rewrite Hmean.
    now rewrite f64_zero_not_positive. }
  pose proof (flagged_iff stock_data vt pt sym df Hnd Hin Hl) as Hiff.
  unfold volume_fired, price_fired in Hiff. rewrite Hr in Hiff.
  split; [exact Hr|]. split; [exact Hiff|].
  intros Hvt. pose proof (f64_zero_below_positive vt Hvt) as Hv.
  split; [now rewrite Hr|].
  rewrite Hiff, Hv.
  split; [intros [Hf|Hp]; [discriminate|exact Hp]|now right].
Qed.

Lemma zero_trailing_mean_gives_no_volume_signal_witness :
  NoDup (map fst watchlist) /\
  In (u "SONY", dormant_up) watchlist /\
  2 <= length dormant_up /\
  @series_mean sample_numerics (removelast (map Volume dormant_up))
    = S754_zero false /\
  @volume_ratio_of sample_numerics dormant_up = f64_zero /\
  (flagged (u "SONY")
     (@identify_hot_stocks sample_numerics watchlist two five_percent) <->
   f64_ge f64_zero two = true \/
   f64_ge (SFabs (price_change_of dormant_up)) five_percent = true) /\
  (f64_gt two f64_zero = true ->
   f64_ge (@volume_ratio_of sample_numerics dormant_up) two = false /\
   (flagged (u "SONY")
      (@identify_hot_stocks sample_numerics watchlist two five_percent) <->
    f64_ge (SFabs (price_change_of dormant_up)) five_percent = true)).
Proof.
  assert (Hin : In (u "SONY", dormant_up) watchlist)
    by (do 4 right; left; reflexivity).
  assert (Hl : 2 <= length dormant_up) by (vm_compute; repeat constructor).
  assert (Hm : @series_mean sample_numerics (removelast (map Volume dormant_up))
               = S754_zero false) by (vm_compute; reflexivity).
  exact (conj watchlist_NoDup (conj Hin (conj Hl (conj Hm
           (@zero_trailing_mean_gives_no_volume_signal sample_numerics
              watchlist two five_percent (u "SONY") dormant_up false
              watchlist_NoDup Hin Hl Hm))))).
Defined.

(** With a volume threshold of zero the ratio 0 reaches the threshold: the
    series without trailing volume and without a price move is in the
    output, with the volume reason. *)
Example identify_hot_stocks_zero_threshold :
  map (fun hs => (symbol hs, reasons hs))
    (@identify_hot_stocks sample_numerics [(u "MSFT", dormant)] f64_zero
       five_percent) =
  [(u "MSFT", [u "出来高が過去平均の0.0倍"])].
Proof. vm_compute. reflexivity. Qed.

(** Against C4 as stated: the series has three points, the mean of its
    volumes before the last is zero and its price does not move, yet with
    a volume threshold of zero it is in the output, for the volume reason
    alone. *)
Lemma zero_trailing_mean_flagged_without_price_move :
  2 <= length dormant /\
  @series_mean sample_numerics (removelast (map Volume dormant)) = f64_zero /\
  f64_ge (SFabs (price_change_of dormant)) five_percent = false /\
  map (fun hs => (symbol hs, reasons hs))
    (@identify_hot_stocks sample_numerics [(u "MSFT", dormant)] f64_zero
       five_percent) =
  [(u "MSFT", [u "出来高が過去平均の0.0倍"])].
Proof. vm_compute. repeat split; lia. Qed.

(** ** The cross-linker *)

Section CrossLinker.

Lemma title_matches_str (stock_symbol : pystr) (article : dict) :
  str_title article ->
  title_matches stock_symbol (get_or article (u "title") (VStr [])) =
    Ok (linked stock_symbol article).
Proof.
  intros Ht. unfold str_title in Ht. rewrite (optional_str_get _ _ Ht).
  unfold title_matches, linked, title_text. cbn [py_in bind].
  now destruct (substring (split_head 46 stock_symbol)
                  (field_text article (u "title"))).
Qed.

(** On string titles the linker is a filter followed by a projection. *)
Lemma link_news_to_stock_filter (stock_symbol : pystr)
  (news_articles : list dict) :
  Forall str_title news_articles ->
  link_news_to_stock stock_symbol news_articles =
    Ok (map to_related (filter (linked stock_symbol) news_articles)).
Proof.
  induction 1 as [|article rest Ht Hrest IH]; [reflexivity|].
  cbn [link_news_to_stock filter]. rewrite (title_matches_str _ _ Ht).
  cbn [bind]. rewrite IH. cbn [bind].
  now destruct (linked stock_symbol article).
Qed.

(** With at most one dot in the symbol, cutting at the first dot and
    cutting at the last dot are the same. *)
Lemma split_head_no_dot (s : pystr) :
  existsb (N.eqb 46) s = false -> split_head 46 s = s.
Proof.
  induction s as [|c s IH]; cbn [existsb split_head]; [reflexivity|].
  rewrite (N.eqb_sym 46 c).
  destruct (c =? 46)%N; cbn [orb]; [discriminate|].
  intros Hs. now rewrite IH.
Qed.

Lemma strip_last_suffix_one_dot (s : pystr) :
  count_occ N.eq_dec s 46%N <= 1 -> strip_last_suffix s = split_head 46 s.
Proof.
  induction s as [|c s IH]; [reflexivity|].
  cbn [strip_last_suffix split_head count_occ].
  destruct (N.eq_dec c 46) as [->|Hc].
  - intros Hle. rewrite N.eqb_refl.
    assert (Hno : existsb (N.eqb 46) s = false).
    { destruct (existsb (N.eqb 46) s) eqn:E; [|reflexivity].
      apply existsb_exists in E as (x & Hx & Ex). apply N.eqb_eq in Ex.
      subst x. apply (count_occ_In N.eq_dec) in Hx. lia. }
    now rewrite Hno.
  - intros Hle. rewrite (proj2 (N.eqb_neq c 46) Hc). cbn [andb].
    now rewrite IH.
Qed.

End CrossLinker.

(** C5 (as amended). For narrated items whose titles are strings,
    [link_news_to_stock] links an item iff the symbol, or the part of the
    symbol before its first ['.'], is a literal, case-sensitive substring of
    the title; it returns a list in every case, the empty one when nothing
    matches, and the links follow the order of the input. For a symbol with
    at most one ['.'] the part before the first ['.'] is the symbol without
    its exchange suffix. *)
Theorem link_news_to_stock_matches_before_first_dot
  (stock_symbol : pystr) (news_articles : list dict) :
  Forall str_title news_articles ->
  link_news_to_stock stock_symbol news_articles =
    Ok (map to_related
          (filter (fun article =>
                     substring (split_head 46 stock_symbol) (title_text article)
                     || substring stock_symbol (title_text article))
             news_articles))
  /\
  (count_occ N.eq_dec stock_symbol 46%N <= 1 ->
   split_head 46 stock_symbol = strip_last_suffix stock_symbol).
Proof.
  intros Ht. split.
  - now apply link_news_to_stock_filter.
  - intros Hc. symmetry. now apply strip_last_suffix_one_dot.
Qed.

Lemma link_news_to_stock_matches_before_first_dot_witness :
  Forall str_title [toyota; rates] /\
  link_news_to_stock (u "7203.T") [toyota; rates] =
    Ok (map to_related
          (filter (fun article =>
                     substring (split_head 46 (u "7203.T")) (title_text article)
                     || substring (u "7203.T") (title_text article))
             [toyota; rates]))
  /\
  (count_occ N.eq_dec (u "7203.T") 46%N <= 1 ->
   split_head 46 (u "7203.T") = strip_last_suffix (u "7203.T")).
Proof.
  assert (Ht : Forall str_title [toyota; rates]).
  { constructor;
      [right; exists (u "Toyota (7203) reports"); vm_compute; reflexivity|].
    constructor; [right; exists (u "Rates hold"); vm_compute; reflexivity|].
    constructor. }
  exact (conj Ht
           (link_news_to_stock_matches_before_first_dot (u "7203.T")
              [toyota; rates] Ht)).
Defined.

(** Against C5 as stated: for the symbol [BT.A.L] the code tests [BT], the
    text before the first dot, and links an item titled "BT shares climb",
    which contains neither [BT.A.L] nor [BT.A], the symbol without what
    follows its last dot. *)
Lemma link_news_to_stock_cuts_at_first_dot :
  link_news_to_stock bt_symbol [bt_item] = Ok [to_related bt_item] /\
  strip_last_suffix bt_symbol = u "BT.A" /\
  split_head 46 bt_symbol = u "BT" /\
  linked_by_last_dot bt_symbol bt_item = false.
Proof. vm_compute. repeat split. Qed.

(** The scenario of the specification: [7203.T] links the item whose
    title contains [7203], and only that one. *)
Example link_news_to_stock_toyota :
  link_news_to_stock (u "7203.T") [rates; toyota] = Ok [to_related toyota].
Proof. vm_compute. reflexivity. Qed.

(** C10. With the empty string as the symbol, every item (with a string
    title) is linked: the empty string, which is also what is left of it
    before the first dot, is a substring of every title. *)
Theorem link_news_to_stock_empty_symbol_links_all (news_articles : list dict) :
  Forall str_title news_articles ->
  split_head 46 [] = [] /\
  (forall title : pystr, substring [] title = true) /\
  link_news_to_stock [] news_articles = Ok (map to_related news_articles).
Proof.
  intros Ht. split; [reflexivity|]. split; [exact substring_empty|].
  rewrite (link_news_to_stock_filter [] news_articles Ht).
  f_equal. f_equal. apply forallb_filter_id. apply forallb_forall.
  intros article _. unfold linked. cbn [split_head].
  now rewrite substring_empty.
Qed.

Lemma link_news_to_stock_empty_symbol_links_all_witness :
  Forall str_title [toyota; rates] /\
  split_head 46 [] = [] /\
  (forall title : pystr, substring [] title = true) /\
  link_news_to_stock [] [toyota; rates] = Ok (map to_related [toyota; rates]).
Proof.
  assert (Ht : Forall str_title [toyota; rates]).
  { constructor;
      [right; exists (u "Toyota (7203) reports"); vm_compute; reflexivity|].
    constructor; [right; exists (u "Rates hold"); vm_compute; reflexivity|].
    constructor. }
  exact (conj Ht
           (link_news_to_stock_empty_symbol_links_all [toyota; rates] Ht)).
Defined.

(** ** The report composer *)

Section Composer.

Context `{Builtins}.

Lemma substring_prefix (p b : pystr) : substring p (p ++ b) = true.
Proof. apply substring_here, starts_with_app. Qed.

Lemma substring_suffix (p a : pystr) : substring p (a ++ p) = true.
Proof.
  apply substring_later. rewrite <- (app_nil_r p) at 2. apply substring_prefix.
Qed.




Lemma get_or_cons (k0 : pystr) (v : pyval) (d : dict) (k : pystr)
  (default : pyval) :
  get_or ((k0, v) :: d) k default =
    if pystr_eqb k k0 then v else get_or d k default.
Proof. unfold get_or. cbn [dict_get]. now destruct (pystr_eqb k k0). Qed.

Lemma get_or_absent (d : dict) (k : pystr) (default : pyval) :
  dict_get k d = None -> get_or d k default = default.
Proof. unfold get_or. now intros ->. Qed.

(** Comparisons of two literal keys are computed. *)
Ltac compare_keys :=
  repeat match goal with
    | |- context [pystr_eqb (u ?a) (u ?b)] =>
        let r := eval vm_compute in (pystr_eqb (u a) (u b)) in
        replace (pystr_eqb (u a) (u b)) with r by (vm_compute; reflexivity)
    end;
  cbv iota.

(** An absent field is rendered as its placeholder: the block of an
    article is the block of the same article with the placeholder filled
    in. *)
Lemma article_block_placeholder (i : nat) (article : dict)
  (k placeholder : pystr) :
  In (k, placeholder)
    [(u "title", u "Unknown"); (u "source", u "Unknown");
     (u "published_at", u "Unknown"); (u "summary", u "No summary");
     (u "url", u "No URL")] ->
  dict_get k article = None ->
  article_block i article = article_block i ((k, VStr placeholder) :: article).
Proof.
  intros Hk Habsent. unfold article_block. rewrite !get_or_cons.
  cbn [In] in Hk.
  destruct Hk as [E|[E|[E|[E|[E|[]]]]]]; injection E as <- <-;
    compare_keys; now rewrite (get_or_absent _ _ _ Habsent).
Qed.

End Composer.

Section Reports.

Context `{Builtins}.

Lemma starts_with_longer (p s t : pystr) :
  starts_with p s = true -> starts_with p (s ++ t) = true.
Proof.
  revert s; induction p as [|c p IH]; intros [|d s]; cbn; try discriminate;
    try reflexivity.
  intros E. apply andb_prop in E as [-> E]. now rewrite (IH _ E).
Qed.

Lemma substring_longer (p s t : pystr) :
  substring p s = true -> substring p (s ++ t) = true.
Proof.
  induction s as [|c s IH]; cbn [substring app].
  - rewrite orb_false_r. intros E. destruct p; [|discriminate].
    apply substring_empty.
  - intros E. apply orb_prop in E as [E|E].
    + change (c :: s ++ t) with ((c :: s) ++ t).
      now rewrite (starts_with_longer _ (c :: s) t E).
    + rewrite (IH E). apply orb_true_r.
Qed.

(** A text contains what its parts contain. *)
Lemma substring_inside (p a s b : pystr) :
  substring p s = true -> substring p (a ++ s ++ b) = true.
Proof. intros E. now apply substring_later, substring_longer. Qed.

Lemma article_block_shows (i : nat) (article : dict) (k s : pystr) :
  In k [u "title"; u "source"; u "published_at"; u "summary"; u "url"] ->
  dict_get k article = Some (VStr s) ->
  substring s (article_block i article) = true.
Proof.
  intros Hk Hs.
  assert (Hg : forall default, py_format (get_or article k default) = s).
  { intros default. unfold get_or. now rewrite Hs. }
  unfold article_block. cbn [In] in Hk.
  destruct Hk as [<-|[<-|[<-|[<-|[<-|[]]]]]]; rewrite Hg.
  - do 3 apply substring_later. apply substring_prefix.
  - do 5 apply substring_later. apply substring_prefix.
  - do 7 apply substring_later. apply substring_prefix.
  - do 9 apply substring_later. apply substring_prefix.
  - do 11 apply substring_later. apply substring_prefix.
Qed.

End Reports.

Section ReportsShow.

Context `{Builtins}.

Lemma article_blocks_In (article : dict) (articles : list dict) :
  In article articles ->
  forall i, exists j pre post,
    article_blocks i articles = pre ++ article_block j article ++ post.
Proof.
  induction articles as [|first rest IH]; intros Hin i; [contradiction|].
  cbn [article_blocks]. destruct Hin as [->|Hin].
  - exists i, [], (article_blocks (S i) rest). reflexivity.
  - destruct (IH Hin (S i)) as (j & pre & post & ->).
    exists j, (article_block i first ++ pre), post.
    now rewrite <- app_assoc.
Qed.

Lemma flat_map_In {A : Type} (f : A -> pystr) (x : A) (l : list A) :
  In x l -> exists pre post, flat_map f l = pre ++ f x ++ post.
Proof.
  intros Hin. apply in_split in Hin as (l1 & l2 & ->).
  exists (flat_map f l1), (flat_map f l2).
  now rewrite flat_map_app.
Qed.

Lemma substring_of_part (p part whole pre post : pystr) :
  whole = pre ++ part ++ post ->
  substring p part = true -> substring p whole = true.
Proof. intros -> Hp. now apply substring_inside. Qed.

End ReportsShow.

Section Placeholders.

Context `{Builtins}.



End Placeholders.


(** The footers carry the disclaimer, and an item with no field at all is
    rendered with the placeholders only. *)
Example report_footers_disclaim :
  substring (u "投資判断は必ずご自身で行ってください。") report_footer = true /\
  substring (u "投資判断は必ずご自身で行ってください。") hot_footer = true /\
  @article_block sample_builtins 1 [] =
    u "
1. Unknown
    出典: Unknown
    公開日: Unknown
    
    要約:
    No summary
    
    詳細: No URL
    
".
Proof. vm_compute. repeat split. Qed.

(* ================================================================== *)
(** * Part IV: further properties of the same code *)
(* ================================================================== *)

Import DailySummary PySplit ActiveCompanies Mail HotStockConfig.
Import Coverage MoreSamples.

(** ** The narrator, continued *)

Section NarratorLog.

Context `{Builtins}.
Variables (api : backend) (model_name : pystr).

Lemma pauses_app (l l' : list event) : pauses (l ++ l') = pauses l + pauses l'.
Proof. unfold pauses. now rewrite filter_app, length_app. Qed.

(** [summarize_news] sleeps for cool-downs only. *)
Lemma summarize_news_no_pause fuel :
  forall article_text title log s log',
    summarize_news fuel api model_name article_text title log = Done s log' ->
    pauses log' = pauses log.
Proof.
  induction fuel as [|fuel IH]; intros article_text title log s log' E;
    cbn [summarize_news] in E.
  { destruct recursion_error_in_try; [|discriminate].
    now injection E as _ <-. }
  destruct (build_prompt article_text title) as [prompt|e].
  - destruct (api (requests_made log) (mk_request model_name prompt))
      as [content|[]]; try (injection E as _ <-; rewrite pauses_app;
                            cbn; lia).
    apply IH in E. rewrite E, pauses_app. cbn. lia.
  - now injection E as _ <-.
Qed.

(** Against a backend that never throttles, one call sends one request
    when the prompt can be built and none otherwise. *)
Lemma summarize_news_one_request fuel article_text title log :
  (forall n req, api n req <> Raise RateLimitError) ->
  exists s,
    summarize_news (S fuel) api model_name article_text title log =
      Done s
        (log ++
           match build_prompt article_text title with
           | Ok prompt => [Request (mk_request model_name prompt)]
           | Raise _ => []
           end).
Proof.
  intros Hn. cbn [summarize_news].
  destruct (build_prompt article_text title) as [prompt|e].
  - specialize (Hn (requests_made log) (mk_request model_name prompt)).
    destruct (api (requests_made log) (mk_request model_name prompt))
      as [content|[]]; eauto; now contradiction Hn.
  - rewrite app_nil_r. eauto.
Qed.

End NarratorLog.

Section NarratorBatch.

Context `{Builtins}.
Variables (api : backend) (model_name : pystr).

Lemma filter_removelast_skip {A : Type} (f : A -> bool) (a : A) (l : list A) :
  f a = false -> filter f (removelast (a :: l)) = filter f (removelast l).
Proof.
  intros Ha. destruct l as [|b l]; [reflexivity|].
  cbn [removelast filter]. now rewrite Ha.
Qed.

Lemma summarize_from_pauses (k fuel n : nat) :
  (forall m req, exists j, j <= k /\ api (m + j) req <> Raise RateLimitError) ->
  k < fuel ->
  forall articles i done log,
    n = i + length articles ->
    exists out log',
      summarize_from fuel api model_name n i articles done log
        = Done (done ++ out) log' /\
      pauses log' =
        pauses log + length (filter has_body (removelast articles)).
Proof.
  intros Hk Hf articles.
  induction articles as [|article rest IH]; intros i done log Hn.
  - exists [], log. cbn. rewrite app_nil_r. split; [reflexivity|lia].
  - cbn [summarize_from].
    destruct (truthy (article_body article)) eqn:Eb; cbn [negb].
    + destruct (summarize_news_total api model_name k fuel
                  (article_body article)
                  (get_or article (u "title") (VStr [])) log Hk Hf)
        as (summary & log1 & Es).
      rewrite Es.
      pose proof (summarize_news_no_pause api model_name _ _ _ _ _ _ Es) as Hp.
      cbn [length] in Hn.
      destruct rest as [|next rest'].
      * replace (i <? n - 1) with false
          by (symmetry; apply Nat.ltb_ge; cbn [length] in Hn; lia).
        destruct (IH (S i)
                    (done ++ [dict_set (u "summary") (VStr summary) article])
                    log1 ltac:(cbn [length] in *; lia))
          as (out & log2 & Eo & Hout).
        exists (dict_set (u "summary") (VStr summary) article :: out), log2.
        split; [rewrite Eo; now rewrite <- app_assoc|].
        cbn in Hout |- *. lia.
      * replace (i <? n - 1) with true
          by (symmetry; apply Nat.ltb_lt; cbn [length] in Hn; lia).
        destruct (IH (S i)
                    (done ++ [dict_set (u "summary") (VStr summary) article])
                    (log1 ++ [Sleep 1]) ltac:(cbn [length] in *; lia))
          as (out & log2 & Eo & Hout).
        exists (dict_set (u "summary") (VStr summary) article :: out), log2.
        split; [rewrite Eo; now rewrite <- app_assoc|].
        rewrite Hout, pauses_app.
        change (removelast (article :: next :: rest'))
          with (article :: removelast (next :: rest')).
        cbn [filter]. unfold has_body at 2. rewrite Eb. cbn. lia.
    + destruct (IH (S i) done log ltac:(cbn [length] in *; lia))
        as (out & log2 & Eo & Hout).
      exists out, log2. split; [exact Eo|].
      rewrite filter_removelast_skip; [exact Hout|exact Eb].
Qed.

Lemma summarize_from_requests (fuel n : nat) :
  (forall m req, api m req <> Raise RateLimitError) ->
  forall articles i done log,
    exists out log',
      summarize_from (S fuel) api model_name n i articles done log
        = Done (done ++ out) log' /\
      requests_made log' =
        requests_made log
          + length (filter promptable (filter has_body articles)).
Proof.
  intros Hn articles.
  induction articles as [|article rest IH]; intros i done log.
  - exists [], log. cbn. rewrite app_nil_r. split; [reflexivity|lia].
  - cbn [summarize_from filter]. unfold has_body at 1.
    destruct (truthy (article_body article)) eqn:Eb; cbn [negb].
    + destruct (summarize_news_one_request api model_name fuel
                  (article_body article)
                  (get_or article (u "title") (VStr [])) log Hn)
        as (summary & Es).
      rewrite Es.
      match goal with
      | |- context [if i <? n - 1 then ?l ++ [Sleep 1] else ?l] =>
          destruct (IH (S i)
                      (done ++ [dict_set (u "summary") (VStr summary) article])
                      (if i <? n - 1 then l ++ [Sleep 1] else l))
            as (out & log2 & Eo & Hout)
      end.
      exists (dict_set (u "summary") (VStr summary) article :: out), log2.
      split; [rewrite Eo; now rewrite <- app_assoc|].
      rewrite Hout. cbn [filter]. unfold promptable at 2.
      destruct (build_prompt (article_body article)
                  (get_or article (u "title") (VStr []))) as [prompt|e];
        destruct (i <? n - 1);
        rewrite ?requests_made_app, ?app_nil_r; cbn; lia.
    + apply IH.
Qed.

End NarratorBatch.

(** X1. The pacing of [summarize_multiple_articles]: when the calls return,
    the one-second pauses added to the log are as many as the items with
    text among all input items but the last. A pause follows every
    summarized item that is not the last item of the input, also when every
    later item is skipped. *)
Theorem summarize_multiple_articles_pauses {B : Builtins}
  (api : backend) (model_name : pystr) (articles : list dict)
  (log : list event) (k fuel : nat) :
  (forall m req, exists j, j <= k /\ api (m + j) req <> Raise RateLimitError) ->
  k < fuel ->
  exists out log',
    summarize_multiple_articles fuel api model_name articles log
      = Done out log' /\
    pauses log' = pauses log + length (filter has_body (removelast articles)).
Proof.
  intros Hk Hf. unfold summarize_multiple_articles.
  destruct (summarize_from_pauses api model_name k fuel (length articles)
              Hk Hf articles 0 [] log eq_refl) as (out & log' & E & Hp).
  exists out, log'. split; assumption.
Qed.

Lemma never_throttled_bound :
  forall m req, exists j,
    j <= 0 /\ never_throttled (m + j) req <> Raise RateLimitError.
Proof. intros m req. exists 0. split; [apply le_n|discriminate]. Qed.

Lemma summarize_multiple_articles_pauses_witness :
  (forall m req, exists j,
      j <= 0 /\ never_throttled (m + j) req <> Raise RateLimitError) /\
  0 < 1 /\
  exists out log',
    @summarize_multiple_articles sample_builtins 1 never_throttled
      (u "gpt-4o-mini") last_is_empty [] = Done out log' /\
    pauses log' =
      pauses [] + length (filter has_body (removelast last_is_empty)).
Proof.
  exact (conj never_throttled_bound (conj (le_n 1)
           (@summarize_multiple_articles_pauses sample_builtins
              never_throttled (u "gpt-4o-mini") last_is_empty [] 0 1
              never_throttled_bound (le_n 1)))).
Defined.

(** On the sample the pause comes after the only backend call. *)
Example summarize_multiple_articles_trailing_pause :
  @summarize_multiple_articles sample_builtins 1 never_throttled
    (u "gpt-4o-mini") last_is_empty [] =
  Done [dict_set (u "summary") (VStr (u "Summary.")) toyota]
       [Request (mk_request (u "gpt-4o-mini")
                   (prompt_head ++ u "Toyota (7203) reports" ++ prompt_mid
                      ++ u "Profit rose." ++ prompt_tail));
        Sleep 1].
Proof. vm_compute. reflexivity. Qed.

(** X2. The cost of [summarize_multiple_articles] against a backend that
    never throttles: one request for each item that has text and whose
    prompt can be built, none for the others, so never more requests than
    input items. *)
Theorem summarize_multiple_articles_requests {B : Builtins}
  (api : backend) (model_name : pystr) (articles : list dict)
  (log : list event) (fuel : nat) :
  (forall m req, api m req <> Raise RateLimitError) ->
  0 < fuel ->
  exists out log',
    summarize_multiple_articles fuel api model_name articles log
      = Done out log' /\
    requests_made log' =
      requests_made log
        + length (filter promptable (filter has_body articles)) /\
    requests_made log' <= requests_made log + length articles.
Proof.
  intros Hn Hf. destruct fuel as [|fuel]; [lia|].
  unfold summarize_multiple_articles.
  destruct (summarize_from_requests api model_name fuel (length articles)
              Hn articles 0 [] log) as (out & log' & E & Hr).
  exists out, log'. split; [exact E|]. split; [exact Hr|].
  rewrite Hr.
  pose proof (filter_length_le promptable (filter has_body articles)).
  pose proof (filter_length_le has_body articles). lia.
Qed.

Lemma never_throttled_never :
  forall m req, never_throttled m req <> Raise RateLimitError.
Proof. intros m req. discriminate. Qed.

Lemma summarize_multiple_articles_requests_witness :
  (forall m req, never_throttled m req <> Raise RateLimitError) /\
  0 < 1 /\
  exists out log',
    @summarize_multiple_articles sample_builtins 1 never_throttled
      (u "gpt-4o-mini") [toyota; empty_item; rates] [] = Done out log' /\
    requests_made log' =
      requests_made []
        + length (filter (@promptable sample_builtins)
                    (filter has_body [toyota; empty_item; rates])) /\
    requests_made log' <= requests_made [] + length [toyota; empty_item; rates].
Proof.
  exact (conj never_throttled_never (conj (le_n 1)
           (@summarize_multiple_articles_requests sample_builtins
              never_throttled (u "gpt-4o-mini") [toyota; empty_item; rates]
              [] 1 never_throttled_never (le_n 1)))).
Defined.

(** X3. What [summarize_multiple_articles] returns, whatever the backend
    does: for each input item whose content or description is not empty,
    in order, a copy in which ["summary"] holds a string and every other
    key is looked up as in the input item. *)
Theorem summarize_multiple_articles_keeps_fields {B : Builtins}
  (api : backend) (model_name : pystr) (articles : list dict)
  (log : list event) (fuel : nat) :
  exists out log',
    summarize_multiple_articles fuel api model_name articles log
      = Done out log' /\
    Forall2
      (fun article item =>
         (exists s, dict_get (u "summary") item = Some (VStr s)) /\
         (forall key, key <> u "summary" ->
                      dict_get key item = dict_get key article))
      (filter (fun article => negb (without_text article)) articles) out.
Proof.
  destruct (summarize_from_narrates api model_name fuel (length articles)
              articles 0 [] log) as (out & log' & Eo & Hout).
  rewrite (filter_ext has_body (fun article => negb (without_text article))
             has_body_text) in Hout.
  exists out, log'. split; [exact Eo|].
  eapply Forall2_impl; [|exact Hout].
  intros article item (s & ->). split.
  - exists s. apply dict_get_set_same.
  - intros key Hkey. now apply dict_get_set_other.
Qed.

Section Budget.

Context `{Builtins}.

Lemma build_prompt_truncates (text : pystr) (title : pyval) :
  build_prompt (VStr (firstn 3000 text)) title = build_prompt (VStr text) title.
Proof.
  unfold build_prompt. cbn [py_slice_to bind].
  now rewrite firstn_firstn, Nat.min_id.
Qed.

Lemma build_prompt_str (text title : pystr) :
  build_prompt (VStr text) (VStr title) =
    Ok (prompt_head ++ title ++ prompt_mid ++ firstn 3000 text ++ prompt_tail).
Proof. reflexivity. Qed.

End Budget.

(** X4. The character budget of [summarize_news]: only the first 3000
    characters of the article text are read (a call on the text and a call
    on its first 3000 characters behave alike, request for request), and
    for a string title the prompt is the fixed text plus the title plus at
    most 3000 characters of the article. *)
Theorem summarize_news_reads_3000 {B : Builtins}
  (api : backend) (model_name : pystr) (fuel : nat) (text : pystr)
  (title : pyval) (log : list event) :
  summarize_news fuel api model_name (VStr text) title log =
    summarize_news fuel api model_name (VStr (firstn 3000 text)) title log
  /\
  (forall t : pystr,
      exists prompt,
        build_prompt (VStr text) (VStr t) = Ok prompt /\
        length prompt <=
          length prompt_head + length t + length prompt_mid + 3000
            + length prompt_tail).
Proof.
  split.
  - revert log. induction fuel as [|fuel IH]; intros log; [reflexivity|].
    cbn [summarize_news]. rewrite build_prompt_truncates.
    destruct (build_prompt (VStr text) title) as [prompt|e]; [|reflexivity].
    destruct (api (requests_made log) (mk_request model_name prompt))
      as [content|[]]; try reflexivity.
    apply IH.
  - intros t. eexists. split; [apply build_prompt_str|].
    rewrite !length_app.
    pose proof (firstn_le_length 3000 text). lia.
Qed.

(** A text of 4000 characters and its first 3000 give the same request. *)
Example summarize_news_long_text :
  @summarize_news sample_builtins 1 never_throttled (u "gpt-4o-mini")
    (VStr long_text) (VStr (u "Rates hold")) [] =
  Done (u "Summary.")
    [Request (mk_request (u "gpt-4o-mini")
                (prompt_head ++ u "Rates hold" ++ prompt_mid
                   ++ repeat 97%N 3000 ++ prompt_tail))].
Proof. vm_compute. reflexivity. Qed.

(** ** The daily summary *)

Section Daily.

Context `{Builtins}.

Lemma daily_item_same_headline (i : nat) (a b : dict) :
  same_headline a b -> daily_item i a = daily_item i b.
Proof.
  intros [Ht Hs]. unfold daily_item, get_or. now rewrite Ht, Hs.
Qed.

Lemma daily_items_same_headline (l1 l2 : list dict) :
  Forall2 same_headline l1 l2 ->
  forall i, daily_items i l1 = daily_items i l2.
Proof.
  induction 1 as [|a b l1 l2 Hab Hl IH]; intros i; [reflexivity|].
  cbn [daily_items]. now rewrite (daily_item_same_headline i a b Hab), IH.
Qed.

End Daily.

(** X5. [generate_daily_summary] looks at the first five narrated items
    only, and of each at its title and its summary only: two lists whose
    first five items agree on these two fields get the same request and the
    same text. Whatever the backend raises, a throttle included, the fixed
    fallback sentence is returned after that single request: nothing is
    retried and nothing sleeps. *)
Theorem generate_daily_summary_reads_five_headlines {B : Builtins}
  (api : backend) (model_name : pystr) (l1 l2 : list dict)
  (log : list event) :
  Forall2 same_headline (firstn 5 l1) (firstn 5 l2) ->
  generate_daily_summary api model_name l1 log =
    generate_daily_summary api model_name l2 log
  /\
  (forall e first rest,
      l1 = first :: rest ->
      api (requests_made log)
        (mk_daily_request model_name (daily_prompt l1)) = Raise e ->
      generate_daily_summary api model_name l1 log =
        (daily_fallback,
         log ++ [Request (mk_daily_request model_name (daily_prompt l1))])).
Proof.
  intros Hl. split.
  - assert (Ep : daily_prompt l1 = daily_prompt l2).
    { unfold daily_prompt. now rewrite (daily_items_same_headline _ _ Hl). }
    unfold generate_daily_summary.
    destruct l1 as [|a1 l1], l2 as [|a2 l2]; try (now inversion Hl).
    now rewrite Ep.
  - intros e first rest -> He. unfold generate_daily_summary. now rewrite He.
Qed.

Lemma generate_daily_summary_reads_five_headlines_witness :
  Forall2 same_headline (firstn 5 six_items) (firstn 5 five_items) /\
  @generate_daily_summary sample_builtins never_throttled (u "gpt-4o-mini")
    six_items [] =
    @generate_daily_summary sample_builtins never_throttled (u "gpt-4o-mini")
      five_items []
  /\
  (forall e first rest,
      six_items = first :: rest ->
      never_throttled (requests_made [])
        (@mk_daily_request (u "gpt-4o-mini")
           (@daily_prompt sample_builtins six_items)) = Raise e ->
      @generate_daily_summary sample_builtins never_throttled (u "gpt-4o-mini")
        six_items [] =
        (daily_fallback,
         [] ++ [Request (@mk_daily_request (u "gpt-4o-mini")
                           (@daily_prompt sample_builtins six_items))])).
Proof.
  assert (Hl : Forall2 same_headline (firstn 5 six_items) (firstn 5 five_items)).
  { cbn [firstn six_items five_items app].
    repeat (constructor; [split; reflexivity|]). constructor. }
  exact (conj Hl
           (@generate_daily_summary_reads_five_headlines sample_builtins
              never_throttled (u "gpt-4o-mini") six_items five_items [] Hl)).
Defined.

(** On the samples: no item, no request; a throttle, the fallback after one
    request. *)
Example generate_daily_summary_edges :
  @generate_daily_summary sample_builtins always_throttled (u "gpt-4o-mini")
    [] [] = (nothing_today, []) /\
  @generate_daily_summary sample_builtins always_throttled (u "gpt-4o-mini")
    five_items [] =
    (daily_fallback,
     [Request (mk_daily_request (u "gpt-4o-mini")
                 (@daily_prompt sample_builtins five_items))]).
Proof. split; vm_compute; reflexivity. Qed.

(** ** The collector, continued *)

Section CollectorMore.

Lemma first_seen_all_seen (offers : list pyval) :
  forall seen,
    Forall (fun x => seen_before (key_of x) seen = true) offers ->
    first_seen seen offers = [].
Proof.
  induction offers as [|x rest IH]; intros seen Hs; [reflexivity|].
  inversion Hs as [|? ? Hx Hrest]; subst. cbn [first_seen]. rewrite Hx.
  now apply IH.
Qed.

Lemma seen_before_In (k : pystr) (seen : list pystr) :
  In k seen -> seen_before k seen = true.
Proof.
  intros Hk. apply existsb_exists. exists k. split; [exact Hk|].
  apply pystr_eqb_refl.
Qed.

(** After a pass over the offers, every offered key has been seen. *)
Lemma first_seen_covers (offers : list pyval) :
  forall seen,
    Forall (fun x =>
              seen_before (key_of x)
                (seen ++ map key_of (first_seen seen offers)) = true)
      offers.
Proof.
  induction offers as [|x rest IH]; intros seen; [constructor|].
  cbn [first_seen].
  destruct (seen_before (key_of x) seen) eqn:Ex.
  - constructor; [|apply IH].
    rewrite seen_before_app, Ex. reflexivity.
  - cbn [map]. constructor.
    + rewrite seen_before_app. apply orb_true_iff. right.
      cbn [seen_before existsb]. now rewrite pystr_eqb_refl.
    + specialize (IH (seen ++ [key_of x])).
      eapply Forall_impl; [|exact IH].
      intros y Hy. cbv beta in Hy. now rewrite <- app_assoc in Hy.
Qed.

Lemma format_all_raises (a : pyval) (e : exn) (l : list pyval) :
  In a l -> format_article a = Raise e -> exists e', format_all l = Raise e'.
Proof.
  intros Hin Ha. induction l as [|b l IH]; [contradiction|].
  cbn [format_all]. destruct Hin as [->|Hin].
  - rewrite Ha. cbn. eauto.
  - destruct (format_article b) as [x|eb]; cbn; [|eauto].
    destruct (IH Hin) as [e' ->]. cbn. eauto.
Qed.

Lemma get_market_news_issued key yesterday fetch keywords max_articles :
  fst (get_market_news key yesterday fetch keywords max_articles) =
    map (mk_query key yesterday max_articles) (issued_terms keywords).
Proof.
  unfold get_market_news, issued_terms.
  match goal with
  | |- context [search_all ?f ?m ?ks [] []] =>
      pose proof (search_all_issued f m ks [] []) as Hi;
      destruct (search_all f m ks [] []) as [issued all_articles]
  end.
  exact Hi.
Qed.

End CollectorMore.


(** X7. Offering the same articles again adds nothing: after the merge
    loop has gone through a response, going through the same response once
    more leaves the accepted list as it is. *)
Theorem merge_articles_same_response_twice
  (articles all_articles : list pyval) :
  Forall has_str_url articles ->
  Forall has_str_url all_articles ->
  merge_articles articles (fst (merge_articles articles all_articles)) =
    (fst (merge_articles articles all_articles), Ok tt).
Proof.
  intros Ha Hall.
  rewrite (merge_articles_first_seen articles all_articles Ha Hall).
  cbn [fst].
  rewrite merge_articles_first_seen.
  - rewrite map_app.
    rewrite (first_seen_all_seen articles _
               (first_seen_covers articles (map key_of all_articles))).
    now rewrite app_nil_r.
  - exact Ha.
  - apply Forall_app. split; [exact Hall|].
    now apply first_seen_has_str_url.
Qed.

Lemma merge_articles_same_response_twice_witness :
  Forall has_str_url
    [raw "Rates hold" "https://n.example/a";
     raw "Toyota (7203) reports" "https://n.example/b"] /\
  Forall has_str_url [raw "Toyota again" "https://n.example/b"] /\
  merge_articles
    [raw "Rates hold" "https://n.example/a";
     raw "Toyota (7203) reports" "https://n.example/b"]
    (fst (merge_articles
            [raw "Rates hold" "https://n.example/a";
             raw "Toyota (7203) reports" "https://n.example/b"]
            [raw "Toyota again" "https://n.example/b"])) =
    (fst (merge_articles
            [raw "Rates hold" "https://n.example/a";
             raw "Toyota (7203) reports" "https://n.example/b"]
            [raw "Toyota again" "https://n.example/b"]), Ok tt).
Proof.
  assert (Ha : Forall has_str_url
                 [raw "Rates hold" "https://n.example/a";
                  raw "Toyota (7203) reports" "https://n.example/b"]).
  { constructor; [eexists; vm_compute; reflexivity|].
    constructor; [eexists; vm_compute; reflexivity|constructor]. }
  assert (Hall : Forall has_str_url [raw "Toyota again" "https://n.example/b"]).
  { constructor; [eexists; vm_compute; reflexivity|constructor]. }
  exact (conj Ha (conj Hall
           (merge_articles_same_response_twice _ _ Ha Hall))).
Defined.

(** X8. One accepted article whose ["source"] is present and is not an
    object makes [get_market_news] return the empty list: the formatting
    loop raises on it, the outer handler returns [[]], and the other
    articles are lost with it. *)
Theorem get_market_news_flat_source_loses_all
  (key yesterday : pystr) (fetch : provider) (keywords : option (list pystr))
  (max_articles : Z) (d : dict) (v : pyval) :
  (0 <= max_articles)%Z ->
  Forall has_str_url (run_offers key yesterday fetch keywords max_articles) ->
  In (VDict d) (run_kept key yesterday fetch keywords max_articles) ->
  dict_get (u "source") d = Some v ->
  (forall sd, v <> VDict sd) ->
  snd (get_market_news key yesterday fetch keywords max_articles) = Ok [].
Proof.
  intros Hm Ho Hin Hs Hv.
  rewrite (get_market_news_kept key yesterday fetch keywords max_articles Hm Ho).
  assert (Hr : format_article (VDict d) = Raise AttributeError).
  { unfold format_article. cbn [py_get bind].
    assert (Es : get_or d (u "source") (VDict []) = v)
      by (unfold get_or; now rewrite Hs).
    rewrite Es.
    destruct v as [| | |sd]; try reflexivity. now contradiction (Hv sd). }
  destruct (format_all_raises _ _ _ Hin Hr) as [e' ->]. reflexivity.
Qed.

Lemma get_market_news_flat_source_loses_all_witness :
  (0 <= 10)%Z /\
  Forall has_str_url
    (run_offers (u "key") (u "2024-01-01") one_flat_source None 10%Z) /\
  In (VDict flat_source)
    (run_kept (u "key") (u "2024-01-01") one_flat_source None 10%Z) /\
  dict_get (u "source") flat_source = Some (VStr (u "Wire")) /\
  (forall sd, VStr (u "Wire") <> VDict sd) /\
  snd (get_market_news (u "key") (u "2024-01-01") one_flat_source None 10%Z)
    = Ok [].
Proof.
  assert (Hm : (0 <= 10)%Z) by (vm_compute; discriminate).
  assert (Ho : Forall has_str_url
                 (run_offers (u "key") (u "2024-01-01") one_flat_source None
                    10%Z)).
  { vm_compute. repeat (constructor || eexists). }
  assert (Hin : In (VDict flat_source)
                  (run_kept (u "key") (u "2024-01-01") one_flat_source None
                     10%Z)).
  { vm_compute. right. left. reflexivity. }
  assert (Hs : dict_get (u "source") flat_source = Some (VStr (u "Wire")))
    by (vm_compute; reflexivity).
  assert (Hv : forall sd, VStr (u "Wire") <> VDict sd) by (intros sd; discriminate).
  exact (conj Hm (conj Ho (conj Hin (conj Hs (conj Hv
           (get_market_news_flat_source_loses_all (u "key") (u "2024-01-01")
              one_flat_source None 10%Z flat_source (VStr (u "Wire"))
              Hm Ho Hin Hs Hv)))))).
Defined.

(** ** Price histories *)

Section Histories.

Variables (history : market) (days : Z).

Lemma frames_set_fresh (sym : pystr) (df : dataframe)
  (results : list (pystr * dataframe)) :
  ~ In sym (map fst results) ->
  frames_set sym df results = results ++ [(sym, df)].
Proof.
  induction results as [|[s d] rest IH]; cbn [frames_set map In app];
    intros Hn; [reflexivity|].
  destruct (pystr_eqb sym s) eqn:E.
  - apply pystr_eqb_eq in E. contradiction Hn. now left.
  - rewrite IH; [reflexivity|]. intros Hin. apply Hn. now right.
Qed.

Lemma frames_set_known (sym : pystr) (df : dataframe)
  (results : list (pystr * dataframe)) :
  In sym (map fst results) ->
  map fst (frames_set sym df results) = map fst results.
Proof.
  induction results as [|[s d] rest IH]; cbn [frames_set map In];
    intros Hin; [contradiction|].
  destruct (pystr_eqb sym s) eqn:E.
  - apply pystr_eqb_eq in E. now subst s.
  - cbn [map fst]. f_equal. apply IH. destruct Hin as [Heq|Hin]; [|exact Hin].
    cbn [fst] in Heq. subst s. now rewrite pystr_eqb_refl in E.
Qed.

Lemma frames_set_values (sym : pystr) (df : dataframe)
  (results : list (pystr * dataframe)) :
  df <> [] ->
  Forall (fun entry => snd entry <> []) results ->
  Forall (fun entry => snd entry <> []) (frames_set sym df results).
Proof.
  intros Hdf. induction 1 as [|[s d] rest Hd Hrest IH]; cbn [frames_set].
  - constructor; [exact Hdf|constructor].
  - destruct (pystr_eqb sym s); constructor; assumption.
Qed.

Lemma keep_frame_well_kept (asked : list pystr) (sym : pystr)
  (response : result dataframe) (results : list (pystr * dataframe)) :
  well_kept asked results ->
  well_kept (asked ++ [sym]) (keep_frame response sym results).
Proof.
  intros (Hnd & Hincl & Hne).
  assert (Hold : well_kept (asked ++ [sym]) results).
  { split; [exact Hnd|]. split; [|exact Hne].
    intros x Hx. apply in_or_app. left. now apply Hincl. }
  destruct response as [[|row rows]|e]; cbn [keep_frame]; try exact Hold.
  destruct (in_dec (list_eq_dec N.eq_dec) sym (map fst results)) as [Hin|Hout].
  - split; [|split].
    + now rewrite frames_set_known.
    + rewrite frames_set_known by exact Hin. apply Hold.
    + apply frames_set_values; [discriminate|exact Hne].
  - rewrite (frames_set_fresh _ _ _ Hout). split; [|split].
    + rewrite map_app. cbn [map fst].
      apply NoDup_app; [exact Hnd|repeat constructor; intros []|].
      intros x Hx [<-|[]]. contradiction.
    + rewrite map_app. cbn [map fst]. intros x Hx.
      apply in_app_or in Hx as [Hx|Hx]; apply in_or_app;
        [left; now apply Hincl|now right].
    + apply Forall_app. split; [exact Hne|].
      constructor; [discriminate|constructor].
Qed.

Lemma get_active_from_well_kept (symbols : list pystr) :
  forall asked results,
    well_kept asked results ->
    fst (get_active_from history days symbols asked results)
      = asked ++ symbols /\
    well_kept (asked ++ symbols)
      (snd (get_active_from history days symbols asked results)).
Proof.
  induction symbols as [|sym rest IH]; intros asked results Hw.
  - cbn. rewrite app_nil_r. split; [reflexivity|exact Hw].
  - cbn [get_active_from].
    destruct (IH (asked ++ [sym])
                (keep_frame (history (length asked) sym days) sym results)
                (keep_frame_well_kept _ _ _ _ Hw)) as [Hf Hk].
    rewrite <- app_assoc in Hf, Hk. split; assumption.
Qed.

(** With distinct symbols every frame with rows is appended. *)
Lemma get_active_from_fetched (symbols : list pystr) :
  forall asked results,
    NoDup (asked ++ symbols) ->
    incl (map fst results) asked ->
    snd (get_active_from history days symbols asked results) =
      results ++ fetched history days symbols (length asked).
Proof.
  induction symbols as [|sym rest IH]; intros asked results Hnd Hincl.
  - cbn. now rewrite app_nil_r.
  - cbn [get_active_from fetched].
    assert (Hfresh : ~ In sym (map fst results)).
    { intros Hin. apply Hincl in Hin.
      apply NoDup_remove_2 in Hnd. apply Hnd. apply in_or_app. now left. }
    assert (El : length (asked ++ [sym]) = S (length asked))
      by (rewrite length_app; cbn; lia).
    rewrite IH.
    + rewrite El. unfold keep_frame, kept_frame.
      destruct (history (length asked) sym days) as [[|row rows]|e];
        cbn [app]; try reflexivity.
      rewrite (frames_set_fresh _ _ _ Hfresh). now rewrite <- app_assoc.
    + now rewrite <- app_assoc.
    + intros x Hx. apply in_or_app.
      unfold keep_frame in Hx.
      destruct (history (length asked) sym days) as [[|row rows]|e];
        try (left; now apply Hincl).
      rewrite (frames_set_fresh _ _ _ Hfresh), map_app in Hx.
      apply in_app_or in Hx as [Hx|Hx]; [left; now apply Hincl|now right].
Qed.

End Histories.

(** X9. [get_active_companies] asks for every symbol once, in the order
    given, whatever the earlier requests did; the dict it returns has
    distinct keys, all of them among the symbols asked for, and no empty
    frame. *)
Theorem get_active_companies_keeps_frames
  (history : market) (symbols : list pystr) (days : Z) :
  fst (get_active_companies history symbols days) = symbols /\
  NoDup (map fst (snd (get_active_companies history symbols days))) /\
  incl (map fst (snd (get_active_companies history symbols days))) symbols /\
  Forall (fun entry => snd entry <> [])
    (snd (get_active_companies history symbols days)).
Proof.
  unfold get_active_companies.
  destruct (get_active_from_well_kept history days symbols [] [])
    as [Hf (Hnd & Hincl & Hne)].
  - split; [constructor|]. split; [intros x []|constructor].
  - repeat split; assumption.
Qed.

(** X10. For distinct symbols the dict holds, in the order of the
    requests, exactly the symbols whose request returned at least one row,
    each with the frame returned: a request that raises and a request that
    returns no row leave no entry and stop nothing. *)
Theorem get_active_companies_fetched
  (history : market) (symbols : list pystr) (days : Z) :
  NoDup symbols ->
  snd (get_active_companies history symbols days) =
    fetched history days symbols 0.
Proof.
  intros Hnd. unfold get_active_companies.
  now rewrite (get_active_from_fetched history days symbols [] [] Hnd
                 (incl_refl _)).
Qed.

Lemma asked_symbols_NoDup : NoDup asked_symbols.
Proof. vm_compute. repeat constructor; simpl; intuition discriminate. Qed.

Lemma get_active_companies_fetched_witness :
  NoDup asked_symbols /\
  snd (get_active_companies three_symbols asked_symbols 5) =
    fetched three_symbols 5 asked_symbols 0.
Proof.
  exact (conj asked_symbols_NoDup
           (get_active_companies_fetched three_symbols asked_symbols 5
              asked_symbols_NoDup)).
Defined.

(** Of three symbols, one with rows, one without, one failing, the first
    is kept and all three are asked for. *)
Example get_active_companies_three_symbols :
  get_active_companies three_symbols asked_symbols 5 =
    (asked_symbols, [(u "7203.T", surge)]).
Proof. vm_compute. reflexivity. Qed.

(** ** The detector, continued *)

Section DetectorMore.

Context `{Numerics}.

Lemma reasons_of_length vt pt df :
  reasons_of vt pt df <> [] ->
  length (reasons_of vt pt df) = 1 \/ length (reasons_of vt pt df) = 2.
Proof.
  unfold reasons_of.
  destruct (volume_fired vt df), (price_fired pt df); cbn; intros Hr;
    auto; now contradiction Hr.
Qed.

Lemma identify_hot_stocks_subseq stock_data vt pt :
  subseq (map symbol (identify_hot_stocks stock_data vt pt))
    (map fst stock_data).
Proof.
  induction stock_data as [|[sym df] rest IH]; cbn [identify_hot_stocks map];
    [constructor|].
  destruct (length df <? 2); [now constructor|].
  destruct (reasons_of vt pt df); [now constructor|].
  cbn [map symbol fst]. now constructor.
Qed.

(** A symbol is flagged iff its frame has two rows and a check fires. *)
Lemma flagged_iff_rows stock_data vt pt sym df :
  NoDup (map fst stock_data) -> In (sym, df) stock_data ->
  (flagged sym (identify_hot_stocks stock_data vt pt) <->
   2 <= length df /\
   (volume_fired vt df = true \/ price_fired pt df = true)).
Proof.
  intros Hnd Hin. split.
  - intros (hs & Hhs & Hsym).
    apply identify_hot_stocks_In in Hhs as (s & d & Hin' & Hl & Hr & ->).
    cbn in Hsym. subst s.
    rewrite (stock_data_functional _ _ _ _ Hnd Hin Hin').
    split; [exact Hl|].
    destruct (volume_fired vt d) eqn:Ev; [now left|].
    destruct (price_fired pt d) eqn:Ep; [now right|].
    contradiction Hr. now apply reasons_of_nil.
  - intros [Hl Hfired]. now apply (flagged_iff stock_data vt pt sym df).
Qed.

End DetectorMore.

(** X11. Fetching and detecting together: for every entry of the dict
    [get_active_companies] returns, whatever the list of symbols asked for
    (repetitions included), the symbol is in the output of
    [identify_hot_stocks] iff its frame has at least two rows and the
    volume check or the price check fires. A frame with a single row is
    never flagged. *)
Theorem fetched_symbol_flagged_iff {N : Numerics}
  (history : market) (symbols : list pystr) (days : Z) (vt pt : f64)
  (sym : pystr) (df : dataframe) :
  In (sym, df) (snd (get_active_companies history symbols days)) ->
  (flagged sym
     (identify_hot_stocks (snd (get_active_companies history symbols days))
        vt pt) <->
   2 <= length df /\
   (f64_ge (volume_ratio_of df) vt = true \/
    f64_ge (SFabs (price_change_of df)) pt = true))
  /\ In sym symbols /\ df <> [].
Proof.
  intros Hin.
  destruct (get_active_from_well_kept history days symbols [] [])
    as [_ (Hnd & Hincl & Hne)].
  { split; [constructor|]. split; [intros x []|constructor]. }
  fold (get_active_companies history symbols days) in Hnd, Hincl, Hne.
  split; [|split].
  - exact (flagged_iff_rows _ vt pt sym df Hnd Hin).
  - apply Hincl. now apply (in_map fst) in Hin.
  - exact (proj1 (Forall_forall _ _) Hne (sym, df) Hin).
Qed.

Lemma fetched_symbol_flagged_iff_witness :
  In (u "6758.T", [mk_bar (f64_of_Z 10) (f64_of_Z 100)])
    (snd (get_active_companies open_market asked_symbols 5)) /\
  (flagged (u "6758.T")
     (@identify_hot_stocks sample_numerics
        (snd (get_active_companies open_market asked_symbols 5))
        two five_percent) <->
   2 <= length [mk_bar (f64_of_Z 10) (f64_of_Z 100)] /\
   (f64_ge (@volume_ratio_of sample_numerics
              [mk_bar (f64_of_Z 10) (f64_of_Z 100)]) two = true \/
    f64_ge (SFabs (price_change_of [mk_bar (f64_of_Z 10) (f64_of_Z 100)]))
      five_percent = true))
  /\ In (u "6758.T") asked_symbols
  /\ [mk_bar (f64_of_Z 10) (f64_of_Z 100)] <> [].
Proof.
  assert (Hin : In (u "6758.T", [mk_bar (f64_of_Z 10) (f64_of_Z 100)])
                  (snd (get_active_companies open_market asked_symbols 5))).
  { vm_compute. right. left. reflexivity. }
  exact (conj Hin
           (@fetched_symbol_flagged_iff sample_numerics open_market
              asked_symbols 5 two five_percent (u "6758.T")
              [mk_bar (f64_of_Z 10) (f64_of_Z 100)] Hin)).
Defined.

(** X12. The output of [identify_hot_stocks] follows the iteration order
    of its input: its symbols are a sub-sequence of the keys of
    [stock_data]. Every entry carries one or two reasons, the ratio and the
    change computed from the frame of its symbol, and no related news
    yet. *)
Theorem identify_hot_stocks_order_and_entries {N : Numerics}
  (stock_data : list (pystr * dataframe)) (vt pt : f64) :
  subseq (map symbol (identify_hot_stocks stock_data vt pt))
    (map fst stock_data)
  /\
  Forall
    (fun hs =>
       (length (reasons hs) = 1 \/ length (reasons hs) = 2) /\
       related_news hs = None /\
       exists df,
         In (symbol hs, df) stock_data /\ 2 <= length df /\
         volume_ratio hs = volume_ratio_of df /\
         price_change hs = price_change_of df)
    (identify_hot_stocks stock_data vt pt).
Proof.
  split; [apply identify_hot_stocks_subseq|].
  apply Forall_forall. intros hs Hhs.
  apply identify_hot_stocks_In in Hhs as (s & d & Hin & Hl & Hr & ->).
  cbn [reasons related_news symbol volume_ratio price_change].
  split; [now apply reasons_of_length|]. split; [reflexivity|].
  exists d. repeat split; assumption.
Qed.

(** ** The cross-linker, continued *)

Section LinkerMore.

Lemma title_matches_raises_TypeError sym title e :
  title_matches sym title = Raise e -> e = TypeError.
Proof.
  unfold title_matches. destruct title as [|s|l|d]; cbn [py_in bind].
  - now intros [= <-].
  - destruct (substring (split_head 46 sym) s); discriminate.
  - destruct (existsb (py_eq (VStr (split_head 46 sym))) l); discriminate.
  - destruct (dict_get (split_head 46 sym) d); discriminate.
Qed.

Lemma link_news_to_stock_raises_TypeError sym articles e :
  link_news_to_stock sym articles = Raise e -> e = TypeError.
Proof.
  induction articles as [|article rest IH]; cbn [link_news_to_stock];
    [discriminate|].
  destruct (title_matches sym (get_or article (u "title") (VStr [])))
    as [hit|e1] eqn:Et; cbn [bind].
  - destruct (link_news_to_stock sym rest) as [linked|e2]; cbn [bind].
    + destruct hit; discriminate.
    + intros [= <-]. now apply IH.
  - intros [= <-]. now apply (title_matches_raises_TypeError _ _ _ Et).
Qed.

End LinkerMore.

(** X13. [link_news_to_stock] catches nothing: as soon as one item of the
    list has the title [None] (the key present, the value [None]) the call
    raises [TypeError], whatever the symbol and whatever the other items,
    matches included; no partial list is returned. *)
Theorem link_news_to_stock_none_title_raises
  (stock_symbol : pystr) (news_articles : list dict) (article : dict) :
  In article news_articles ->
  dict_get (u "title") article = Some VNone ->
  link_news_to_stock stock_symbol news_articles = Raise TypeError.
Proof.
  intros Hin Ht.
  induction news_articles as [|first rest IH]; [contradiction|].
  cbn [link_news_to_stock]. destruct Hin as [->|Hin].
  - unfold get_or. rewrite Ht. reflexivity.
  - destruct (title_matches stock_symbol (get_or first (u "title") (VStr [])))
      as [hit|e] eqn:Et; cbn [bind].
    + now rewrite (IH Hin).
    + now rewrite (title_matches_raises_TypeError _ _ _ Et).
Qed.

Lemma link_news_to_stock_none_title_raises_witness :
  In untitled [toyota; untitled] /\
  dict_get (u "title") untitled = Some VNone /\
  link_news_to_stock (u "7203.T") [toyota; untitled] = Raise TypeError.
Proof.
  assert (Hin : In untitled [toyota; untitled]) by (right; left; reflexivity).
  assert (Ht : dict_get (u "title") untitled = Some VNone)
    by (vm_compute; reflexivity).
  exact (conj Hin (conj Ht
           (link_news_to_stock_none_title_raises (u "7203.T")
              [toyota; untitled] untitled Hin Ht))).
Defined.

(** ** The reports, continued *)

(** X14. The market report shows what it is given: the daily summary and,
    for each of the first five narrated items, the text of its title,
    source, date, summary and url (where these are strings) are literal
    parts of the text returned. *)
Theorem create_market_report_email_shows_items {B : Builtins}
  (today daily_summary : pystr) (summarized_articles : list dict)
  (article : dict) (k s : pystr) :
  In article (firstn 5 summarized_articles) ->
  In k [u "title"; u "source"; u "published_at"; u "summary"; u "url"] ->
  dict_get k article = Some (VStr s) ->
  substring s
    (create_market_report_email today daily_summary summarized_articles)
    = true /\
  substring daily_summary
    (create_market_report_email today daily_summary summarized_articles)
    = true.
Proof.
  intros Hin Hk Hs. unfold create_market_report_email. split.
  - destruct (article_blocks_In article _ Hin 1) as (j & pre & post & ->).
    apply substring_later, substring_longer, substring_inside.
    exact (article_block_shows j article k s Hk Hs).
  - unfold report_header. apply substring_longer.
    do 3 apply substring_later. apply substring_prefix.
Qed.

Lemma create_market_report_email_shows_items_witness :
  In narrated_rates (firstn 5 six_items) /\
  In (u "summary")
    [u "title"; u "source"; u "published_at"; u "summary"; u "url"] /\
  dict_get (u "summary") narrated_rates = Some (VStr (u "Rates were held.")) /\
  substring (u "Rates were held.")
    (@create_market_report_email sample_builtins (u "2024-01-02")
       (u "Quiet day.") six_items) = true /\
  substring (u "Quiet day.")
    (@create_market_report_email sample_builtins (u "2024-01-02")
       (u "Quiet day.") six_items) = true.
Proof.
  assert (Hin : In narrated_rates (firstn 5 six_items))
    by (right; left; reflexivity).
  assert (Hk : In (u "summary")
                 [u "title"; u "source"; u "published_at"; u "summary";
                  u "url"]) by (do 3 right; left; reflexivity).
  assert (Hs : dict_get (u "summary") narrated_rates
               = Some (VStr (u "Rates were held.")))
    by (vm_compute; reflexivity).
  exact (conj Hin (conj Hk (conj Hs
           (@create_market_report_email_shows_items sample_builtins
              (u "2024-01-02") (u "Quiet day.") six_items narrated_rates
              (u "summary") (u "Rates were held.") Hin Hk Hs)))).
Defined.

(** X15. The hot-stock report shows every stock it is given: its symbol,
    each of its reasons and, when related news is attached, the title, the
    summary and the url of each linked item are literal parts of the text
    returned. A stock whose related news is an empty list is rendered like
    a stock without related news. *)
Theorem create_hot_stock_report_email_shows_stocks {B : Builtins}
  (today : pystr) (hot_stocks : list hot_stock) (stock : hot_stock) :
  In stock hot_stocks ->
  substring (symbol stock) (create_hot_stock_report_email today hot_stocks)
    = true /\
  (forall reason,
      In reason (reasons stock) ->
      substring reason (create_hot_stock_report_email today hot_stocks)
        = true) /\
  (forall linked_news news,
      related_news stock = Some linked_news -> In news linked_news ->
      substring (py_format (rel_title news))
        (create_hot_stock_report_email today hot_stocks) = true /\
      substring (py_format (rel_summary news))
        (create_hot_stock_report_email today hot_stocks) = true /\
      substring (py_format (rel_url news))
        (create_hot_stock_report_email today hot_stocks) = true) /\
  (related_news stock = Some [] ->
   stock_block stock =
     stock_block {| symbol := symbol stock;
                    volume_ratio := volume_ratio stock;
                    price_change := price_change stock;
                    reasons := reasons stock;
                    related_news := None |}).
Proof.
  intros Hin.
  destruct (flat_map_In stock_block stock hot_stocks Hin) as (pre & post & E).
  assert (Hblock : forall p,
             substring p (stock_block stock) = true ->
             substring p (create_hot_stock_report_email today hot_stocks)
               = true).
  { intros p Hp. unfold create_hot_stock_report_email. rewrite E.
    do 3 apply substring_later. apply substring_longer.
    now apply substring_inside. }
  split; [|split; [|split]].
  - apply Hblock. unfold stock_block.
    apply substring_later, substring_prefix.
  - intros reason Hr. apply Hblock. unfold stock_block.
    destruct (flat_map_In reason_line reason _ Hr) as (pre' & post' & ->).
    do 3 apply substring_later. apply substring_longer, substring_inside.
    unfold reason_line. apply substring_later, substring_prefix.
  - intros linked_news news Hl Hn.
    assert (Hnews : forall p,
               substring p (news_lines news) = true ->
               substring p (stock_block stock) = true).
    { intros p Hp. unfold stock_block, related_block. rewrite Hl.
      destruct linked_news as [|n ns]; [contradiction|].
      destruct (flat_map_In news_lines news _ Hn) as (pre' & post' & ->).
      do 4 apply substring_later. apply substring_longer.
      do 2 apply substring_later. now apply substring_inside. }
    repeat split; apply Hblock, Hnews; unfold news_lines.
    + apply substring_later, substring_prefix.
    + do 4 apply substring_later. apply substring_prefix.
    + do 7 apply substring_later. apply substring_prefix.
  - intros Hl. unfold stock_block, related_block. cbn [related_news symbol
      reasons]. now rewrite Hl.
Qed.

Lemma create_hot_stock_report_email_shows_stocks_witness :
  In flagged_toyota [flagged_toyota] /\
  substring (symbol flagged_toyota) (@create_hot_stock_report_email sample_builtins (u "2024-01-02") [flagged_toyota])
    = true /\
  (forall reason,
      In reason (reasons flagged_toyota) ->
      substring reason (@create_hot_stock_report_email sample_builtins (u "2024-01-02") [flagged_toyota])
        = true) /\
  (forall linked_news news,
      related_news flagged_toyota = Some linked_news -> In news linked_news ->
      substring (@py_format sample_builtins (rel_title news))
        (@create_hot_stock_report_email sample_builtins (u "2024-01-02") [flagged_toyota]) = true /\
      substring (@py_format sample_builtins (rel_summary news))
        (@create_hot_stock_report_email sample_builtins (u "2024-01-02") [flagged_toyota]) = true /\
      substring (@py_format sample_builtins (rel_url news))
        (@create_hot_stock_report_email sample_builtins (u "2024-01-02") [flagged_toyota]) = true) /\
  (related_news flagged_toyota = Some [] ->
   @stock_block sample_builtins flagged_toyota =
     @stock_block sample_builtins
       {| symbol := symbol flagged_toyota;
          volume_ratio := volume_ratio flagged_toyota;
          price_change := price_change flagged_toyota;
          reasons := reasons flagged_toyota;
          related_news := None |}).
Proof.
  assert (Hin : In flagged_toyota [flagged_toyota]) by (left; reflexivity).
  exact (conj Hin
           (@create_hot_stock_report_email_shows_stocks sample_builtins
              (u "2024-01-02") [flagged_toyota] flagged_toyota Hin)).
Defined.

(** ** Splitting, and the names of attachments *)

Section Splitting.

Variable sep : N.

Lemma split_not_nil (s : pystr) : split sep s <> [].
Proof.
  induction s as [|c s IH]; cbn [split]; [discriminate|].
  destruct (c =? sep)%N; [discriminate|].
  destruct (split sep s); discriminate.
Qed.

(** No piece contains the separator. *)
Lemma split_pieces_clean (s : pystr) :
  Forall (fun piece => existsb (N.eqb sep) piece = false) (split sep s).
Proof.
  induction s as [|c s IH]; cbn [split]; [repeat constructor|].
  destruct (c =? sep)%N eqn:Ec; [constructor; [reflexivity|exact IH]|].
  destruct (split sep s) as [|piece pieces]; [repeat constructor|].
  - cbn [existsb]. rewrite N.eqb_sym, Ec. reflexivity.
  - inversion IH as [|? ? Hp Hps]; subst. constructor; [|exact Hps].
    cbn [existsb]. now rewrite N.eqb_sym, Ec, Hp.
Qed.

(** Joining the pieces gives the string back. *)
Lemma join_split (s : pystr) : join sep (split sep s) = s.
Proof.
  induction s as [|c s IH]; cbn [split]; [reflexivity|].
  destruct (c =? sep)%N eqn:Ec.
  - apply N.eqb_eq in Ec. subst c.
    pose proof (split_not_nil s) as Hn.
    destruct (split sep s) as [|piece pieces]; [contradiction|].
    cbn [join app] in *. now rewrite IH.
  - pose proof (split_not_nil s) as Hn.
    destruct (split sep s) as [|piece pieces]; [contradiction|].
    destruct pieces as [|piece' pieces]; cbn [join app] in *; now rewrite IH.
Qed.

Lemma join_snoc (pieces : list pystr) (piece : pystr) :
  pieces <> [] ->
  join sep (pieces ++ [piece]) = join sep pieces ++ sep :: piece.
Proof.
  induction pieces as [|first rest IH]; intros Hn; [contradiction|].
  destruct rest as [|second rest]; [reflexivity|].
  change (join sep ((first :: second :: rest) ++ [piece]))
    with (first ++ sep :: join sep ((second :: rest) ++ [piece])).
  rewrite IH by discriminate.
  change (join sep (first :: second :: rest))
    with (first ++ sep :: join sep (second :: rest)).
  now rewrite <- app_assoc.
Qed.

(** The first piece is the text before the first separator. *)
Lemma split_head_is_first_piece (s : pystr) :
  split_head sep s = hd [] (split sep s).
Proof.
  induction s as [|c s IH]; cbn [split split_head]; [reflexivity|].
  destruct (c =? sep)%N; [reflexivity|].
  rewrite IH. now destruct (split sep s).
Qed.

End Splitting.

Lemma split_no_sep (sep : N) (s : pystr) :
  existsb (N.eqb sep) s = false -> split sep s = [s].
Proof.
  induction s as [|c s IH]; cbn [split existsb]; [reflexivity|].
  intros E. apply orb_false_elim in E as [Ec Es].
  rewrite N.eqb_sym, Ec. now rewrite (IH Es).
Qed.

(** X16. The name [send_email] gives an attachment,
    [file_path.split("/")[-1]], is the last component of the path: it
    contains no ['/'], the path is this name preceded by nothing or by a
    text that ends in ['/'], and a path without ['/'] is its own name. *)
Theorem attachment_name_is_last_component (file_path : pystr) :
  existsb (N.eqb 47) (basename file_path) = false /\
  (exists dir,
      file_path = dir ++ basename file_path /\
      (dir = [] \/ exists d, dir = d ++ [47%N])) /\
  (existsb (N.eqb 47) file_path = false -> basename file_path = file_path).
Proof.
  unfold basename.
  pose proof (split_not_nil 47 file_path) as Hn.
  pose proof (split_pieces_clean 47 file_path) as Hc.
  pose proof (join_split 47 file_path) as Hj.
  split; [|split].
  - apply (proj1 (Forall_forall _ _) Hc).
    destruct (exists_last Hn) as (l & x & E). rewrite E, last_last.
    apply in_or_app. right. now left.
  - destruct (exists_last Hn) as (l & x & E). rewrite E, last_last.
    rewrite E in Hj. destruct l as [|p l].
    + exists []. split; [now rewrite <- Hj|now left].
    + rewrite join_snoc in Hj by discriminate.
      exists (join 47 (p :: l) ++ [47%N]). split.
      * now rewrite <- app_assoc, <- Hj.
      * right. eauto.
  - intros E. now rewrite (split_no_sep 47 file_path E).
Qed.

(** The name of a file two directories down, and of a path that ends in a
    slash. *)
Example basename_samples :
  basename (u "out/graphs/gdp.png") = u "gdp.png" /\
  basename (u "gdp.png") = u "gdp.png" /\
  basename (u "out/graphs/") = [].
Proof. vm_compute. repeat split. Qed.

Section Sending.

Variable fs : files.


End Sending.


(** Two attachments, the second unreadable: the mail goes out with the
    first one, under its file name. *)
Example send_email_one_unreadable :
  send_email one_file accepting (Some (u "me@example.com")) (Some (u "pw"))
    (u "Report") (u "Body") (u "you@example.com")
    (Some [u "out/graphs/gdp.png"; u "out/graphs/cpi.png"]) [] =
  (true,
   [{| msg_from := Some (u "me@example.com");
       msg_to := u "you@example.com";
       msg_subject := u "Report";
       msg_body := u "Body";
       msg_parts :=
         [{| disposition := u "attachment; filename= gdp.png";
             part_bytes := [137; 80; 78; 71]%N |}] |}]).
Proof. vm_compute. reflexivity. Qed.

(** ** The configuration *)

Section Configuration.

Context `{Parsers}.

Lemma int_setting_ok env name default :
  (exists z, int_setting env name default = Ok z) <-> int_ok env name.
Proof.
  unfold int_setting, int_ok. destruct (env name) as [text|].
  - destruct (int_of_str text); split; try congruence; eauto.
    intros [z E]. discriminate.
  - split; eauto.
Qed.

Lemma float_setting_ok env name default :
  (exists x, float_setting env name default = Ok x) <-> float_ok env name.
Proof.
  unfold float_setting, float_ok. destruct (env name) as [text|].
  - destruct (float_of_str text); split; try congruence; eauto.
    intros [z E]. discriminate.
  - split; eauto.
Qed.

Lemma int_setting_raises env name default e :
  int_setting env name default = Raise e -> e = ValueError.
Proof.
  unfold int_setting. destruct (env name) as [text|]; [|discriminate].
  destruct (int_of_str text); [discriminate|congruence].
Qed.

Lemma float_setting_raises env name default e :
  float_setting env name default = Raise e -> e = ValueError.
Proof.
  unfold float_setting. destruct (env name) as [text|]; [|discriminate].
  destruct (float_of_str text); [discriminate|congruence].
Qed.

End Configuration.

(** X18. [load_config] returns a configuration exactly when
    [OPENAI_API_KEY] and [RECIPIENT_EMAIL] are set and not empty and each
    of the three numeric variables is unset or parses; in every other case
    it raises [ValueError] and nothing else. *)
Theorem load_config_checks_required {P : Parsers} (env : environ) :
  ((exists loaded, load_config env = Ok loaded) <->
   is_set (env (u "OPENAI_API_KEY")) = true /\
   is_set (env (u "RECIPIENT_EMAIL")) = true /\
   int_ok env (u "HOT_STOCK_DAYS") /\
   float_ok env (u "VOLUME_THRESHOLD") /\
   float_ok env (u "PRICE_CHANGE_THRESHOLD"))
  /\
  (forall e, load_config env = Raise e -> e = ValueError)
  /\
  (forall loaded,
      load_config env = Ok loaded ->
      is_set (openai_api_key loaded) = true /\
      is_set (recipient_email loaded) = true).
Proof.
  unfold load_config.
  pose proof (int_setting_ok env (u "HOT_STOCK_DAYS") 5) as Hi.
  pose proof (float_setting_ok env (u "VOLUME_THRESHOLD") (f64_of_Z 2)) as Hv.
  pose proof (float_setting_ok env (u "PRICE_CHANGE_THRESHOLD")
                (f64_div (f64_of_Z 5) (f64_of_Z 100))) as Hp.
  pose proof (int_setting_raises env (u "HOT_STOCK_DAYS") 5) as Ri.
  pose proof (float_setting_raises env (u "VOLUME_THRESHOLD") (f64_of_Z 2))
    as Rv.
  pose proof (float_setting_raises env (u "PRICE_CHANGE_THRESHOLD")
                (f64_div (f64_of_Z 5) (f64_of_Z 100))) as Rp.
  destruct (int_setting env (u "HOT_STOCK_DAYS") 5) as [days|ei];
    cbn [bind].
  2:{ split; [|split].
      - split; [intros [? E]; discriminate|].
        intros (_ & _ & Hok & _). apply Hi in Hok as [? E]. discriminate.
      - intros e [= <-]. now apply Ri.
      - discriminate. }
  destruct (float_setting env (u "VOLUME_THRESHOLD") (f64_of_Z 2)) as [vt|ev];
    cbn [bind].
  2:{ split; [|split].
      - split; [intros [? E]; discriminate|].
        intros (_ & _ & _ & Hok & _). apply Hv in Hok as [? E]. discriminate.
      - intros e [= <-]. now apply Rv.
      - discriminate. }
  destruct (float_setting env (u "PRICE_CHANGE_THRESHOLD")
              (f64_div (f64_of_Z 5) (f64_of_Z 100))) as [pt|ep]; cbn [bind].
  2:{ split; [|split].
      - split; [intros [? E]; discriminate|].
        intros (_ & _ & _ & _ & Hok). apply Hp in Hok as [? E]. discriminate.
      - intros e [= <-]. now apply Rp.
      - discriminate. }
  cbn [filter snd openai_api_key recipient_email].
  assert (Hi' : int_ok env (u "HOT_STOCK_DAYS")) by (apply Hi; eauto).
  assert (Hv' : float_ok env (u "VOLUME_THRESHOLD")) by (apply Hv; eauto).
  assert (Hp' : float_ok env (u "PRICE_CHANGE_THRESHOLD")) by (apply Hp; eauto).
  destruct (is_set (env (u "OPENAI_API_KEY"))) eqn:Eo,
    (is_set (env (u "RECIPIENT_EMAIL"))) eqn:Er; cbn [negb];
    (split; [|split]);
    try (split; [intros [? E]; discriminate|intros (A & B & _); discriminate]);
    try (intros e [= <-]; reflexivity);
    try discriminate.
  - split; [intros _; repeat split; assumption|eauto].
  - intros loaded [= <-]. cbn [openai_api_key recipient_email]. now split.
Qed.

(** X19. The symbols of the configuration are the pieces of
    [TARGET_SYMBOLS] (or of the default list) between commas, kept as they
    are: joining them with commas gives the text back, there is always at
    least one, none contains a comma, and a text without a comma, the empty
    text included, is the one symbol. *)
Theorem load_config_target_symbols {P : Parsers} (env : environ)
  (loaded : config) :
  load_config env = Ok loaded ->
  join 44 (target_symbols loaded) = symbols_text env /\
  target_symbols loaded <> [] /\
  Forall (fun sym => existsb (N.eqb 44) sym = false) (target_symbols loaded) /\
  (existsb (N.eqb 44) (symbols_text env) = false ->
   target_symbols loaded = [symbols_text env]).
Proof.
  intros Hl.
  assert (Et : target_symbols loaded = split 44 (symbols_text env)).
  { revert Hl. unfold load_config.
    destruct (int_setting env (u "HOT_STOCK_DAYS") 5); [|discriminate].
    destruct (float_setting env (u "VOLUME_THRESHOLD") (f64_of_Z 2));
      [|discriminate].
    destruct (float_setting env (u "PRICE_CHANGE_THRESHOLD")
                (f64_div (f64_of_Z 5) (f64_of_Z 100))); [|discriminate].
    cbn [bind filter snd openai_api_key recipient_email].
    destruct (is_set (env (u "OPENAI_API_KEY"))),
      (is_set (env (u "RECIPIENT_EMAIL"))); cbn [negb]; try discriminate.
    now intros [= <-]. }
  rewrite Et. split; [apply join_split|]. split; [apply split_not_nil|].
  split; [apply split_pieces_clean|apply split_no_sep].
Qed.

Lemma load_config_target_symbols_witness :
  @load_config sample_parsers sample_env = Ok sample_config /\
  (join 44 (target_symbols sample_config) = symbols_text sample_env /\
   target_symbols sample_config <> [] /\
   Forall (fun sym => existsb (N.eqb 44) sym = false)
     (target_symbols sample_config) /\
   (existsb (N.eqb 44) (symbols_text sample_env) = false ->
    target_symbols sample_config = [symbols_text sample_env])).
Proof.
  assert (Hl : @load_config sample_parsers sample_env = Ok sample_config)
    by (vm_compute; reflexivity).
  exact (conj Hl
           (@load_config_target_symbols sample_parsers sample_env
              sample_config Hl)).
Defined.

(** ** The hot-stock run *)

Section HotStockRun.

Import HotStockMain.

Context {B : Builtins} {N : Numerics} {P : Parsers}.

Variables (env : environ) (logging : pystr -> result unit) (now : clock)
  (history : market) (fetch : provider) (api : backend) (fs : files)
  (smtp : server) (fuel : nat).

Lemma load_config_fields (loaded : config) :
  load_config env = Ok loaded ->
  openai_api_key loaded = env (u "OPENAI_API_KEY") /\
  gmail_username loaded = env (u "GMAIL_USERNAME") /\
  gmail_app_password loaded = env (u "GMAIL_APP_PASSWORD") /\
  recipient_email loaded = env (u "RECIPIENT_EMAIL") /\
  is_set (openai_api_key loaded) = true.
Proof.
  unfold load_config.
  destruct (int_setting env (u "HOT_STOCK_DAYS") 5); [|discriminate].
  destruct (float_setting env (u "VOLUME_THRESHOLD") (f64_of_Z 2));
    [|discriminate].
  destruct (float_setting env (u "PRICE_CHANGE_THRESHOLD")
              (f64_div (f64_of_Z 5) (f64_of_Z 100))); [|discriminate].
  cbn [bind filter snd openai_api_key recipient_email].
  destruct (is_set (env (u "OPENAI_API_KEY"))) eqn:Eo,
    (is_set (env (u "RECIPIENT_EMAIL"))); cbn [negb]; try discriminate.
  intros [= <-]. cbn [openai_api_key gmail_username gmail_app_password
    recipient_email]. repeat split. exact Eo.
Qed.

Lemma get_active_companies_asked (symbols : list pystr) (days : Z) :
  fst (get_active_companies history symbols days) = symbols.
Proof.
  unfold get_active_companies.
  destruct (get_active_from_well_kept history days symbols [] []) as [Hf _];
    [|exact Hf].
  split; [constructor|]. split; [intros x []|constructor].
Qed.

(** [main] once the configuration is loaded and logging is set up. *)
Lemma main_after_setup (phase1_available : bool) (loaded : config) :
  load_config env = Ok loaded ->
  logging (log_level loaded) = Ok tt ->
  main env logging phase1_available now history fetch api fs smtp fuel =
    match flagged_stocks history loaded with
    | [] => (Returned, prices_only (target_symbols loaded))
    | stock :: stocks =>
        match collect_news phase1_available loaded now fetch api fuel with
        | (issued, RecursionError log) =>
            (RaisedRecursionError,
             {| asked := target_symbols loaded; queries := issued;
                events := log; sessions := []; printed := [] |})
        | (issued, Done news_articles log) =>
            match attach_related news_articles (stock :: stocks) with
            | Raise e =>
                (Raised e,
                 {| asked := target_symbols loaded; queries := issued;
                    events := log; sessions := []; printed := [] |})
            | Ok hot_stocks =>
                (Returned,
                 {| asked := target_symbols loaded; queries := issued;
                    events := log;
                    sessions :=
                      fst (deliver phase1_available loaded now fs smtp
                             hot_stocks);
                    printed :=
                      snd (deliver phase1_available loaded now fs smtp
                             hot_stocks) |})
            end
        end
    end.
Proof.
  intros Hl Hg. unfold main, flagged_stocks, prices_only. rewrite Hl, Hg.
  pose proof (get_active_companies_asked (target_symbols loaded)
                (hot_stock_days loaded)) as Ha.
  destruct (get_active_companies history (target_symbols loaded)
              (hot_stock_days loaded)) as [symbols stock_data].
  cbn [fst snd] in *. subst symbols.
  destruct stock_data as [|frame frames]; [reflexivity|].
  destruct (identify_hot_stocks (frame :: frames) (volume_threshold loaded)
              (price_change_threshold loaded)) as [|stock stocks];
    [reflexivity|].
  destruct (collect_news phase1_available loaded now fetch api fuel)
    as [issued [news_articles log|log]]; [|reflexivity].
  destruct (attach_related news_articles (stock :: stocks))
    as [hot_stocks|e]; [|reflexivity].
  now destruct (deliver phase1_available loaded now fs smtp hot_stocks).
Qed.

(** The queries of step 3 are those of the collector, run with the OpenAI
    key. *)
Lemma collect_news_queries (phase1_available : bool) (loaded : config) :
  fst (collect_news phase1_available loaded now fetch api fuel) =
    if phase1_available && is_set (openai_api_key loaded) then
      map (mk_query (text (openai_api_key loaded)) (yesterday now) 30)
        (firstn 3 default_keywords)
    else [].
Proof.
  unfold collect_news.
  destruct (phase1_available && is_set (openai_api_key loaded));
    [|reflexivity].
  pose proof (get_market_news_issued (text (openai_api_key loaded))
                (yesterday now) fetch None 30) as Hi.
  destruct (get_market_news (text (openai_api_key loaded)) (yesterday now)
              fetch None 30) as [issued collected].
  cbn [fst] in Hi. subst issued.
  now destruct collected as [[|article rest]|e].
Qed.

(** Step 3 ends with the narrated headlines. *)
Lemma collect_news_done (loaded : config) :
  is_set (openai_api_key loaded) = true ->
  exists news_articles log,
    collect_news true loaded now fetch api fuel =
      (map (mk_query (text (openai_api_key loaded)) (yesterday now) 30)
         (firstn 3 default_keywords),
       Done news_articles log) /\
    Forall2 narrated
      (filter has_body
         (headlines (text (openai_api_key loaded)) (yesterday now) fetch 30))
      news_articles.
Proof.
  intros Hs.
  pose proof (collect_news_queries true loaded) as Hq.
  rewrite Hs in Hq. cbn [andb] in Hq.
  revert Hq. unfold collect_news, headlines. rewrite Hs. cbn [andb].
  destruct (get_market_news (text (openai_api_key loaded)) (yesterday now)
              fetch None 30) as [issued collected].
  cbn [snd].
  destruct collected as [[|article rest]|e]; cbn [fst]; intros ->.
  - exists [], []. split; [reflexivity|constructor].
  - unfold summarize_multiple_articles.
    destruct (summarize_from_narrates api (u "gpt-4o-mini") fuel
                (length (article :: rest)) (article :: rest) 0 [] [])
      as (out & log & E & HF).
    exists out, log. split; [now rewrite E|exact HF].
  - exists [], []. split; [reflexivity|constructor].
Qed.

Lemma title_is_not_summary : u "title" <> u "summary".
Proof. intros E. vm_compute in E. discriminate. Qed.

Lemma narrated_title (article narrated_article : dict) :
  narrated article narrated_article ->
  dict_get (u "title") narrated_article = dict_get (u "title") article.
Proof.
  intros [summary ->]. apply dict_get_set_other, title_is_not_summary.
Qed.


Lemma narrated_In (articles news_articles : list dict) (article : dict) :
  Forall2 narrated articles news_articles ->
  In article articles ->
  exists narrated_article,
    In narrated_article news_articles /\ narrated article narrated_article.
Proof.
  induction 1 as [|a b l l' Hn _ IH]; intros Hin; [contradiction|].
  destruct Hin as [->|Hin].
  - exists b. split; [now left|exact Hn].
  - destruct (IH Hin) as (x & Hx & Hnx). exists x. split; [now right|exact Hnx].
Qed.

(** One title that supports no [in] test stops the linker. *)
Lemma link_news_to_stock_stops (stock_symbol : pystr)
  (news_articles : list dict) (article : dict) :
  In article news_articles ->
  dict_get (u "title") article = Some VNone ->
  link_news_to_stock stock_symbol news_articles = Raise TypeError.
Proof.
  intros Hin Ht.
  induction news_articles as [|first rest IH]; [contradiction|].
  cbn [link_news_to_stock]. destruct Hin as [->|Hin].
  - unfold get_or. rewrite Ht. reflexivity.
  - destruct (title_matches stock_symbol (get_or first (u "title") (VStr [])))
      as [hit|e] eqn:Et; cbn [bind].
    + now rewrite (IH Hin).
    + now rewrite (title_matches_raises_TypeError _ _ _ Et).
Qed.

Lemma attach_related_with_news (news_articles : list dict)
  (hot_stocks : list hot_stock) :
  Forall str_title news_articles ->
  attach_related news_articles hot_stocks =
    Ok (map (with_news news_articles) hot_stocks).
Proof.
  intros Hs. induction hot_stocks as [|stock rest IH]; [reflexivity|].
  cbn [attach_related map].
  rewrite (link_news_to_stock_filter _ _ Hs), IH. reflexivity.
Qed.

(** No run ends in a [RecursionError]: the batch catches it. *)
Lemma main_no_recursion_error (phase1_available : bool) :
  fst (main env logging phase1_available now history fetch api fs smtp fuel)
    <> RaisedRecursionError.
Proof.
  unfold main.
  destruct (load_config env) as [loaded|e]; [|discriminate].
  destruct (logging (log_level loaded)) as [[]|e]; [|discriminate].
  destruct (get_active_companies history (target_symbols loaded)
              (hot_stock_days loaded)) as [symbols [|frame frames]];
    [discriminate|].
  destruct (identify_hot_stocks (frame :: frames) (volume_threshold loaded)
              (price_change_threshold loaded)) as [|stock stocks];
    [discriminate|].
  assert (Hc : exists issued news_articles log,
             collect_news phase1_available loaded now fetch api fuel
               = (issued, Done news_articles log)).
  { unfold collect_news.
    destruct (phase1_available && is_set (openai_api_key loaded)); [|eauto].
    destruct (get_market_news (text (openai_api_key loaded)) (yesterday now)
                fetch None 30) as [issued [[|article rest]|e]]; eauto.
    unfold summarize_multiple_articles.
    destruct (summarize_from_narrates api (u "gpt-4o-mini") fuel
                (length (article :: rest)) (article :: rest) 0 [] [])
      as (out & log & E & _).
    rewrite E. eauto. }
  destruct Hc as (issued & news_articles & log & ->).
  destruct (attach_related news_articles (stock :: stocks)) as [hot_stocks|e];
    [|discriminate].
  now destruct (deliver phase1_available loaded now fs smtp hot_stocks).
Qed.

End HotStockRun.

Import HotStockMain.

(** X20. Whatever happens in a run of the hot-stock phase, it sends at
    most three news queries, and only when phase 1 is importable; each of
    them carries the value of [OPENAI_API_KEY] as the provider's API key,
    asks for 20 articles of the day before and is for one of the first
    three default keywords. *)
Theorem main_queries_carry_openai_key {B : Builtins} {N : Numerics}
  {P : Parsers} (env : environ) (logging : pystr -> result unit)
  (phase1_available : bool) (now : clock) (history : market)
  (fetch : provider) (api : backend) (fs : files) (smtp : server)
  (fuel : nat) :
  let w :=
    snd (main env logging phase1_available now history fetch api fs smtp
           fuel) in
  length (queries w) <= 3 /\
  (queries w <> [] -> phase1_available = true) /\
  Forall (fun params =>
            env (u "OPENAI_API_KEY") = Some (api_key params) /\
            api_key params <> [] /\
            page_size params = 20%Z /\
            from_date params = yesterday now /\
            In (q params) (firstn 3 default_keywords))
    (queries w).
Proof.
  cbv zeta.
  assert (Hnone : forall w : world,
             queries w = [] ->
             length (queries w) <= 3 /\
             (queries w <> [] -> phase1_available = true) /\
             Forall (fun params =>
                       env (u "OPENAI_API_KEY") = Some (api_key params) /\
                       api_key params <> [] /\
                       page_size params = 20%Z /\
                       from_date params = yesterday now /\
                       In (q params) (firstn 3 default_keywords))
               (queries w)).
  { intros w ->. split; [cbn; lia|]. split; [congruence|constructor]. }
  destruct (load_config env) as [loaded|e] eqn:Hl.
  2:{ apply Hnone. unfold main. now rewrite Hl. }
  destruct (logging (log_level loaded)) as [[]|e] eqn:Hg.
  2:{ apply Hnone. unfold main. now rewrite Hl, Hg. }
  rewrite (main_after_setup env logging now history fetch api fs smtp fuel
             phase1_available loaded Hl Hg).
  destruct (flagged_stocks history loaded) as [|stock stocks];
    [now apply Hnone|].
  pose proof (collect_news_queries now fetch api fuel phase1_available loaded)
    as Hq.
  destruct (load_config_fields env loaded Hl) as (Ek & _ & _ & _ & Hs).
  assert (Hi : length (fst (collect_news phase1_available loaded now fetch
                              api fuel)) <= 3 /\
               (fst (collect_news phase1_available loaded now fetch api fuel)
                  <> [] -> phase1_available = true) /\
               Forall (fun params =>
                         env (u "OPENAI_API_KEY") = Some (api_key params) /\
                         api_key params <> [] /\
                         page_size params = 20%Z /\
                         from_date params = yesterday now /\
                         In (q params) (firstn 3 default_keywords))
                 (fst (collect_news phase1_available loaded now fetch api
                         fuel))).
  { rewrite Hq. destruct phase1_available; cbn [andb].
    - rewrite Hs. split; [|split; [reflexivity|]].
      + rewrite length_map. apply firstn_le_length.
      + apply Forall_forall. intros params Hp.
        apply in_map_iff in Hp as (keyword & <- & Hin).
        cbn [api_key page_size from_date q mk_query].
        rewrite <- Ek. destruct (openai_api_key loaded) as [[|c key]|];
          try discriminate.
        cbn [text]. repeat split; [discriminate|exact Hin].
    - split; [cbn; lia|]. split; [congruence|constructor]. }
  destruct (collect_news phase1_available loaded now fetch api fuel)
    as [issued [news_articles log|log]]; cbn [fst] in Hi.
  - destruct (attach_related news_articles (stock :: stocks));
      cbn [snd queries]; exact Hi.
  - cbn [snd queries]. exact Hi.
Qed.

(** X21. When the configuration loads and logging is set up, a run in
    which no stock is flagged (no price data included) returns after
    asking for the prices of the configured symbols: no news query, no
    model request, no mail, nothing printed. When a stock is flagged and
    phase 1 is not importable, the run asks for no news and sends no mail;
    it prints the heading and the report of the flagged stocks, each with
    an empty list of related news. *)
Theorem main_without_flag_or_phase1 {B : Builtins} {N : Numerics}
  {P : Parsers} (env : environ) (logging : pystr -> result unit)
  (now : clock) (history : market) (fetch : provider) (api : backend)
  (fs : files) (smtp : server) (fuel : nat) (loaded : config) :
  load_config env = Ok loaded ->
  logging (log_level loaded) = Ok tt ->
  (flagged_stocks history loaded = [] ->
   forall phase1_available,
     main env logging phase1_available now history fetch api fs smtp fuel =
       (Returned, prices_only (target_symbols loaded)))
  /\
  (flagged_stocks history loaded <> [] ->
   main env logging false now history fetch api fs smtp fuel =
     (Returned,
      {| asked := target_symbols loaded;
         queries := [];
         events := [];
         sessions := [];
         printed :=
           [u "--- 注目銘柄レポート ---";
            create_hot_stock_report_email (report_date now)
              (map (fun stock => set_related stock [])
                 (flagged_stocks history loaded))] |})).
Proof.
  intros Hl Hg. split.
  - intros Hf phase1_available.
    rewrite (main_after_setup env logging now history fetch api fs smtp fuel
               phase1_available loaded Hl Hg).
    now rewrite Hf.
  - intros Hf.
    rewrite (main_after_setup env logging now history fetch api fs smtp fuel
               false loaded Hl Hg).
    destruct (flagged_stocks history loaded) as [|stock stocks];
      [contradiction|].
    unfold collect_news. cbn [andb].
    rewrite (attach_related_with_news [] (stock :: stocks) (Forall_nil _)).
    reflexivity.
Qed.

Lemma main_without_flag_or_phase1_witness :
  @load_config sample_parsers sample_env = Ok sample_config /\
  quiet_logging (log_level sample_config) = Ok tt /\
  ((@flagged_stocks sample_numerics open_market sample_config = [] ->
    forall phase1_available,
      @main sample_builtins sample_numerics sample_parsers sample_env
        quiet_logging phase1_available sample_clock open_market with_text
        throttled_once one_file refusing 5 =
        (Returned, prices_only (target_symbols sample_config)))
   /\
   (@flagged_stocks sample_numerics open_market sample_config <> [] ->
    @main sample_builtins sample_numerics sample_parsers sample_env
      quiet_logging false sample_clock open_market with_text throttled_once
      one_file refusing 5 =
      (Returned,
       {| asked := target_symbols sample_config;
          queries := [];
          events := [];
          sessions := [];
          printed :=
            [u "--- 注目銘柄レポート ---";
             @create_hot_stock_report_email sample_builtins
               (report_date sample_clock)
               (map (fun stock => set_related stock [])
                  (@flagged_stocks sample_numerics open_market
                     sample_config))] |}))).
Proof.
  assert (Hl : @load_config sample_parsers sample_env = Ok sample_config)
    by (vm_compute; reflexivity).
  assert (Hg : quiet_logging (log_level sample_config) = Ok tt)
    by reflexivity.
  exact (conj Hl (conj Hg
           (@main_without_flag_or_phase1 sample_builtins sample_numerics
              sample_parsers sample_env quiet_logging sample_clock
              open_market with_text throttled_once one_file refusing 5
              sample_config Hl Hg))).
Defined.



Lemma sample_config_loads :
  @load_config sample_parsers sample_env = Ok sample_config.
Proof. vm_compute. reflexivity. Qed.

Lemma open_market_flags :
  @flagged_stocks sample_numerics open_market sample_config <> [].
Proof. intros E. vm_compute in E. discriminate. Qed.


(** X23. Nothing in the hot-stock phase catches what the linker raises:
    when a stock is flagged and one collected item with text has the title
    [None], the run ends in [TypeError] after the news queries and the
    model requests, whatever the backend answers; no mail is sent and
    nothing is printed. *)
Theorem main_null_title_stops_the_run {B : Builtins} {N : Numerics}
  {P : Parsers} (env : environ) (logging : pystr -> result unit)
  (now : clock) (history : market) (fetch : provider) (api : backend)
  (fs : files) (smtp : server) (fuel : nat) (loaded : config)
  (article : dict) :
  load_config env = Ok loaded ->
  logging (log_level loaded) = Ok tt ->
  flagged_stocks history loaded <> [] ->
  In article
    (headlines (text (openai_api_key loaded)) (yesterday now) fetch 30) ->
  without_text article = false ->
  dict_get (u "title") article = Some VNone ->
  exists log,
    main env logging true now history fetch api fs smtp fuel =
      (Raised TypeError,
       {| asked := target_symbols loaded;
          queries :=
            map (mk_query (text (openai_api_key loaded)) (yesterday now) 30)
              (firstn 3 default_keywords);
          events := log;
          sessions := [];
          printed := [] |}).
Proof.
  intros Hl Hg Hf Hin Hbody Ht.
  destruct (load_config_fields env loaded Hl) as (_ & _ & _ & _ & Hset).
  destruct (collect_news_done now fetch api fuel loaded Hset)
    as (news_articles & log & Ec & HF).
  exists log.
  rewrite (main_after_setup env logging now history fetch api fs smtp fuel
             true loaded Hl Hg).
  destruct (flagged_stocks history loaded) as [|stock stocks] eqn:Ef;
    [contradiction|].
  rewrite Ec.
  destruct (narrated_In _ _ article HF) as (told & Htold & Hn).
  { apply filter_In. split; [exact Hin|].
    rewrite has_body_text. now rewrite Hbody. }
  cbn [attach_related].
  rewrite (link_news_to_stock_stops (symbol stock) news_articles told Htold).
  - reflexivity.
  - now rewrite (narrated_title _ _ Hn).
Qed.

Lemma main_null_title_stops_the_run_witness :
  @load_config sample_parsers sample_env = Ok sample_config /\
  quiet_logging (log_level sample_config) = Ok tt /\
  @flagged_stocks sample_numerics open_market sample_config <> [] /\
  In (nth 1 (headlines (u "sk-sample") (u "2024-01-01") null_title 30) [])
    (headlines (text (openai_api_key sample_config)) (yesterday sample_clock)
       null_title 30) /\
  without_text
    (nth 1 (headlines (u "sk-sample") (u "2024-01-01") null_title 30) [])
    = false /\
  dict_get (u "title")
    (nth 1 (headlines (u "sk-sample") (u "2024-01-01") null_title 30) [])
    = Some VNone /\
  exists log,
    @main sample_builtins sample_numerics sample_parsers sample_env
      quiet_logging true sample_clock open_market null_title always_throttled
      one_file accepting 5 =
      (Raised TypeError,
       {| asked := target_symbols sample_config;
          queries :=
            map (mk_query (text (openai_api_key sample_config))
                   (yesterday sample_clock) 30)
              (firstn 3 default_keywords);
          events := log;
          sessions := [];
          printed := [] |}).
Proof.
  assert (Hin : In (nth 1 (headlines (u "sk-sample") (u "2024-01-01")
                             null_title 30) [])
                  (headlines (text (openai_api_key sample_config))
                     (yesterday sample_clock) null_title 30)).
  { vm_compute. right. left. reflexivity. }
  assert (Hbody : without_text
                    (nth 1 (headlines (u "sk-sample") (u "2024-01-01")
                              null_title 30) []) = false)
    by (vm_compute; reflexivity).
  assert (Ht : dict_get (u "title")
                 (nth 1 (headlines (u "sk-sample") (u "2024-01-01")
                           null_title 30) []) = Some VNone)
    by (vm_compute; reflexivity).
  exact (conj sample_config_loads (conj eq_refl (conj open_market_flags
           (conj Hin (conj Hbody (conj Ht
              (@main_null_title_stops_the_run sample_builtins sample_numerics
                 sample_parsers sample_env quiet_logging sample_clock
                 open_market null_title always_throttled one_file accepting 5
                 sample_config
                 (nth 1 (headlines (u "sk-sample") (u "2024-01-01")
                           null_title 30) [])
                 sample_config_loads eq_refl open_market_flags Hin Hbody
                 Ht))))))).
Defined.

(** The two sample runs: the report is handed to a server that refuses
    it and the run returns; with a [null] title the run raises. *)
Example main_sample_runs :
  fst (@main sample_builtins sample_numerics sample_parsers sample_env
         quiet_logging true sample_clock open_market with_text
         throttled_once one_file refusing 5) = Returned /\
  length
    (sessions
       (snd (@main sample_builtins sample_numerics sample_parsers sample_env
               quiet_logging true sample_clock open_market with_text
               throttled_once one_file refusing 5))) = 1 /\
  requests_made
    (events
       (snd (@main sample_builtins sample_numerics sample_parsers sample_env
               quiet_logging true sample_clock open_market with_text
               throttled_once one_file refusing 5))) = 3 /\
  fst (@main sample_builtins sample_numerics sample_parsers sample_env
         quiet_logging true sample_clock open_market null_title
         throttled_once one_file accepting 5) = Raised TypeError.
Proof. vm_compute. repeat split. Qed.

(** ** The run of phase 1 *)

Section MarketRun.

Import MarketConfig MarketMain.

Context {B : Builtins} {P : Parsers}.

Variables (env : environ) (logging : pystr -> result unit) (now : clock)
  (fetch : provider) (api : backend) (fs : files) (smtp : server)
  (fuel : nat).

Lemma market_load_config_fields (loaded : config) :
  load_config env = Ok loaded ->
  market_env_ok env /\
  news_api_key loaded = env (u "NEWS_API_KEY") /\
  gmail_username loaded = env (u "GMAIL_USERNAME") /\
  gmail_app_password loaded = env (u "GMAIL_APP_PASSWORD") /\
  recipient_email loaded = env (u "RECIPIENT_EMAIL") /\
  log_level loaded = level_text env.
Proof.
  unfold load_config, market_env_ok.
  pose proof (int_setting_ok env (u "MAX_NEWS_ARTICLES") 10) as Hi.
  destruct (int_setting env (u "MAX_NEWS_ARTICLES") 10) as [limit|e];
    [|discriminate].
  cbn [bind filter snd news_api_key openai_api_key recipient_email].
  destruct (is_set (env (u "NEWS_API_KEY"))),
    (is_set (env (u "OPENAI_API_KEY"))),
    (is_set (env (u "RECIPIENT_EMAIL"))); cbn [negb]; try discriminate.
  intros [= <-]. cbn. repeat split. apply Hi. eauto.
Qed.

Lemma market_load_config_ok :
  market_env_ok env -> exists loaded, load_config env = Ok loaded.
Proof.
  unfold load_config, market_env_ok. intros (Hn & Ho & Hr & Hi).
  apply int_setting_ok with (default := 10%Z) in Hi as [limit ->].
  cbn [bind filter snd news_api_key openai_api_key recipient_email].
  rewrite Hn, Ho, Hr. cbn [negb]. eauto.
Qed.

Lemma get_market_news_returns key day keywords max_articles :
  exists out,
    snd (get_market_news key day fetch keywords max_articles) = Ok out.
Proof.
  unfold get_market_news.
  destruct (search_all fetch (mk_query key day max_articles) _ [] [])
    as [issued all_articles].
  cbn [snd].
  destruct (format_all (slice_to max_articles all_articles)) as [out|e];
    cbn [try_except]; eauto.
Qed.


(** A run whose setup succeeds returns or is still retrying. *)
Lemma market_main_after_setup (loaded : config) :
  load_config env = Ok loaded ->
  logging (log_level loaded) = Ok tt ->
  fst (main env logging now fetch api fs smtp fuel) = Returned \/
  fst (main env logging now fetch api fs smtp fuel) = RaisedRecursionError.
Proof.
  intros Hl Hg. unfold main. rewrite Hl, Hg.
  destruct (get_market_news_returns (text (news_api_key loaded))
              (yesterday now) None (max_news_articles loaded)) as [out E].
  destruct (get_market_news (text (news_api_key loaded)) (yesterday now)
              fetch None (max_news_articles loaded)) as [issued collected].
  cbn [snd] in E. subst collected.
  destruct out as [|article rest]; [now left|].
  destruct (summarize_multiple_articles fuel api (u "gpt-4o-mini")
              (article :: rest) []) as [[|first others] log|log];
    [now left| |now right].
  destruct (generate_daily_summary api (u "gpt-4o-mini") (first :: others)
              log) as [daily_summary log'].
  destruct (send_email fs smtp _ _ _ _ _ None []). now left.
Qed.

(** No run ends in a [RecursionError]: the batch catches it. *)
Lemma market_main_no_recursion_error :
  fst (main env logging now fetch api fs smtp fuel) <> RaisedRecursionError.
Proof.
  unfold main.
  destruct (load_config env) as [loaded|e]; [|discriminate].
  destruct (logging (log_level loaded)) as [[]|e]; [|discriminate].
  destruct (get_market_news (text (news_api_key loaded)) (yesterday now)
              fetch None (max_news_articles loaded))
    as [issued [[|article rest]|e]]; try discriminate.
  unfold summarize_multiple_articles.
  destruct (summarize_from_narrates api (u "gpt-4o-mini") fuel
              (length (article :: rest)) (article :: rest) 0 [] [])
    as (out & log & E & _).
  rewrite E. cbn [app]. destruct out as [|first others]; [discriminate|].
  destruct (generate_daily_summary api (u "gpt-4o-mini") (first :: others)
              log) as [daily_summary log'].
  now destruct (send_email fs smtp _ _ _ _ _ None []).
Qed.

End MarketRun.

Import MarketConfig MarketMain.

(** X24. A run of phase 1 whose setup fails does not end in the exception
    of the setup: the handler of [main] logs through a name that is bound
    only after the setup, so the run ends in [UnboundLocalError] and has
    done nothing. This happens exactly when [NEWS_API_KEY],
    [OPENAI_API_KEY] or [RECIPIENT_EMAIL] is unset or empty, when
    [MAX_NEWS_ARTICLES] is set and does not parse, or when
    [setup_logging] raises for the level. No run ends in an exception the
    handler raises again. *)
Theorem market_main_setup_failure {B : Builtins} {P : Parsers}
  (env : environ) (logging : pystr -> result unit) (now : clock)
  (fetch : provider) (api : backend) (fs : files) (smtp : server)
  (fuel : nat) :
  (fst (main env logging now fetch api fs smtp fuel) = RaisedUnboundLocalError
   <->
   ~ market_env_ok env \/ exists e, logging (level_text env) = Raise e)
  /\
  (fst (main env logging now fetch api fs smtp fuel) = RaisedUnboundLocalError
   -> snd (main env logging now fetch api fs smtp fuel) = untouched)
  /\
  (forall e, fst (main env logging now fetch api fs smtp fuel) <> Raised e).
Proof.
  destruct (load_config env) as [loaded|e0] eqn:Hl.
  - destruct (market_load_config_fields env loaded Hl)
      as (Hok & _ & _ & _ & _ & Hlevel).
    destruct (logging (log_level loaded)) as [[]|e1] eqn:Hg.
    + pose proof (market_main_after_setup env logging now fetch api fs smtp
                    fuel loaded Hl Hg) as Hend.
      split; [|split].
      * split.
        -- intros E. rewrite E in Hend. destruct Hend; discriminate.
        -- intros [Hn|[e He]]; [contradiction|].
           rewrite <- Hlevel, Hg in He. discriminate.
      * intros E. rewrite E in Hend. destruct Hend; discriminate.
      * intros e E. rewrite E in Hend. destruct Hend; discriminate.
    + assert (Em : main env logging now fetch api fs smtp fuel
                   = (RaisedUnboundLocalError, untouched))
        by (unfold main; now rewrite Hl, Hg).
      rewrite Em. cbn [fst snd]. split; [|split].
      * split; [|reflexivity]. intros _. right. exists e1.
        now rewrite <- Hlevel.
      * reflexivity.
      * discriminate.
  - assert (Em : main env logging now fetch api fs smtp fuel
                 = (RaisedUnboundLocalError, untouched))
      by (unfold main; now rewrite Hl).
    rewrite Em. cbn [fst snd]. split; [|split].
    + split; [|reflexivity]. intros _. left. intros Hok.
      destruct (market_load_config_ok env Hok) as [loaded E]. congruence.
    + reflexivity.
    + discriminate.
Qed.

(** Without the news key the sample run ends in [UnboundLocalError]. *)
Example market_main_without_news_key :
  @main sample_builtins sample_parsers no_news_key quiet_logging market_clock
    with_text never_throttled one_file accepting 5 =
    (RaisedUnboundLocalError, untouched).
Proof. vm_compute. reflexivity. Qed.



(** The sample run: two items with text, one throttle, four model
    requests in all, one mail. *)
Example market_main_sample_run :
  fst (@main sample_builtins sample_parsers market_env quiet_logging
         market_clock with_text throttled_once one_file refusing 5)
    = Returned /\
  requests_made
    (events
       (snd (@main sample_builtins sample_parsers market_env quiet_logging
               market_clock with_text throttled_once one_file refusing 5)))
    = 4 /\
  length
    (sessions
       (snd (@main sample_builtins sample_parsers market_env quiet_logging
               market_clock with_text throttled_once one_file refusing 5)))
    = 1.
Proof. vm_compute. repeat split. Qed.
